(** * Trini: query understanding and resilient movie retrieval

    A shallow embedding of the Python sources
      - [models/extracted_filters.py], [models/trini_response.py],
        [models/user_context.py], [models/chat_session.py],
      - [utils/constants.py], [utils/genre_mapping.py],
        [utils/rate_limiter.py],
      - [utils/ai_prompt_generator.py] (class [AIPromptGenerator]),
      - [utils/movie_search_service.py] (class [MovieSearchService]),
    followed by the properties of the specification that concern them.

    Conventions of the embedding.
      - Python values that come out of [json.loads] (and the raw movie
        records, which are such values) are terms of [pyval]; a [dict] is an
        association list in insertion order with unique keys.
      - A raised exception is the [Raise] case of the error monad [res];
        [try/except] is [catch] / [catch_only].
      - Python [float]s are exact rationals ([Q]): no rounding, no NaN, no
        infinity.  Python [int]s are [Z].
      - A [str] is a UTF-8 byte string; lengths and slices count code points,
        case folding covers ASCII and the Latin-1 letters, [\w] is an ASCII
        word character or any non-ASCII byte, and a digit is an ASCII digit.
      - [json.loads] is the parser of [Json]: plain decimal numbers (no
        exponent, no NaN), the one-letter escapes in strings.
      - What the interpreter or the outside world decides ([hash], the clock,
        [repr] of a float, the remote search, the cache, the wording of a
        justification) is a field of the class [Runtime] or a parameter. *)

From Stdlib Require Import ZArith QArith Qround String Ascii List Bool Lia Lqa.
From Stdlib Require Import DecimalString DecimalZ Sorted Permutation.
Import ListNotations.

Set Implicit Arguments.
Local Open Scope string_scope.

(* ================================================================== *)
(** ** Python values, exceptions and the builtins the sources use       *)
(* ================================================================== *)

Module Py.

(** Exception classes that the sources raise or catch by name. *)
Inductive exn : Type :=
| ValueError | TypeError | AttributeError | KeyError | NameError
| JSONDecodeError | ExternalError.

Definition exn_eqb (a b : exn) : bool :=
  match a, b with
  | ValueError, ValueError | TypeError, TypeError
  | AttributeError, AttributeError | KeyError, KeyError
  | NameError, NameError | JSONDecodeError, JSONDecodeError
  | ExternalError, ExternalError => true
  | _, _ => false
  end.

(** The error monad: a computation returns or raises. *)
Inductive res (A : Type) : Type :=
| Ok (a : A)
| Raise (e : exn).
Arguments Ok {A} a.
Arguments Raise {A} e.

Definition bind {A B} (c : res A) (k : A -> res B) : res B :=
  match c with
  | Ok a => k a
  | Raise e => Raise e
  end.

(** [try: c except Exception: h]. *)
Definition catch {A} (c : res A) (h : A) : A :=
  match c with
  | Ok a => a
  | Raise _ => h
  end.

(** [try: c except (E1, E2, ...): h]; other exceptions propagate. *)
Definition catch_only {A} (es : list exn) (c : res A) (h : res A) : res A :=
  match c with
  | Ok a => Ok a
  | Raise e => if existsb (exn_eqb e) es then h else Raise e
  end.

#[warnings="-register-all"]
Inductive pyval : Type :=
| PNone
| PBool (b : bool)
| PInt (z : Z)
| PFloat (q : Q)
| PStr (s : string)
| PList (l : list pyval)
| PDict (d : list (string * pyval)).

Definition dict : Type := list (string * pyval).

Fixpoint dict_get (d : dict) (k : string) : option pyval :=
  match d with
  | [] => None
  | (k', v) :: d' => if String.eqb k k' then Some v else dict_get d' k
  end.

(** [d.get(k, default)]. *)
Definition get (d : dict) (k : string) (default : pyval) : pyval :=
  match dict_get d k with
  | Some v => v
  | None => default
  end.

(** [k in d]. *)
Definition has_key (d : dict) (k : string) : bool :=
  match dict_get d k with
  | Some _ => true
  | None => false
  end.

(** [d[k] = v]: replaces in place, or appends a new key. *)
Fixpoint dict_set (d : dict) (k : string) (v : pyval) : dict :=
  match d with
  | [] => [(k, v)]
  | (k', v') :: d' =>
      if String.eqb k k' then (k', v) :: d' else (k', v') :: dict_set d' k v
  end.

Definition Qlt_bool (x y : Q) : bool := negb (Qle_bool y x).
Definition Qeq_zero (x : Q) : bool := Qeq_bool x 0.

(** [min(a, b)] and [max(a, b)]: the first argument wins a tie. *)
Definition py_min (a b : Q) : Q := if Qlt_bool b a then b else a.
Definition py_max (a b : Q) : Q := if Qlt_bool a b then b else a.

(** [bool(v)]. *)
Definition truthy (v : pyval) : bool :=
  match v with
  | PNone => false
  | PBool b => b
  | PInt z => negb (Z.eqb z 0)
  | PFloat q => negb (Qeq_zero q)
  | PStr s => negb (String.eqb s "")
  | PList l => match l with [] => false | _ => true end
  | PDict d => match d with [] => false | _ => true end
  end.

(** *** Characters and strings *)

Definition byte (c : ascii) : nat := nat_of_ascii c.

Definition is_digit (c : ascii) : bool :=
  (48 <=? byte c)%nat && (byte c <=? 57)%nat.

(** [str.isspace] on ASCII. *)
Definition is_space (c : ascii) : bool :=
  let n := byte c in
  ((9 <=? n)%nat && (n <=? 13)%nat) || ((28 <=? n)%nat && (n <=? 32)%nat).

(** The regular-expression class [\s] ([ \t\n\r\f\v]). *)
Definition is_re_space (c : ascii) : bool :=
  let n := byte c in
  ((9 <=? n)%nat && (n <=? 13)%nat) || (n =? 32)%nat.

Definition is_upper (c : ascii) : bool :=
  (65 <=? byte c)%nat && (byte c <=? 90)%nat.

Definition is_word (c : ascii) : bool :=
  let n := byte c in
  is_digit c || is_upper c || ((97 <=? n)%nat && (n <=? 122)%nat)
  || (n =? 95)%nat || (128 <=? n)%nat.

(** A UTF-8 continuation byte [10xxxxxx]. *)
Definition is_cont (c : ascii) : bool :=
  (128 <=? byte c)%nat && (byte c <=? 191)%nat.

(** [s.lower()]: ASCII letters, and the capital letters of the Latin-1
    supplement (two bytes, [C3 80] .. [C3 9E] except the sign [C3 97]). *)
Fixpoint lower_from (after_c3 : bool) (s : string) : string :=
  match s with
  | EmptyString => EmptyString
  | String c s' =>
      let n := byte c in
      let c' :=
        if is_upper c then ascii_of_nat (n + 32)
        else if after_c3 && (128 <=? n)%nat && (n <=? 158)%nat
                && negb (n =? 151)%nat
             then ascii_of_nat (n + 32)
        else c in
      String c' (lower_from (n =? 195)%nat s')
  end.

Definition lower (s : string) : string := lower_from false s.

Fixpoint lstrip (s : string) : string :=
  match s with
  | String c s' => if is_space c then lstrip s' else s
  | EmptyString => EmptyString
  end.

(** Drops trailing whitespace: a character is kept when it is not a space
    or when something remains after it. *)
Fixpoint rstrip (s : string) : string :=
  match s with
  | EmptyString => EmptyString
  | String c s' =>
      match rstrip s' with
      | EmptyString => if is_space c then EmptyString else String c EmptyString
      | r => String c r
      end
  end.

(** [s.strip()]. *)
Definition strip (s : string) : string := rstrip (lstrip s).

(** [len(s)]: the number of code points. *)
Fixpoint py_len (s : string) : nat :=
  match s with
  | EmptyString => 0
  | String c s' => if is_cont c then py_len s' else S (py_len s')
  end.

Fixpoint drop_cont (s : string) : string :=
  match s with
  | String c s' => if is_cont c then drop_cont s' else s
  | EmptyString => EmptyString
  end.

Fixpoint take_cont (s : string) : string :=
  match s with
  | String c s' => if is_cont c then String c (take_cont s') else EmptyString
  | EmptyString => EmptyString
  end.

(** [s[:n]]: the first [n] code points. *)
Fixpoint take (n : nat) (s : string) : string :=
  match n, s with
  | O, _ => EmptyString
  | _, EmptyString => EmptyString
  | S n', String c s' => String c (take_cont s' ++ take n' (drop_cont s'))
  end.

Fixpoint starts_with (p s : string) : bool :=
  match p, s with
  | EmptyString, _ => true
  | String a p', String b s' => Ascii.eqb a b && starts_with p' s'
  | String _ _, EmptyString => false
  end.

(** [p in s] for two strings. *)
Fixpoint contains (s p : string) : bool :=
  starts_with p s ||
  match s with
  | EmptyString => false
  | String _ s' => contains s' p
  end.

(** [s.isdigit()] on ASCII. *)
Fixpoint all_digits (s : string) : bool :=
  match s with
  | EmptyString => true
  | String c s' => is_digit c && all_digits s'
  end.

Definition isdigit (s : string) : bool :=
  negb (String.eqb s "") && all_digits s.

(** [s.split()]: maximal runs of non-space characters. *)
Fixpoint split_from (cur : string) (s : string) : list string :=
  match s with
  | EmptyString => if String.eqb cur "" then [] else [cur]
  | String c s' =>
      if is_space c
      then (if String.eqb cur "" then split_from "" s'
            else cur :: split_from "" s')
      else split_from (cur ++ String c "") s'
  end.

Definition split (s : string) : list string := split_from "" s.

(** [sep.join(l)]. *)
Definition join (sep : string) (l : list string) : string :=
  String.concat sep l.

Definition mem_str (s : string) (l : list string) : bool :=
  existsb (String.eqb s) l.

(** *** Numbers and text *)

(** [str(n)] for an [int]. *)
Definition str_of_Z (z : Z) : string := NilZero.string_of_int (Z.to_int z).

(** The value of a string of decimal digits. *)
Definition Z_of_digits (s : string) : option Z :=
  match NilZero.uint_of_string s with
  | Some d => Some (Z.of_uint d)
  | None => None
  end.

(** [int(s)]: surrounding blanks and one sign are accepted. *)
Definition int_of_str (s : string) : res Z :=
  let t := strip s in
  let body :=
    match t with
    | String "-" r => (true, r)
    | String "+" r => (false, r)
    | _ => (false, t)
    end in
  if isdigit (snd body)
  then match Z_of_digits (snd body) with
       | Some z => Ok (if fst body then Z.opp z else z)
       | None => Raise ValueError
       end
  else Raise ValueError.

Fixpoint split_at_dot (s : string) : string * option string :=
  match s with
  | EmptyString => (EmptyString, None)
  | String c s' =>
      if Ascii.eqb c "." then (EmptyString, Some s')
      else let (a, b) := split_at_dot s' in (String c a, b)
  end.

(** The value of [digits] or [digits.digits] (one side may be empty). *)
Definition Q_of_decimal (s : string) : option Q :=
  let (ip, fp) := split_at_dot s in
  let fp' := match fp with Some f => f | None => "" end in
  if all_digits ip && all_digits fp'
     && negb (String.eqb ip "" && String.eqb fp' "")
  then
    let iz := match Z_of_digits ip with Some z => z | None => 0%Z end in
    let fz := match Z_of_digits fp' with Some z => z | None => 0%Z end in
    Some (Qred (inject_Z iz
                + Qmake fz (Pos.pow 10 (Pos.of_nat (String.length fp')))
                  * (if String.eqb fp' "" then 0 else 1)))
  else None.

(** [float(s)] on plain decimal text (no exponent, no [inf]/[nan]). *)
Definition float_of_str (s : string) : res Q :=
  let t := strip s in
  let body :=
    match t with
    | String "-" r => (true, r)
    | String "+" r => (false, r)
    | _ => (false, t)
    end in
  match Q_of_decimal (snd body) with
  | Some q => Ok (if fst body then Qopp q else q)
  | None => Raise ValueError
  end.

(** [int(q)] for a float: truncation toward zero. *)
Definition Q_trunc (q : Q) : Z :=
  if Qle_bool 0 q then Qfloor q else Qceiling q.

(** [float(v)]. *)
Definition py_float (v : pyval) : res Q :=
  match v with
  | PBool b => Ok (if b then 1 else 0)
  | PInt z => Ok (inject_Z z)
  | PFloat q => Ok q
  | PStr s => float_of_str s
  | PNone | PList _ | PDict _ => Raise TypeError
  end.

(** [int(v)]. *)
Definition py_int (v : pyval) : res Z :=
  match v with
  | PBool b => Ok (if b then 1%Z else 0%Z)
  | PInt z => Ok z
  | PFloat q => Ok (Q_trunc q)
  | PStr s => int_of_str s
  | PNone | PList _ | PDict _ => Raise TypeError
  end.

(** [isinstance(v, (int, float))]: booleans are ints in Python. *)
Definition as_number (v : pyval) : option Q :=
  match v with
  | PBool b => Some (if b then 1 else 0)
  | PInt z => Some (inject_Z z)
  | PFloat q => Some q
  | _ => None
  end.

(** [isinstance(v, int)]. *)
Definition as_int (v : pyval) : option Z :=
  match v with
  | PBool b => Some (if b then 1%Z else 0%Z)
  | PInt z => Some z
  | _ => None
  end.

(** [v.lower()], an [AttributeError] unless [v] is a string. *)
Definition lower_of (v : pyval) : res string :=
  match v with
  | PStr s => Ok (lower s)
  | _ => Raise AttributeError
  end.

(** [v.strip()]. *)
Definition strip_of (v : pyval) : res string :=
  match v with
  | PStr s => Ok (strip s)
  | _ => Raise AttributeError
  end.

(** [v[:n]] for a string; lists are sliced too, anything else is a
    [TypeError]. *)
Definition slice_to (n : nat) (v : pyval) : res pyval :=
  match v with
  | PStr s => Ok (PStr (take n s))
  | PList l => Ok (PList (firstn n l))
  | _ => Raise TypeError
  end.

(** Equality of two Python values as far as the sources compare them
    (strings with strings). *)
Definition str_eqb (v : pyval) (s : string) : bool :=
  match v with
  | PStr t => String.eqb t s
  | _ => false
  end.

(** The code points of a string, one string each. *)
Fixpoint chars (fuel : nat) (s : string) : list string :=
  match fuel, s with
  | S fuel', String c s' =>
      String c (take_cont s') :: chars fuel' (drop_cont s')
  | _, _ => []
  end.

(** [for x in v]. *)
Definition py_iter (v : pyval) : res (list pyval) :=
  match v with
  | PList l => Ok l
  | PStr s => Ok (map PStr (chars (String.length s) s))
  | PDict d => Ok (map (fun kv => PStr (fst kv)) d)
  | PNone | PBool _ | PInt _ | PFloat _ => Raise TypeError
  end.

Fixpoint first_some {A B} (f : A -> option B) (l : list A) : option B :=
  match l with
  | [] => None
  | x :: l' =>
      match f x with
      | Some y => Some y
      | None => first_some f l'
      end
  end.

End Py.

Export Py.

Declare Scope res_scope.
Delimit Scope res_scope with res.
Notation "x <- c ;; k" := (Py.bind c (fun x => k))
  (at level 61, c at next level, right associativity) : res_scope.
Local Open Scope res_scope.

(* ================================================================== *)
(** ** Regular expressions ([re.search], [re.findall])                  *)
(* ================================================================== *)

Module Regex.

(** The fragment of Python's pattern language that the sources use.  No
    pattern of the sources has more than one capturing group, so a match
    carries one capture. *)
Inductive regex : Type :=
| Eps
| Chr (p : ascii -> bool)
| Seq (r1 r2 : regex)
| Alt (r1 r2 : regex)
| Star (greedy : bool) (r : regex)
| Group (r : regex)
| WordB
| EndLine.

(** A position is the character before it and the text after it. *)
Definition outcome : Type := option (string * option string).
Definition cont : Type := option ascii -> string -> option string -> outcome.
Definition matcher : Type :=
  option ascii -> string -> option string -> cont -> outcome.

Definition consumed (s s' : string) : string :=
  substring 0 (String.length s - String.length s') s.

Definition word_before (prev : option ascii) : bool :=
  match prev with
  | Some c => is_word c
  | None => false
  end.

Definition word_after (s : string) : bool :=
  match s with
  | String c _ => is_word c
  | EmptyString => false
  end.

Definition or_else (a : outcome) (b : unit -> outcome) : outcome :=
  match a with
  | Some x => Some x
  | None => b tt
  end.

Section StarLoop.
Variable step : matcher.
Variable greedy : bool.

(** Backtracking repetition; an iteration has to consume something, so
    [S (length s)] rounds are always enough. *)
Fixpoint star_loop (n : nat) (prev : option ascii) (s : string)
         (cap : option string) (k : cont) : outcome :=
  match n with
  | O => k prev s cap
  | S n' =>
      let more := fun _ : unit =>
        step prev s cap (fun prev' s' cap' =>
          if (String.length s' <? String.length s)%nat
          then star_loop n' prev' s' cap' k
          else None) in
      if greedy then or_else (more tt) (fun _ => k prev s cap)
      else or_else (k prev s cap) more
  end.
End StarLoop.

(** Leftmost, priority-ordered backtracking, as in Python's [re]. *)
Fixpoint run (r : regex) : matcher :=
  fun prev s cap k =>
  match r with
  | Eps => k prev s cap
  | Chr p =>
      match s with
      | String c s' => if p c then k (Some c) s' cap else None
      | EmptyString => None
      end
  | Seq a b => run a prev s cap (fun prev' s' cap' => run b prev' s' cap' k)
  | Alt a b => or_else (run a prev s cap k) (fun _ => run b prev s cap k)
  | Star g a => star_loop (run a) g (S (String.length s)) prev s cap k
  | Group a =>
      run a prev s cap (fun prev' s' _ => k prev' s' (Some (consumed s s')))
  | WordB =>
      if xorb (word_before prev) (word_after s) then k prev s cap else None
  | EndLine =>
      match s with
      | EmptyString => k prev s cap
      | String c _ => if (byte c =? 10)%nat then k prev s cap else None
      end
  end.

(** A match: the matched text, the capture, and the text after the match. *)
Record rmatch : Type := mkMatch {
  group0 : string;
  group1 : option string;
  rest : string
}.

Definition match_here (r : regex) (prev : option ascii) (s : string)
  : option rmatch :=
  match run r prev s None (fun _ s' cap => Some (s', cap)) with
  | Some (s', cap) => Some (mkMatch (consumed s s') cap s')
  | None => None
  end.

Fixpoint search_from (r : regex) (prev : option ascii) (s : string)
  : option rmatch :=
  match match_here r prev s with
  | Some m => Some m
  | None =>
      match s with
      | String c s' => search_from r (Some c) s'
      | EmptyString => None
      end
  end.

(** [re.search(r, s)]. *)
Definition search (r : regex) (s : string) : option rmatch :=
  search_from r None s.

Definition last_char (prev : option ascii) (t : string) : option ascii :=
  match t with
  | EmptyString => prev
  | _ => match String.get (String.length t - 1) t with
         | Some c => Some c
         | None => prev
         end
  end.

Fixpoint findall_from (fuel : nat) (r : regex) (prev : option ascii)
         (s : string) : list rmatch :=
  match fuel with
  | O => []
  | S fuel' =>
      match match_here r prev s with
      | Some m =>
          if String.eqb (group0 m) ""
          then match s with
               | String c s' => m :: findall_from fuel' r (Some c) s'
               | EmptyString => [m]
               end
          else m :: findall_from fuel' r (last_char prev (group0 m)) (rest m)
      | None =>
          match s with
          | String c s' => findall_from fuel' r (Some c) s'
          | EmptyString => []
          end
      end
  end.

(** [re.findall(r, s)]: the successive non-overlapping matches. *)
Definition findall (r : regex) (s : string) : list rmatch :=
  findall_from (S (String.length s)) r None s.

(** *** Pattern combinators *)

Fixpoint lit (s : string) : regex :=
  match s with
  | EmptyString => Eps
  | String c EmptyString => Chr (Ascii.eqb c)
  | String c s' => Seq (Chr (Ascii.eqb c)) (lit s')
  end.

Fixpoint mem_char (c : ascii) (s : string) : bool :=
  match s with
  | EmptyString => false
  | String d s' => Ascii.eqb c d || mem_char c s'
  end.

Definition none_of (s : string) : regex := Chr (fun c => negb (mem_char c s)).
Definition opt (r : regex) : regex := Alt r Eps.
Definition plus (r : regex) : regex := Seq r (Star true r).
Definition star (r : regex) : regex := Star true r.
Definition lazy_star (r : regex) : regex := Star false r.
Definition digit : regex := Chr is_digit.
Definition space : regex := Chr is_re_space.
Definition wordc : regex := Chr is_word.
Definition any : regex := Chr (fun _ => true).

Fixpoint seqs (l : list regex) : regex :=
  match l with
  | [] => Eps
  | [r] => r
  | r :: l' => Seq r (seqs l')
  end.

Fixpoint alts (l : list regex) : regex :=
  match l with
  | [] => Chr (fun _ => false)
  | [r] => r
  | r :: l' => Alt r (alts l')
  end.

(** The alternation of literal words. *)
Definition words (l : list string) : regex := alts (map lit l).

(** The literal [w] and an optional final [s]. *)
Definition word_s (w : string) : regex := Seq (lit w) (opt (lit "s")).

End Regex.

(* ================================================================== *)
(** ** [json.loads]                                                     *)
(* ================================================================== *)

Module Json.

Definition dq : ascii := "034"%char.

Definition is_json_ws (c : ascii) : bool :=
  let n := byte c in
  (n =? 32)%nat || (n =? 9)%nat || (n =? 10)%nat || (n =? 13)%nat.

Fixpoint skip_ws (s : string) : string :=
  match s with
  | String c s' => if is_json_ws c then skip_ws s' else s
  | EmptyString => EmptyString
  end.

Fixpoint span_digits (s : string) : string * string :=
  match s with
  | String c s' =>
      if is_digit c
      then let (a, b) := span_digits s' in (String c a, b)
      else (EmptyString, s)
  | EmptyString => (EmptyString, EmptyString)
  end.

(** A JSON number without exponent: an optional minus sign, an integer
    part without leading zero, an optional fraction. *)
Definition parse_number (s : string) : option (pyval * string) :=
  let (neg, s1) :=
    match s with
    | String "-" r => (true, r)
    | _ => (false, s)
    end in
  let (ip, s2) := span_digits s1 in
  let int_ok :=
    match ip with
    | EmptyString => false
    | String "0" (String _ _) => false
    | _ => true
    end in
  if negb int_ok then None
  else
    match s2 with
    | String "." s3 =>
        let (fp, s4) := span_digits s3 in
        match Q_of_decimal (ip ++ "." ++ fp) with
        | Some q =>
            if String.eqb fp "" then None
            else Some (PFloat (if neg then Qopp q else q), s4)
        | None => None
        end
    | _ =>
        match Z_of_digits ip with
        | Some z => Some (PInt (if neg then Z.opp z else z), s2)
        | None => None
        end
    end.

(** The body of a string literal, after the opening quote. *)
Fixpoint parse_string_body (s : string) : option (string * string) :=
  match s with
  | EmptyString => None
  | String c s' =>
      if Ascii.eqb c dq then Some (EmptyString, s')
      else if Ascii.eqb c "\" then
        match s' with
        | String e s'' =>
            let esc :=
              if Ascii.eqb e dq then Some dq
              else if Ascii.eqb e "\" then Some "\"%char
              else if Ascii.eqb e "/" then Some "/"%char
              else if Ascii.eqb e "n" then Some "010"%char
              else if Ascii.eqb e "t" then Some "009"%char
              else if Ascii.eqb e "r" then Some "013"%char
              else if Ascii.eqb e "b" then Some "008"%char
              else if Ascii.eqb e "f" then Some "012"%char
              else None in
            match esc, parse_string_body s'' with
            | Some x, Some (t, r) => Some (String x t, r)
            | _, _ => None
            end
        | EmptyString => None
        end
      else if (byte c <? 32)%nat then None
      else
        match parse_string_body s' with
        | Some (t, r) => Some (String c t, r)
        | None => None
        end
  end.

Fixpoint parse_value (fuel : nat) (s : string) : option (pyval * string) :=
  match fuel with
  | O => None
  | S fuel' =>
      match skip_ws s with
      | EmptyString => None
      | String c s' as t =>
          if Ascii.eqb c dq then
            match parse_string_body s' with
            | Some (x, r) => Some (PStr x, r)
            | None => None
            end
          else if Ascii.eqb c "[" then
            match skip_ws s' with
            | String "]" r => Some (PList [], r)
            | _ => parse_elems fuel' s' []
            end
          else if Ascii.eqb c "{" then
            match skip_ws s' with
            | String "}" r => Some (PDict [], r)
            | _ => parse_members fuel' s' []
            end
          else if starts_with "null" t then Some (PNone, substring 4 (String.length t) t)
          else if starts_with "true" t then Some (PBool true, substring 4 (String.length t) t)
          else if starts_with "false" t then Some (PBool false, substring 5 (String.length t) t)
          else parse_number t
      end
  end

with parse_elems (fuel : nat) (s : string) (acc : list pyval)
  : option (pyval * string) :=
  match fuel with
  | O => None
  | S fuel' =>
      match parse_value fuel' s with
      | Some (v, r) =>
          match skip_ws r with
          | String "," r' => parse_elems fuel' r' (acc ++ [v])
          | String "]" r' => Some (PList (acc ++ [v]), r')
          | _ => None
          end
      | None => None
      end
  end

with parse_members (fuel : nat) (s : string) (acc : dict)
  : option (pyval * string) :=
  match fuel with
  | O => None
  | S fuel' =>
      match skip_ws s with
      | String c s1 =>
          if Ascii.eqb c dq then
            match parse_string_body s1 with
            | Some (k, s2) =>
                match skip_ws s2 with
                | String ":" s3 =>
                    match parse_value fuel' s3 with
                    | Some (v, r) =>
                        match skip_ws r with
                        | String "," r' =>
                            parse_members fuel' r' (dict_set acc k v)
                        | String "}" r' => Some (PDict (dict_set acc k v), r')
                        | _ => None
                        end
                    | None => None
                    end
                | _ => None
                end
            | None => None
            end
          else None
      | EmptyString => None
      end
  end.

(** [json.loads(s)]: one value and nothing after it. *)
Definition loads (s : string) : res pyval :=
  match parse_value (2 * String.length s + 2) s with
  | Some (v, r) =>
      match skip_ws r with
      | EmptyString => Ok v
      | _ => Raise JSONDecodeError
      end
  | None => Raise JSONDecodeError
  end.

(** Source text is written with ['] where JSON has the double quote. *)
Fixpoint text (s : string) : string :=
  match s with
  | EmptyString => EmptyString
  | String c s' => String (if Ascii.eqb c "'" then dq else c) (text s')
  end.

End Json.

(* ================================================================== *)
(** ** What the interpreter and the clock decide                        *)
(* ================================================================== *)

(** [py_hash] is the builtin [hash] on strings (seeded per process),
    [py_repr] is [str] on floats and containers, [current_year] is
    [datetime.now().year]. *)
Class Runtime : Type := {
  py_hash : string -> Z;
  py_repr : pyval -> string;
  current_year : Z
}.

(** [str(v)]. *)
Definition py_str {RT : Runtime} (v : pyval) : string :=
  match v with
  | PNone => "None"
  | PBool true => "True"
  | PBool false => "False"
  | PInt z => str_of_Z z
  | PStr s => s
  | PFloat _ | PList _ | PDict _ => py_repr v
  end.

(* ================================================================== *)
(** ** [models/extracted_filters.py], [models/user_context.py]          *)
(* ================================================================== *)

Record YearRange : Type := mkYearRange {
  min_year : option Z;
  max_year : option Z
}.

Record RatingRange : Type := mkRatingRange {
  min_rating : option Q;
  max_rating : option Q
}.

(** [genres] is annotated [List[str]], but the sources also store Python
    ints in it, so its entries are Python values. *)
Record ExtractedFilters : Type := mkFilters {
  genres : list pyval;
  year_range : option YearRange;
  rating_range : option RatingRange;
  keywords : list string;
  intent : string;
  confidence : Q;
  exclude_ids : list string
}.

Definition set_confidence (f : ExtractedFilters) (c : Q) : ExtractedFilters :=
  mkFilters (genres f) (year_range f) (rating_range f) (keywords f)
            (intent f) c (exclude_ids f).

Definition set_intent (f : ExtractedFilters) (i : string) : ExtractedFilters :=
  mkFilters (genres f) (year_range f) (rating_range f) (keywords f)
            i (confidence f) (exclude_ids f).

Definition set_exclude_ids (f : ExtractedFilters) (l : list string)
  : ExtractedFilters :=
  mkFilters (genres f) (year_range f) (rating_range f) (keywords f)
            (intent f) (confidence f) l.

Definition nonempty {A} (l : list A) : bool :=
  match l with
  | [] => false
  | _ => true
  end.

Definition is_some {A} (o : option A) : bool :=
  match o with
  | Some _ => true
  | None => false
  end.

(** Truth value of an [Optional[int]]: set and not zero. *)
Definition truthy_Z (o : option Z) : bool :=
  match o with
  | Some z => negb (Z.eqb z 0)
  | None => false
  end.

(** Truth value of an [Optional[float]]. *)
Definition truthy_Q (o : option Q) : bool :=
  match o with
  | Some q => negb (Qeq_zero q)
  | None => false
  end.

(** [ExtractedFilters.has_filters]. *)
Definition has_filters (f : ExtractedFilters) : bool :=
  nonempty (genres f) || is_some (year_range f) || is_some (rating_range f)
  || nonempty (keywords f).

(** Adding to a Python [set], kept here in insertion order (the order in
    which Python later lists a set is not fixed). *)
Definition set_add (x : string) (l : list string) : list string :=
  if mem_str x l then l else l ++ [x].

Definition set_of_list (l : list string) : list string :=
  fold_left (fun acc x => set_add x acc) l [].

Record UserContext : Type := mkUserContext {
  recent_movies : list string;
  room_voted_movies : list string
}.

(** [UserContext.get_exclude_list]. *)
Definition get_exclude_list (u : UserContext) : list string :=
  set_of_list (recent_movies u ++ room_voted_movies u).

(* ================================================================== *)
(** ** [utils/constants.py], [utils/genre_mapping.py]                   *)
(* ================================================================== *)

Module GenreMapper.
Import Regex.

Definition TMDB_GENRE_MAP : list (string * string) :=
  [ ("accion", "28"); ("action", "28"); ("aventura", "12");
    ("adventure", "12");
    ("comedia", "35"); ("comedy", "35"); ("gracioso", "35");
    ("divertido", "35"); ("humor", "35");
    ("drama", "18"); ("dramatico", "18");
    ("terror", "27"); ("horror", "27"); ("miedo", "27");
    ("suspenso", "53"); ("thriller", "53");
    ("romance", "10749"); ("romantico", "10749"); ("amor", "10749");
    ("ciencia ficcion", "878"); ("sci-fi", "878"); ("scifi", "878");
    ("futurista", "878");
    ("fantasia", "14"); ("fantasy", "14"); ("magico", "14");
    ("crimen", "80"); ("crime", "80"); ("policial", "80");
    ("animacion", "16"); ("animation", "16"); ("animada", "16");
    ("dibujos", "16");
    ("documental", "99"); ("documentary", "99");
    ("familiar", "10751"); ("family", "10751"); ("ninos", "10751");
    ("infantil", "10751");
    ("historia", "36"); ("history", "36"); ("historico", "36");
    ("musica", "10402"); ("music", "10402"); ("musical", "10402");
    ("misterio", "9648"); ("mystery", "9648");
    ("guerra", "10752"); ("war", "10752"); ("belico", "10752");
    ("western", "37"); ("oeste", "37") ].

(** One group of alternatives between word boundaries. *)
Definition bounded (r : regex) : regex := seqs [WordB; Group r; WordB].

(** [GenreMapper._create_pattern_mappings]; the patterns are compiled with
    [re.IGNORECASE] and are all lower case, so they are run on the
    lower-cased text. *)
Definition pattern_mappings : list (regex * list string) :=
  [ (bounded (words ["terror"; "miedo"; "horror"; "espanto"]), ["27"]);
    (bounded (words ["comedia"; "gracioso"; "divertido"; "humor";
                     "chistoso"]), ["35"]);
    (bounded (words ["acción"; "accion"; "aventura"; "action"]),
     ["28"; "12"]);
    (bounded (words ["romance"; "romántico"; "romantico"; "amor"]),
     ["10749"]);
    (bounded (words ["drama"; "dramático"; "dramatico"]), ["18"]);
    (bounded (alts [lit "ciencia ficción";
                    seqs [lit "sci"; opt (lit "-"); lit "fi"];
                    lit "futurista"; lit "espacial"]), ["878"]);
    (bounded (words ["fantasía"; "fantasia"; "fantasy"; "mágico";
                     "magico"]), ["14"]);
    (bounded (words ["crimen"; "policial"; "detective"; "noir"]), ["80"]);
    (bounded (words ["animación"; "animacion"; "animation"; "dibujos";
                     "caricatura"]), ["16"]);
    (bounded (words ["documental"; "documentary"]), ["99"]);
    (bounded (words ["familiar"; "family"; "niños"; "ninos"; "infantil"]),
     ["10751"]);
    (bounded (words ["historia"; "histórico"; "historico"; "history"]),
     ["36"]);
    (bounded (words ["música"; "musica"; "music"; "musical"]), ["10402"]);
    (bounded (words ["misterio"; "mystery"; "enigma"]), ["9648"]);
    (bounded (words ["guerra"; "war"; "bélico"; "belico"]), ["10752"]);
    (bounded (words ["western"; "oeste"; "vaqueros"]), ["37"]);
    (bounded (words ["suspenso"; "thriller"; "tensión"; "tension"]),
     ["53"]) ].

(** [pattern.search(text)] under [re.IGNORECASE]. *)
Definition isearch (r : regex) (text : string) : bool :=
  is_some (search r (lower text)).

(** [GenreMapper.extract_genres_from_text]. *)
Definition extract_genres_from_text (text : string) : list string :=
  let text_lower := lower text in
  let exact :=
    fold_left (fun found kv =>
                 if contains text_lower (fst kv)
                 then set_add (snd kv) found else found)
              TMDB_GENRE_MAP [] in
  fold_left (fun found pg =>
               if isearch (fst pg) text
               then fold_left (fun acc g => set_add g acc) (snd pg) found
               else found)
            pattern_mappings exact.

Fixpoint assoc (k : string) (l : list (string * string)) : option string :=
  match l with
  | [] => None
  | (k', v) :: l' => if String.eqb k k' then Some v else assoc k l'
  end.

Fixpoint first_pattern (name : string) (l : list (regex * list string))
  : option (list string) :=
  match l with
  | [] => None
  | (r, ids) :: l' => if isearch r name then Some ids else first_pattern name l'
  end.

(** [GenreMapper.get_genre_id_by_name]. *)
Definition get_genre_id_by_name (genre_name : string) : option string :=
  let genre_name_lower := strip (lower genre_name) in
  match assoc genre_name_lower TMDB_GENRE_MAP with
  | Some id => Some id
  | None =>
      match first_pattern genre_name_lower pattern_mappings with
      | Some (id :: _) => Some id
      | _ => None
      end
  end.

End GenreMapper.

(* ================================================================== *)
(** ** [utils/ai_prompt_generator.py]: class [AIPromptGenerator]        *)
(* ================================================================== *)

Module Prompt.
Import Regex.

Section WithRuntime.
Context {RT : Runtime}.

(** *** The deterministic extractor *)

(** One decade written in digits: between word boundaries, an optional
    group (the word for years, singular or plural, and blanks), then the
    digits with an optional final s. *)
Definition decade_digits (n : string) : regex :=
  seqs [WordB; opt (Group (seqs [word_s "año"; star space]));
        word_s n; WordB].

(** The dictionary [decade_patterns], in its order. *)
Definition decade_patterns : list (regex * YearRange) :=
  [ (Alt (decade_digits "90")
         (seqs [WordB; word_s "año"; star space; lit "noventa"; WordB]),
     mkYearRange (Some 1990%Z) (Some 1999%Z));
    (Alt (decade_digits "80")
         (seqs [WordB; word_s "año"; star space; lit "ochenta"; WordB]),
     mkYearRange (Some 1980%Z) (Some 1989%Z));
    (Alt (decade_digits "2000")
         (seqs [WordB; lit "década"; star space; lit "de"; opt (lit "l");
                star space; lit "2000"; WordB]),
     mkYearRange (Some 2000%Z) (Some 2009%Z));
    (Alt (decade_digits "2010")
         (seqs [WordB; lit "década"; star space; lit "de"; opt (lit "l");
                star space; lit "2010"; WordB]),
     mkYearRange (Some 2010%Z) (Some 2019%Z));
    (alts [seqs [WordB; word_s "reciente"; WordB];
           seqs [WordB; lit "actual"; opt (Group (lit "es")); WordB];
           seqs [WordB; word_s "nueva"; WordB]],
     mkYearRange (Some (current_year - 3)%Z) (Some current_year));
    (alts [seqs [WordB; word_s "clásica"; WordB];
           seqs [WordB; word_s "antiguo"; WordB];
           seqs [WordB; word_s "vieja"; WordB]],
     mkYearRange (Some 1950%Z) (Some 1990%Z)) ].

(** A bare year: 19 or 20 and two more digits, between word boundaries. *)
Definition year_pattern : regex :=
  seqs [WordB; Group (words ["19"; "20"]); digit; digit; WordB].

Fixpoint first_match {A} (query : string) (l : list (regex * A)) : option A :=
  match l with
  | [] => None
  | (r, a) :: l' =>
      if is_some (search r query) then Some a else first_match query l'
  end.

(** [_extract_year_range_patterns]. *)
Definition _extract_year_range_patterns (query : string)
  : res (option YearRange) :=
  match first_match query decade_patterns with
  | Some yr => Ok (Some yr)
  | None =>
      match search year_pattern query with
      | Some m =>
          year <- int_of_str (group0 m) ;;
          Ok (Some (mkYearRange (Some (year - 2)%Z) (Some (year + 2)%Z)))
      | None => Ok None
      end
  end.

(** The captured number: digits, and optionally a dot and digits. *)
Definition number : regex :=
  Group (Seq (plus digit) (opt (Seq (lit ".") (plus digit)))).

(** An explicit rating: the number, blanks, and one of the unit words
    (estrella(s), star(s), punto(s), rating), between word boundaries. *)
Definition rating_pattern : regex :=
  seqs [WordB; number; star space;
        alts [word_s "estrella"; word_s "star"; word_s "punto"; lit "rating"];
        WordB].

(** The form [rating de N]. *)
Definition rating_de_pattern : regex :=
  seqs [WordB; lit "rating"; plus space; lit "de"; plus space; number; WordB].

Definition quality_patterns : list (regex * Q) :=
  [ (GenreMapper.bounded
       (alts [word_s "excelente"; word_s "increíble"; word_s "fantástica";
              word_s "geniale"]), 8.0%Q);
    (GenreMapper.bounded
       (alts [word_s "buena"; word_s "bueno"; word_s "recomendada";
              word_s "populare"]), 7.0%Q);
    (GenreMapper.bounded
       (alts [word_s "decente"; word_s "aceptable"]), 6.0%Q) ].

(** [float(m.group(1))]. *)
Definition group1_float (m : rmatch) : res Q :=
  match group1 m with
  | Some g => float_of_str g
  | None => Raise TypeError
  end.

(** [_extract_rating_patterns]: an explicit value is clamped into
    [0, 10]. *)
Definition _extract_rating_patterns (query : string) : res (option Q) :=
  match search rating_pattern query with
  | Some m =>
      rating <- group1_float m ;;
      Ok (Some (py_min (py_max rating 0.0) 10.0))
  | None =>
      match search rating_de_pattern query with
      | Some m =>
          rating <- group1_float m ;;
          Ok (Some (py_min (py_max rating 0.0) 10.0))
      | None => Ok (first_match query quality_patterns)
      end
  end.

Definition stop_words : list string :=
  [ "el"; "la"; "los"; "las"; "un"; "una"; "de"; "del"; "en"; "con"; "por";
    "para"; "que"; "se"; "me"; "te"; "le"; "nos"; "les"; "y"; "o"; "pero";
    "si"; "no"; "the"; "a"; "an"; "and"; "or"; "but"; "in"; "on"; "at"; "to";
    "for"; "of"; "with"; "by"; "from"; "up"; "about"; "into"; "through";
    "during"; "before"; "after"; "above"; "below"; "between"; "among"; "is";
    "are"; "was"; "were"; "be"; "been"; "being"; "have"; "has"; "had"; "do";
    "does"; "did"; "will"; "would"; "could"; "should"; "may"; "might"; "must";
    "can"; "shall" ].

(** [_extract_basic_keywords]. *)
Definition _extract_basic_keywords (query : string) : list string :=
  let words := map group0 (findall (seqs [WordB; plus wordc; WordB])
                                   (lower query)) in
  firstn 10
    (filter (fun word => (2 <? py_len word)%nat && negb (mem_str word stop_words))
            words).

Definition info_patterns : list regex :=
  [ GenreMapper.bounded
      (words ["qué tal"; "cómo está"; "opinión"; "review"; "crítica"]);
    GenreMapper.bounded
      (words ["cuándo"; "dónde"; "quién"; "por qué"; "cómo"]);
    GenreMapper.bounded (words ["información"; "detalles"; "datos"]) ].

(** [_determine_intent_patterns]. *)
Definition _determine_intent_patterns (query : string) : string :=
  if existsb (fun r => is_some (search r query)) info_patterns
  then "information"
  else if (length (split query) <=? 2)%nat
          || existsb (contains query) ["algo"; "cualquier"; "no sé"]
  then "clarification"
  else "recommendation".

(** [extract_keywords_with_patterns].  In the Spanish-comedy branch the
    genre list is the Python list [[35]] of one int. *)
Definition extract_keywords_with_patterns (query : string)
  : res ExtractedFilters :=
  let query_lower := lower query in
  let genres0 := map PStr (GenreMapper.extract_genres_from_text query) in
  gkc <-
    (if contains query_lower "comedia"
        && (contains query_lower "español" || contains query_lower "española")
     then Ok ([PInt 35], ["comedia"; "española"; "español"], 0.8%Q)
     else
       _ <- _extract_year_range_patterns query_lower ;;
       _ <- _extract_rating_patterns query_lower ;;
       let keywords := _extract_basic_keywords query in
       Ok (genres0, keywords,
           if nonempty genres0 then 0.6%Q
           else if nonempty keywords then 0.4%Q else 0.2%Q)) ;;
  let '(genres, keywords, confidence) := gkc in
  year_range <- _extract_year_range_patterns query_lower ;;
  rating_min <- _extract_rating_patterns query_lower ;;
  let intent := _determine_intent_patterns query_lower in
  Ok (mkFilters genres year_range
        (match rating_min with
         | None => None
         | Some r => Some (mkRatingRange (Some r) None)
         end)
        keywords intent confidence []).

(** *** Validation of the model's answer *)

Definition valid_intents : list string :=
  ["recommendation"; "information"; "clarification"].

Definition required_fields : list string := ["genres"; "intent"; "confidence"].

Definition is_list (v : pyval) : bool :=
  match v with
  | PList _ => true
  | _ => false
  end.

(** [_validate_json_structure].  On a value that is not a dict, [field not
    in parsed] is a membership or substring test, or a [TypeError]; when
    every field is found, the subscript [parsed['genres']] raises. *)
Definition _validate_json_structure (parsed : pyval) : res bool :=
  match parsed with
  | PDict d =>
      if negb (forallb (has_key d) required_fields) then Ok false
      else if negb (is_list (get d "genres" PNone)) then Ok false
      else if negb (match get d "intent" PNone with
                    | PStr i => mem_str i valid_intents
                    | _ => false
                    end) then Ok false
      else
        match as_number (get d "confidence" PNone) with
        | None => Ok false
        | Some c =>
            if negb (Qle_bool 0.0 c && Qle_bool c 1.0) then Ok false
            else Ok true
        end
  | PList l =>
      if forallb (fun f => existsb (fun v => str_eqb v f) l) required_fields
      then Raise TypeError else Ok false
  | PStr s =>
      if forallb (contains s) required_fields
      then Raise TypeError else Ok false
  | PNone | PBool _ | PInt _ | PFloat _ => Raise TypeError
  end.

Definition in_id_range (z : Z) : bool := (1 <=? z)%Z && (z <=? 99999)%Z.

(** One round of the loop of [_extract_and_validate_genres]. *)
Definition validate_genre (genre : pyval) : res (list pyval) :=
  match genre with
  | PStr s =>
      if isdigit s then
        genre_id <- int_of_str s ;;
        Ok (if in_id_range genre_id then [PStr s] else [])
      else
        match GenreMapper.get_genre_id_by_name (lower s) with
        | Some mapped_id =>
            Ok (if String.eqb mapped_id "" then [] else [PStr mapped_id])
        | None => Ok []
        end
  | PBool _ | PInt _ =>
      match as_int genre with
      | Some z => Ok (if in_id_range z then [PStr (py_str genre)] else [])
      | None => Ok []
      end
  | _ => Ok []
  end.

Fixpoint concat_map_res {A B} (f : A -> res (list B)) (l : list A)
  : res (list B) :=
  match l with
  | [] => Ok []
  | x :: l' =>
      y <- f x ;;
      ys <- concat_map_res f l' ;;
      Ok (y ++ ys)%list
  end.

(** [_extract_and_validate_genres]. *)
Definition _extract_and_validate_genres (genres_data : pyval)
  : res (list pyval) :=
  l <- py_iter genres_data ;;
  concat_map_res validate_genre l.

Definition year_in_domain (z : Z) : bool := (1900 <=? z)%Z && (z <=? 2030)%Z.

(** A bound of the year range: an int of the domain, or nothing. *)
Definition validate_year (v : pyval) : option Z :=
  match v with
  | PNone => None
  | _ => match as_int v with
         | Some z => if year_in_domain z then Some z else None
         | None => None
         end
  end.

Definition dict_of (v : pyval) : option dict :=
  match v with
  | PDict d => Some d
  | _ => None
  end.

(** [_extract_and_validate_year_range]. *)
Definition _extract_and_validate_year_range (year_data : pyval)
  : option YearRange :=
  if negb (truthy year_data) then None
  else
    match dict_of year_data with
    | None => None
    | Some d =>
        let min_year := validate_year (get d "min" PNone) in
        let max_year := validate_year (get d "max" PNone) in
        let '(min_year, max_year) :=
          match min_year, max_year with
          | Some a, Some b =>
              if truthy_Z min_year && truthy_Z max_year && (b <? a)%Z
              then (max_year, min_year) else (min_year, max_year)
          | _, _ => (min_year, max_year)
          end in
        if truthy_Z min_year || truthy_Z max_year
        then Some (mkYearRange min_year max_year)
        else None
    end.

Definition rating_in_domain (q : Q) : bool :=
  Qle_bool 0.0 q && Qle_bool q 10.0.

(** A bound of the rating range: a number of [0, 10], or nothing. *)
Definition validate_rating (v : pyval) : option Q :=
  match v with
  | PNone => None
  | _ => match as_number v with
         | Some q => if rating_in_domain q then Some q else None
         | None => None
         end
  end.

(** [_extract_and_validate_rating_range]. *)
Definition _extract_and_validate_rating_range (parsed : dict)
  : option RatingRange :=
  let rating_min := validate_rating (get parsed "rating_min" PNone) in
  let rating_max := validate_rating (get parsed "rating_max" PNone) in
  let '(rating_min, rating_max) :=
    match rating_min, rating_max with
    | Some a, Some b =>
        if truthy_Q rating_min && truthy_Q rating_max && Qlt_bool b a
        then (rating_max, rating_min) else (rating_min, rating_max)
    | _, _ => (rating_min, rating_max)
    end in
  if is_some rating_min || is_some rating_max
  then Some (mkRatingRange rating_min rating_max)
  else None.

Definition keyword_ok (s : string) : bool :=
  (2 <=? py_len s)%nat && (py_len s <=? 50)%nat.

(** [_extract_and_validate_keywords]. *)
Definition _extract_and_validate_keywords (keywords_data : pyval)
  : res (list string) :=
  l <- py_iter keywords_data ;;
  Ok (firstn 10
        (flat_map (fun keyword =>
                     match keyword with
                     | PStr s =>
                         let clean_keyword := strip s in
                         if keyword_ok clean_keyword then [clean_keyword]
                         else []
                     | _ => []
                     end) l)).

(** [_validate_intent]. *)
Definition _validate_intent (intent : pyval) : string :=
  match intent with
  | PStr s => if mem_str (lower s) valid_intents then lower s
              else "recommendation"
  | _ => "recommendation"
  end.

(** [_validate_confidence]. *)
Definition _validate_confidence (confidence : pyval) : Q :=
  match as_number confidence with
  | Some c => py_max 0.0 (py_min 1.0 c)
  | None => 0.1
  end.

(** *** Calibration and the ambiguity decision *)

(** The weight [filter_count] of [_apply_ambiguity_detection]. *)
Definition filter_count (f : ExtractedFilters) : Q :=
  (if nonempty (genres f) then 1 else 0)
  + (if is_some (year_range f) then 1 else 0)
  + (if is_some (rating_range f) then 1 else 0)
  + (if nonempty (keywords f)
     then inject_Z (Z.of_nat (length (keywords f))) * 0.1 else 0).

(** The span [max_year - min_year], when both bounds count as set. *)
Definition year_span (f : ExtractedFilters) : option Z :=
  match year_range f with
  | Some (mkYearRange (Some a) (Some b)) =>
      if negb (Z.eqb a 0) && negb (Z.eqb b 0) then Some (b - a)%Z else None
  | _ => None
  end.

(** [_apply_ambiguity_detection]. *)
Definition _apply_ambiguity_detection (filters : ExtractedFilters)
  : ExtractedFilters :=
  let original_confidence := confidence filters in
  let n := filter_count filters in
  let f1 :=
    if Qeq_bool n 0 then
      set_intent (set_confidence filters (py_min original_confidence 0.2))
                 "clarification"
    else if Qlt_bool n 1 then
      set_confidence filters (py_min original_confidence 0.4)
    else if Qle_bool 2 n then
      let confidence_boost := py_min (original_confidence * 0.1) 0.1 in
      set_confidence filters
        (py_min (original_confidence + confidence_boost) 1.0)
    else filters in
  let f2 :=
    match year_span f1 with
    | Some year_span =>
        if (30 <? year_span)%Z
        then set_confidence f1 (py_min (confidence f1) 0.6)
        else f1
    | None => f1
    end in
  if Qlt_bool (confidence f2) 0.5 && String.eqb (intent f2) "recommendation"
  then set_intent f2 "clarification"
  else f2.

Definition vague_terms : list string :=
  [ "algo"; "something"; "cualquier"; "anything"; "no sé"; "don't know";
    "bueno"; "good"; "entretenimiento"; "entertainment"; "película"; "movie";
    "film"; "ver"; "watch"; "recomendación"; "recommendation" ].

(** [detect_ambiguous_query]. *)
Definition detect_ambiguous_query (extracted_filters : ExtractedFilters)
           (user_query : string) : bool :=
  let has_specific_filters :=
    (0 <? length (genres extracted_filters))%nat
    || is_some (year_range extracted_filters)
    || is_some (rating_range extracted_filters)
    || (2 <=? length (keywords extracted_filters))%nat in
  if has_specific_filters
  then Qlt_bool (confidence extracted_filters) 0.2
  else if Qlt_bool (confidence extracted_filters) 0.5 then true
  else
    let s0 := 0.0 in
    let s1 := if negb (has_filters extracted_filters) then s0 + 0.4 else s0 in
    let s2 := if (length (genres extracted_filters) =? 0)%nat
              then s1 + 0.2 else s1 in
    let s3 := if negb (is_some (year_range extracted_filters))
                 && negb (is_some (rating_range extracted_filters))
              then s2 + 0.2 else s2 in
    let s5 :=
      if negb (String.eqb user_query "") then
        let query_lower := strip (lower user_query) in
        let tokens := length (split query_lower) in
        let s4 := if (tokens <=? 2)%nat then s3 + 0.3 else s3 in
        let vague_term_count :=
          length (filter (contains query_lower) vague_terms) in
        if (2 <=? vague_term_count)%nat then s4 + 0.3
        else if (vague_term_count =? 1)%nat && (tokens <=? 3)%nat
        then s4 + 0.2 else s4
      else s3 in
    Qle_bool 0.5 s5.

(** *** The entry point *)

(** The body of [_parse_and_validate_json_response] after [json.loads]. *)
Definition validate_payload (parsed : pyval) : res (option ExtractedFilters) :=
  ok <- _validate_json_structure parsed ;;
  if negb ok then Ok None
  else
    match dict_of parsed with
    | None => Raise AttributeError
    | Some d =>
        genres <- _extract_and_validate_genres (get d "genres" (PList [])) ;;
        let year_range :=
          _extract_and_validate_year_range (get d "year_range" PNone) in
        let rating_range := _extract_and_validate_rating_range d in
        keywords <-
          _extract_and_validate_keywords (get d "keywords" (PList [])) ;;
        let intent := _validate_intent (get d "intent" (PStr "recommendation")) in
        let confidence := _validate_confidence (get d "confidence" (PFloat 0.0)) in
        Ok (Some (_apply_ambiguity_detection
                    (mkFilters genres year_range rating_range keywords
                               intent confidence [])))
    end.

(** [_parse_and_validate_json_response]. *)
Definition _parse_and_validate_json_response (json_str : string)
  : res (option ExtractedFilters) :=
  catch_only [JSONDecodeError; TypeError; KeyError; ValueError]
    (if String.eqb json_str "" || String.eqb (strip json_str) ""
     then Ok None
     else
       parsed <- Json.loads (strip json_str) ;;
       validate_payload parsed)
    (Ok None).

Definition quoted (s : string) : regex :=
  seqs [Chr (Ascii.eqb Json.dq); lit s; Chr (Ascii.eqb Json.dq)].

(** The list [json_patterns] (run under [re.DOTALL]). *)
Definition json_patterns : list regex :=
  [ seqs [lit "{"; star (none_of "{}");
          star (seqs [lit "{"; star (none_of "{}"); lit "}";
                      star (none_of "{}")]);
          lit "}"];
    seqs [lit "{"; lazy_star any; quoted "confidence"; lazy_star any; lit "}"];
    seqs [lit "{"; lazy_star any; quoted "genres"; lazy_star any; lit "}"] ].

(** The patterns built from the list [delimiters]: the opening
    delimiter, a lazily matched captured body, the closing delimiter. *)
Definition delimiter_patterns : list regex :=
  [ seqs [lit "```json"; star space; Group (lazy_star any); star space;
          lit "```"];
    seqs [lit "```"; star space; Group (lazy_star any); star space; lit "```"];
    seqs [lit "`"; star space; Group (lazy_star any); star space; lit "`"];
    seqs [lit ":"; star space; Group (lazy_star any); star space; EndLine] ].

Definition parses (s : string) : bool :=
  match Json.loads s with
  | Ok _ => true
  | Raise _ => false
  end.

(** [_extract_json_from_mixed_content]. *)
Definition _extract_json_from_mixed_content (content : string)
  : option string :=
  match first_some
          (fun pattern =>
             first_some (fun m => if parses (group0 m) then Some (group0 m)
                                  else None)
                        (findall pattern content))
          json_patterns with
  | Some m => Some m
  | None =>
      first_some
        (fun pattern =>
           first_some
             (fun m =>
                match group1 m with
                | Some g => if parses (strip g) then Some (strip g) else None
                | None => None
                end)
             (findall pattern content))
        delimiter_patterns
  end.

Definition with_context (user_context : option UserContext)
           (f : ExtractedFilters) : ExtractedFilters :=
  match user_context with
  | Some u => set_exclude_ids f (get_exclude_list u)
  | None => f
  end.

(** The last part of [process_ai_response]: the deterministic extractor
    with its confidence capped. *)
Definition fallback_extraction (user_query : string)
           (user_context : option UserContext) : res ExtractedFilters :=
  fallback_filters <- extract_keywords_with_patterns user_query ;;
  Ok (with_context user_context
        (set_confidence fallback_filters
           (py_min (confidence fallback_filters) 0.4))).

(** [process_ai_response]. *)
Definition process_ai_response (ai_response : string) (user_query : string)
           (user_context : option UserContext) : res ExtractedFilters :=
  match catch (_parse_and_validate_json_response ai_response) None with
  | Some parsed_response => Ok (with_context user_context parsed_response)
  | None =>
      match
        catch
          (match _extract_json_from_mixed_content ai_response with
           | Some extracted_json =>
               if String.eqb extracted_json "" then Ok None
               else _parse_and_validate_json_response extracted_json
           | None => Ok None
           end) None
      with
      | Some parsed_response => Ok (with_context user_context parsed_response)
      | None => fallback_extraction user_query user_context
      end
  end.

End WithRuntime.
End Prompt.

(* ================================================================== *)
(** ** [models/trini_response.py]                                       *)
(* ================================================================== *)

Record MovieRecommendation : Type := mkRecommendation {
  movie : dict;
  relevance_score : Q;
  reasoning : string;
  source : string
}.

(* ================================================================== *)
(** ** [utils/movie_search_service.py]: class [MovieSearchService]      *)
(* ================================================================== *)

Module Search.

Section WithRuntime.
Context {RT : Runtime}.

(** [d.get(k1, d.get(k2, default))]. *)
Definition get2 (d : dict) (k1 k2 : string) (default : pyval) : pyval :=
  get d k1 (get d k2 default).

(** [l[:n]] for a Python int [n]: a negative [n] counts from the end. *)
Definition slice {A} (l : list A) (n : Z) : list A :=
  if (0 <=? n)%Z then firstn (Z.to_nat n) l
  else firstn (length l - Z.to_nat (- n)) l.

Definition Q_of_nat (n : nat) : Q := inject_Z (Z.of_nat n).

(** *** Normalisation of a raw record *)

(** [_safe_string_conversion]. *)
Definition _safe_string_conversion (value : pyval) : string :=
  match value with
  | PNone => ""
  | PStr s => s
  | PBool _ | PInt _ | PFloat _ => py_str value
  | PList _ | PDict _ => ""
  end.

(** [_safe_float_conversion].  ([float] of an [int] too large for a float
    raises [OverflowError] in the code; the property of the normalised
    record is stated for records whose integers have 64 bits.) *)
Definition _safe_float_conversion (value : pyval) : Q :=
  match value with
  | PNone => 0.0
  | PBool _ | PInt _ | PFloat _ =>
      match as_number value with
      | Some q => q
      | None => 0.0
      end
  | PStr s =>
      if String.eqb (strip s) "" then 0.0
      else catch (float_of_str s) 0.0
  | PList _ | PDict _ => 0.0
  end.

(** [_safe_int_conversion] on the string it is called with.  On a string of
    ASCII digits [int] does not fail, so the default of the [catch] is
    never used; [str.isdigit] is also true of digits that [int] rejects,
    and there the code raises [ValueError]: the property of the
    normalised record is stated for ids that are ASCII text. *)
Definition _safe_int_conversion (value : string) : Z :=
  if String.eqb (strip value) "" then 0%Z
  else if isdigit value then catch (int_of_str value) 0%Z
  else (Z.abs (py_hash value) mod 999999)%Z.

Definition has_char (c : ascii) (s : string) : bool :=
  Regex.mem_char c s.

Definition placeholder_poster : string :=
  "https://via.placeholder.com/500x750/2c3e50/ecf0f1?text=Sin+Poster".

(** [_get_validated_poster_url]. *)
Definition _get_validated_poster_url (movie_data : dict) : string :=
  let try_field (field : string) : option string :=
    match get movie_data field PNone with
    | PStr p =>
        if negb (String.eqb p "") && (0 <? String.length (strip p))%nat then
          let poster := strip p in
          if starts_with "http" poster then Some poster
          else if starts_with "/" poster
          then Some ("https://image.tmdb.org/t/p/w500" ++ poster)
          else if (3 <? py_len poster)%nat
                  && (has_char "/" poster || has_char "." poster)
          then Some poster
          else None
        else None
    | _ => None
    end in
  match first_some try_field
          ["posterPath"; "poster"; "mediaPosterPath"; "poster_path"] with
  | Some p => p
  | None => placeholder_poster
  end.

(** [_extract_year_from_date]. *)
Definition _extract_year_from_date (date_str : string) : string :=
  if String.eqb date_str "" then ""
  else if (4 <=? py_len date_str)%nat then take 4 date_str else "".

(** [_generate_fallback_overview]. *)
Definition _generate_fallback_overview (title : string) (movie_data : dict)
  : string :=
  let title := if String.eqb (strip title) "" then "Esta película" else title in
  let year :=
    _extract_year_from_date
      (_safe_string_conversion (get movie_data "release_date" (PStr ""))) in
  let plain :=
    "Película" ++ (if String.eqb year "" then "" else " del año " ++ year)
    ++ " titulada '" ++ title
    ++ "'. Información adicional no disponible temporalmente." in
  match get movie_data "genres" (PList []) with
  | PList (g :: gs) =>
      let genre_names :=
        flat_map (fun genre =>
                    match genre with
                    | PDict d =>
                        match dict_get d "name" with
                        | Some (PStr n) => [lower n]
                        | _ => []
                        end
                    | PStr s => [lower s]
                    | _ => []
                    end) (firstn 2 (g :: gs)) in
      match genre_names with
      | [] => plain
      | _ =>
          "Una película de " ++ join " y " genre_names
          ++ (if String.eqb year "" then "" else " del año " ++ year)
          ++ " titulada '" ++ title ++ "'."
      end
  | _ => plain
  end.

(** [_validate_and_format_date]. *)
Definition _validate_and_format_date (date_str : string) : string :=
  if String.eqb date_str "" then ""
  else if (4 <=? py_len date_str)%nat then
    match int_of_str (take 4 date_str) with
    | Ok year =>
        if (1900 <=? year)%Z && (year <=? 2030)%Z then date_str else ""
    | Raise _ => ""
    end
  else "".

Definition str_or (v : pyval) (default : pyval) : pyval :=
  match v with
  | PStr _ => v
  | _ => default
  end.

Definition list_or_empty (v : pyval) : pyval :=
  match v with
  | PList _ => v
  | _ => PList []
  end.

Definition number_or_zero (v : pyval) : pyval :=
  match as_number v with
  | Some _ => v
  | None => PInt 0
  end.

(** [_validate_and_normalize_movie_data]. *)
Definition _validate_and_normalize_movie_data (movie_data : dict) : dict :=
  let movie_id :=
    _safe_string_conversion (get2 movie_data "id" "tmdbId" (PStr "")) in
  let title :=
    _safe_string_conversion
      (get2 movie_data "title" "mediaTitle" (PStr "Título no disponible")) in
  let overview :=
    _safe_string_conversion
      (get2 movie_data "overview" "mediaOverview" (PStr "")) in
  let rating :=
    _safe_float_conversion (get2 movie_data "rating" "vote_average" (PInt 0)) in
  let release_date :=
    _safe_string_conversion
      (get2 movie_data "release_date" "releaseDate" (PStr "")) in
  let movie_id :=
    if String.eqb movie_id "" || String.eqb (strip movie_id) ""
    then "unknown-"
         ++ str_of_Z (py_hash (py_str (PDict movie_data)) mod 10000)%Z
    else movie_id in
  let title :=
    if String.eqb title "" || String.eqb (strip title) ""
       || (py_len (strip title) <? 1)%nat
    then "Título no disponible" else title in
  let poster_url := _get_validated_poster_url movie_data in
  let overview :=
    if String.eqb overview "" || (py_len (strip overview) <? 10)%nat
    then _generate_fallback_overview title movie_data else overview in
  let formatted_release_date := _validate_and_format_date release_date in
  let rating :=
    if Qlt_bool rating 0 || Qlt_bool 10 rating then 0.0 else rating in
  let numeric_id := _safe_int_conversion movie_id in
  let year := _extract_year_from_date formatted_release_date in
  [ ("id", PInt numeric_id);
    ("title", PStr title);
    ("overview", PStr overview);
    ("poster_path", PStr poster_url);
    ("vote_average", PFloat rating);
    ("release_date", PStr formatted_release_date);
    ("genres", list_or_empty (get movie_data "genres" PNone));
    ("runtime", get movie_data "runtime" PNone);
    ("mediaType", PStr "movie");
    ("mediaPosterPath", PStr poster_url);
    ("mediaTitle", PStr title);
    ("mediaYear", PStr year);
    ("mediaOverview", PStr overview);
    ("mediaRating", PFloat rating);
    ("poster", PStr poster_url);
    ("rating", PFloat rating);
    ("tmdbId", PInt (_safe_int_conversion movie_id));
    ("remoteId", PStr movie_id);
    ("originalTitle",
     str_or (get movie_data "original_title" PNone) (PStr title));
    ("backdropPath", str_or (get movie_data "backdrop_path" PNone) PNone);
    ("year", PStr year);
    ("voteCount", number_or_zero (get movie_data "vote_count" PNone));
    ("tagline", str_or (get movie_data "tagline" PNone) (PStr ""));
    ("budget", number_or_zero (get movie_data "budget" PNone));
    ("revenue", number_or_zero (get movie_data "revenue" PNone));
    ("trailerKey", str_or (get movie_data "trailer_key" PNone) PNone);
    ("watchProviders", list_or_empty (get movie_data "watch_providers" PNone));
    ("cast", list_or_empty (get movie_data "cast" PNone));
    ("director", str_or (get movie_data "director" PNone) PNone) ].

(** [_meets_minimum_data_requirements]: no required field is [None] or a
    blank string. *)
Definition _meets_minimum_data_requirements (movie_data : dict) : bool :=
  forallb (fun field_name =>
             match get movie_data field_name PNone with
             | PNone => false
             | PStr s => negb (String.eqb (strip s) "")
             | _ => true
             end)
          ["id"; "title"; "overview"; "poster_path"; "vote_average";
           "release_date"].

(** *** The relevance score *)

(** The ids of the genres of a record, as the scorer reads them. *)
Definition genre_id_of (genre : pyval) : list string :=
  match genre with
  | PDict d =>
      match dict_get d "id" with
      | Some v => [py_str v]
      | None => []
      end
  | PStr _ | PInt _ | PBool _ => [py_str genre]
  | _ => []
  end.

(** [_calculate_genre_match_score]. *)
Definition _calculate_genre_match_score (movie_data : dict)
           (filters : ExtractedFilters) : Q :=
  if negb (nonempty (genres filters)) then 0.5
  else
    match get movie_data "genres" (PList []) with
    | PList (g :: gs) =>
        let movie_genre_ids := set_of_list (flat_map genre_id_of (g :: gs)) in
        let filter_genre_ids := set_of_list (map py_str (genres filters)) in
        let matches :=
          length (filter (fun x => mem_str x movie_genre_ids)
                         filter_genre_ids) in
        let total_requested := length filter_genre_ids in
        if (0 <? total_requested)%nat
        then Q_of_nat matches / Q_of_nat total_requested
        else 0.9
    | _ => 0.9
    end.

(** [float(movie_data.get('rating', movie_data.get('vote_average', 0)))]. *)
Definition rating_of (movie_data : dict) : res Q :=
  py_float (get2 movie_data "rating" "vote_average" (PInt 0)).

(** [_calculate_rating_score], in exact arithmetic: no underflow, no
    NaN. *)
Definition _calculate_rating_score (movie_data : dict) : res Q :=
  rating <- rating_of movie_data ;;
  Ok (if Qle_bool rating 0 then 0.3
      else if Qle_bool 8.0 rating then 1.0
      else if Qle_bool 7.0 rating then 0.8 + (rating - 7.0) * 0.2
      else if Qle_bool 6.0 rating then 0.6 + (rating - 6.0) * 0.2
      else if Qle_bool 5.0 rating then 0.4 + (rating - 5.0) * 0.2
      else rating / 5.0 * 0.4).

(** The distance penalty shared by the branches of the year score. *)
Definition distance_score (distance : Z) (step cap floor : Q) : Q :=
  let penalty := py_min (inject_Z distance * step) cap in
  py_max (1.0 - penalty) floor.

(** The case analysis on the bounds of the range, common to
    [_calculate_year_proximity_score] (10% a year, floor 0.1) and
    [_calculate_year_proximity_score_for_cache] (5% a year, floor 0.2). *)
Definition year_range_score (movie_year : Z) (yr : YearRange)
           (step cap floor : Q) : Q :=
  let lo := match min_year yr with Some z => z | None => 0%Z end in
  let hi := match max_year yr with Some z => z | None => 0%Z end in
  if truthy_Z (min_year yr) && truthy_Z (max_year yr) then
    if (lo <=? movie_year)%Z && (movie_year <=? hi)%Z then 1.0
    else if (movie_year <? lo)%Z
    then distance_score (lo - movie_year) step cap floor
    else distance_score (movie_year - hi) step cap floor
  else if truthy_Z (min_year yr) then
    if (lo <=? movie_year)%Z then 1.0
    else distance_score (lo - movie_year) step cap floor
  else if truthy_Z (max_year yr) then
    if (movie_year <=? hi)%Z then 1.0
    else distance_score (movie_year - hi) step cap floor
  else 0.5.

(** [int(release_date[:4])]. *)
Definition year_of (release_date : pyval) : res Z :=
  prefix <- slice_to 4 release_date ;;
  py_int prefix.

(** [_calculate_year_proximity_score]. *)
Definition _calculate_year_proximity_score (movie_data : dict)
           (filters : ExtractedFilters) : Q :=
  match year_range filters with
  | None => 0.5
  | Some yr =>
      let release_date :=
        get2 movie_data "release_date" "releaseDate" (PStr "") in
      if negb (truthy release_date) then 0.3
      else
        match year_of release_date with
        | Ok movie_year => year_range_score movie_year yr 0.1 0.9 0.1
        | Raise _ => 0.3
        end
  end.

(** The lower-cased title and overview of a record. *)
Definition title_and_overview (movie_data : dict) : res (string * string) :=
  title <- lower_of (get2 movie_data "title" "mediaTitle" (PStr "")) ;;
  overview <- lower_of (get2 movie_data "overview" "mediaOverview" (PStr "")) ;;
  Ok (title, overview).

(** [_calculate_keyword_relevance_score]. *)
Definition _calculate_keyword_relevance_score (movie_data : dict)
           (filters : ExtractedFilters) : res Q :=
  if negb (nonempty (keywords filters)) then Ok 0.5
  else
    t <- title_and_overview movie_data ;;
    let (title, overview) := t in
    let title_matches :=
      length (filter (fun kw => contains title (lower kw))
                     (keywords filters)) in
    let overview_matches :=
      length (filter (fun kw => negb (contains title (lower kw))
                                && contains overview (lower kw))
                     (keywords filters)) in
    let total_keywords := length (keywords filters) in
    let weighted_matches :=
      Q_of_nat title_matches + Q_of_nat overview_matches * 0.6 in
    Ok (py_min (weighted_matches / Q_of_nat total_keywords) 1.0).

(** [_calculate_popularity_score]. *)
Definition _calculate_popularity_score (movie_data : dict) : res Q :=
  rating <- rating_of movie_data ;;
  vote_count <- py_int (get2 movie_data "vote_count" "voteCount" (PInt 0)) ;;
  Ok (if Qle_bool 7.0 rating && (1000 <=? vote_count)%Z then 1.0
      else if Qle_bool 6.5 rating && (500 <=? vote_count)%Z then 0.8
      else if Qle_bool 6.0 rating && (100 <=? vote_count)%Z then 0.6
      else if (50 <=? vote_count)%Z then 0.4
      else 0.2).

(** The seed of the variation: [abs(hash(movie_id + title)) % 100]. *)
Definition variation_seed (movie_data : dict) : Z :=
  let movie_id := py_str (get movie_data "id" (PStr "")) in
  let title := py_str (get movie_data "title" (PStr "")) in
  (Z.abs (py_hash (movie_id ++ title)) mod 100)%Z.

(** The end of [_calculate_relevance_score]: variation, clamp, and then
    the penalty for a rating strictly between 0 and 4.  The product with
    0.7 is exact here and rounded in binary floating point, where
    [0.1 * 0.7] is a little less than 0.07. *)
Definition adjust_score (final_score : Q) (seed : Z) (rating : Q) : Q :=
  let variation_factor := (inject_Z seed / 100.0) * 0.15 in
  let final_score :=
    if (seed mod 2 =? 0)%Z then final_score + variation_factor
    else final_score - variation_factor in
  let final_score := py_max 0.1 (py_min final_score 1.0) in
  if Qlt_bool 0 rating && Qlt_bool rating 4.0
  then final_score * 0.7 else final_score.

(** [_calculate_relevance_score]. *)
Definition _calculate_relevance_score (movie_data : dict)
           (filters : ExtractedFilters) : res Q :=
  let score := 0.0 in
  let max_score := 0.0 in
  let genre_score := _calculate_genre_match_score movie_data filters in
  let score := score + genre_score * 0.35 in
  let max_score := max_score + 0.35 in
  rating_score <- _calculate_rating_score movie_data ;;
  let score := score + rating_score * 0.25 in
  let max_score := max_score + 0.25 in
  let year_score := _calculate_year_proximity_score movie_data filters in
  let score := score + year_score * 0.20 in
  let max_score := max_score + 0.20 in
  keyword_score <- _calculate_keyword_relevance_score movie_data filters ;;
  let score := score + keyword_score * 0.15 in
  let max_score := max_score + 0.15 in
  popularity_score <- _calculate_popularity_score movie_data ;;
  let score := score + popularity_score * 0.05 in
  let max_score := max_score + 0.05 in
  let final_score :=
    if Qlt_bool 0 max_score then py_min (score / max_score) 1.0 else 0.5 in
  rating <- rating_of movie_data ;;
  Ok (adjust_score final_score (variation_seed movie_data) rating).


(** *** Collaborators *)

(** [_invoke_movie_lambda payload attempt] is the answer of the remote
    search to the given attempt; [_get_cached_movies_from_dynamodb] is the
    cache (it returns the empty list on every failure).  The three
    generators write the justification shown with a movie; they are
    string templates, no property below depends on their wording, and
    [Raise] stands for a generator that raised. *)
Class Collaborators : Type := {
  _invoke_movie_lambda : pyval -> nat -> res (list dict);
  _get_cached_movies_from_dynamodb : string -> list dict;
  _generate_personalized_reasoning : dict -> ExtractedFilters -> res string;
  _generate_reasoning : dict -> ExtractedFilters -> res string;
  _generate_smart_default_reasoning : dict -> ExtractedFilters -> res string
}.

Context {CO : Collaborators}.

(** *** Sorting *)

Section Sorting.
Variable A : Type.
Variable key : A -> Q.

Fixpoint insert_desc (x : A) (l : list A) : list A :=
  match l with
  | [] => [x]
  | y :: l' =>
      if Qle_bool (key y) (key x) then x :: y :: l'
      else y :: insert_desc x l'
  end.

(** [l.sort(key=key, reverse=True)]: descending and stable. *)
Definition sort_desc (l : list A) : list A :=
  fold_right insert_desc [] l.
End Sorting.

Fixpoint map_res {A B} (f : A -> res B) (l : list A) : res (list B) :=
  match l with
  | [] => Ok []
  | x :: l' =>
      y <- f x ;;
      ys <- map_res f l' ;;
      Ok (y :: ys)
  end.

(** Keeps the elements on which [f] answers [true]; the first exception
    ends the loop. *)
Fixpoint filter_res {A} (f : A -> res bool) (l : list A) : res (list A) :=
  match l with
  | [] => Ok []
  | x :: l' =>
      b <- f x ;;
      ys <- filter_res f l' ;;
      Ok (if b then x :: ys else ys)
  end.

(** *** The quality gate on the answer of the remote search *)

Definition genre_keywords : list (string * list string) :=
  [ ("35", ["comedia"; "comedy"; "cómico"; "divertido"; "gracioso"; "humor";
            "risas"; "funny"; "hilarious"]);
    ("28", ["acción"; "action"; "lucha"; "combate"; "batalla"; "fight";
            "battle"; "guerra"; "war"]);
    ("18", ["drama"; "dramático"; "emotional"; "familia"; "family"; "vida";
            "life"]);
    ("27", ["terror"; "horror"; "miedo"; "scary"; "monstruo"; "monster";
            "fantasma"; "ghost"]);
    ("53", ["thriller"; "suspenso"; "suspense"; "misterio"; "mystery";
            "crimen"; "crime"]);
    ("10749", ["romance"; "romántico"; "amor"; "love"; "romantic"; "pareja";
               "couple"]);
    ("878", ["ciencia ficción"; "sci-fi"; "futuro"; "future"; "espacio";
             "space"; "robot"; "alien"]);
    ("12", ["aventura"; "adventure"; "viaje"; "journey"; "exploración";
            "exploration"]);
    ("16", ["animación"; "animation"; "animado"; "animated"; "dibujos";
            "cartoon"]);
    ("14", ["fantasía"; "fantasy"; "magia"; "magic"; "mágico"; "magical";
            "fantástico"]) ].

Fixpoint lookup {A} (k : string) (l : list (string * A)) : option A :=
  match l with
  | [] => None
  | (k', v) :: l' => if String.eqb k k' then Some v else lookup k l'
  end.

(** [_calculate_content_genre_match]. *)
Definition _calculate_content_genre_match (movie_data : dict)
           (filters : ExtractedFilters) : res Q :=
  if negb (nonempty (genres filters)) then Ok 1.0
  else
    t <- title_and_overview movie_data ;;
    let content := fst t ++ " " ++ snd t in
    let total_score :=
      fold_left
        (fun total genre_id =>
           match lookup (py_str genre_id) genre_keywords with
           | Some kws =>
               let matches := length (filter (contains content) kws) in
               if (0 <? matches)%nat
               then total + py_min (Q_of_nat matches * 0.3) 1.0
               else total
           | None => total
           end)
        (genres filters) 0.0 in
    let final_score := total_score / Q_of_nat (length (genres filters)) in
    Ok (py_min final_score 1.0).

(** One round of the loop of [_validate_movie_results_quality]. *)
Definition passes_quality (filters : ExtractedFilters) (movie : dict)
  : res bool :=
  let title := get2 movie "title" "mediaTitle" (PStr "") in
  if negb (truthy title) then Ok false
  else
    stripped <- strip_of title ;;
    if (py_len stripped <? 2)%nat then Ok false
    else
      genre_ok <-
        (if nonempty (genres filters) then
           genre_match_score <- _calculate_content_genre_match movie filters ;;
           Ok (negb (Qlt_bool genre_match_score 0.3))
         else Ok true) ;;
      if negb genre_ok then Ok false
      else if nonempty (keywords filters) then
        keyword_match_score <-
          _calculate_keyword_relevance_score movie filters ;;
        Ok (negb (Qlt_bool keyword_match_score 0.1))
      else Ok true.

(** [_validate_movie_results_quality]. *)
Definition _validate_movie_results_quality (movies : list dict)
           (filters : ExtractedFilters) : res (list dict) :=
  filter_res (passes_quality filters) movies.

(** *** Client-side filtering and the transformation of the answer *)

(** The genre ids of a record as the strict filter reads them. *)
Definition movie_genre_strs (movie_genres : pyval) : res (list string) :=
  l <- py_iter movie_genres ;;
  Ok (flat_map genre_id_of l).

(** One round of the loop of [_apply_strict_client_side_filtering]. *)
Definition passes_strict (filters : ExtractedFilters) (movie : dict)
  : res bool :=
  genre_ok <-
    (if nonempty (genres filters) then
       let movie_genres := get2 movie "genre_ids" "genres" (PList []) in
       if truthy movie_genres then
         strs <- movie_genre_strs movie_genres ;;
         Ok (existsb (fun g => mem_str g strs) (map py_str (genres filters)))
       else Ok false
     else Ok true) ;;
  if negb genre_ok then Ok false
  else
    let year_ok :=
      match year_range filters with
      | None => true
      | Some yr =>
          let release_date :=
            get2 movie "release_date" "releaseDate" (PStr "") in
          if truthy release_date then
            match year_of release_date with
            | Ok movie_year =>
                negb (truthy_Z (min_year yr)
                      && match min_year yr with
                         | Some lo => (movie_year <? lo)%Z
                         | None => false
                         end)
                && negb (truthy_Z (max_year yr)
                         && match max_year yr with
                            | Some hi => (hi <? movie_year)%Z
                            | None => false
                            end)
            | Raise _ => false
            end
          else false
      end in
    if negb year_ok then Ok false
    else
      match rating_range filters with
      | Some (mkRatingRange (Some min_rating) _) =>
          if truthy_Q (Some min_rating) then
            movie_rating <- rating_of movie ;;
            Ok (negb (Qlt_bool movie_rating min_rating))
          else Ok true
      | _ => Ok true
      end.

(** [_apply_strict_client_side_filtering]. *)
Definition _apply_strict_client_side_filtering (movies : list dict)
           (filters : ExtractedFilters) : res (list dict) :=
  filter_res (passes_strict filters) movies.

(** The body of the loop of [_transform_movies_to_recommendations]; [Ok
    None] is the [continue] after incomplete data. *)
Definition recommend_primary (filters : ExtractedFilters) (movie_data : dict)
  : res (option MovieRecommendation) :=
  let normalized_movie := _validate_and_normalize_movie_data movie_data in
  if negb (_meets_minimum_data_requirements normalized_movie) then Ok None
  else
    relevance_score <- _calculate_relevance_score movie_data filters ;;
    reasoning <- _generate_personalized_reasoning movie_data filters ;;
    Ok (Some (mkRecommendation normalized_movie relevance_score reasoning
                               "ai_recommendation")).

(** A loop whose body is wrapped in [try ... except Exception: continue]. *)
Definition collect {A B} (f : A -> res (option B)) (l : list A) : list B :=
  flat_map (fun x => match catch (f x) None with
                     | Some y => [y]
                     | None => []
                     end) l.

(** The quality floor at the end of [_transform_movies_to_recommendations]. *)
Definition quality_floor (recommendations : list MovieRecommendation)
  : list MovieRecommendation :=
  if (5 <? length recommendations)%nat then
    let quality_filtered :=
      filter (fun r => Qlt_bool 0.3 (relevance_score r)) recommendations in
    if (3 <=? length quality_filtered)%nat then quality_filtered
    else recommendations
  else recommendations.

(** [_transform_movies_to_recommendations]. *)
Definition _transform_movies_to_recommendations (movies : list dict)
           (filters : ExtractedFilters) : res (list MovieRecommendation) :=
  filtered_movies <- _apply_strict_client_side_filtering movies filters ;;
  let recommendations := collect (recommend_primary filters) filtered_movies in
  Ok (quality_floor (sort_desc relevance_score recommendations)).

(** *** The remote search *)

Definition year_filter (filters : ExtractedFilters) : dict :=
  match year_range filters with
  | None => []
  | Some yr =>
      (match min_year yr with
       | Some lo => if truthy_Z (Some lo)
                    then [("primary_release_date.gte",
                           PStr (str_of_Z lo ++ "-01-01"))]
                    else []
       | None => []
       end ++
       match max_year yr with
       | Some hi => if truthy_Z (Some hi)
                    then [("primary_release_date.lte",
                           PStr (str_of_Z hi ++ "-12-31"))]
                    else []
       | None => []
       end)%list
  end.

Definition rating_filter (filters : ExtractedFilters) : dict :=
  match rating_range filters with
  | Some (mkRatingRange (Some min_rating) _) =>
      if truthy_Q (Some min_rating)
      then [("vote_average.gte", PFloat min_rating)] else []
  | _ => []
  end.

(** [_transform_filters_to_lambda_payload]: the exclude list is handed to
    the remote search. *)
Definition _transform_filters_to_lambda_payload (filters : ExtractedFilters)
           (limit : Z) : pyval :=
  let genre_ids :=
    flat_map (fun genre =>
                match genre with
                | PStr s => if isdigit s
                            then match int_of_str s with
                                 | Ok z => [PInt z]
                                 | Raise _ => []
                                 end
                            else []
                | PInt _ | PBool _ => [genre]
                | _ => []
                end) (genres filters) in
  PDict
    [ ("info", PDict [("fieldName", PStr "getFilteredContent")]);
      ("arguments",
       PDict
         [ ("mediaType", PStr "MOVIE");
           ("genreIds", PList genre_ids);
           ("limit", PInt (limit * 2));
           ("excludeIds", PList (map PStr (exclude_ids filters)));
           ("filters", PDict (year_filter filters ++ rating_filter filters));
           ("keywords", PList (map PStr (firstn 3 (keywords filters)))) ]) ].

Definition max_retries : nat := 2.

Fixpoint retry_loop (payload : pyval) (attempt remaining : nat)
  : res (list dict) :=
  match remaining with
  | O => Ok []
  | S remaining' =>
      match _invoke_movie_lambda payload attempt with
      | Ok (m :: ms) => Ok (m :: ms)
      | Ok [] => retry_loop payload (S attempt) remaining'
      | Raise e =>
          if (attempt =? max_retries)%nat then Raise e
          else retry_loop payload (S attempt) remaining'
      end
  end.

(** [_invoke_movie_lambda_with_retry]. *)
Definition _invoke_movie_lambda_with_retry (filters : ExtractedFilters)
           (limit : Z) : res (list dict) :=
  let lambda_payload := _transform_filters_to_lambda_payload filters limit in
  retry_loop lambda_payload 0 (S max_retries).

(** *** The curated catalogue *)

Definition genre (id : Z) (name : string) : pyval :=
  PDict [("id", PInt id); ("name", PStr name)].

Definition curated (id title overview : string) (vote_average : Q)
           (release_date poster_path : string) (genres : list pyval) : dict :=
  [ ("id", PStr id); ("title", PStr title); ("overview", PStr overview);
    ("vote_average", PFloat vote_average); ("release_date", PStr release_date);
    ("poster_path", PStr poster_path); ("genres", PList genres) ].

(** The dictionary [genre_specific_movies]. *)
Definition genre_specific_movies : list (string * list dict) :=
  [
    ("35",
     [ curated "comedy-es-1" "Ocho Apellidos Vascos"
         "Un sevillano se hace pasar por vasco para conquistar a una chica de Euskadi. La comedia española más taquillera de la historia."
         6.4 "2014-03-14"
         "https://image.tmdb.org/t/p/w500/ocho_apellidos_vascos.jpg"
         [genre 35 "Comedia"; genre 10749 "Romance"];
       curated "comedy-es-2" "Ocho Apellidos Catalanes"
         "Secuela de Ocho Apellidos Vascos. Koldo y Amaia se van a casar, pero antes deben conocer a los padres de ella en Cataluña."
         5.3 "2015-11-20"
         "https://image.tmdb.org/t/p/w500/ocho_apellidos_catalanes.jpg"
         [genre 35 "Comedia"; genre 10749 "Romance"];
       curated "comedy-es-3" "El Mundo es Suyo"
         "Dos raperos de Sevilla intentan triunfar en el mundo de la música con resultados hilarantes."
         6.1 "2018-06-22"
         "https://image.tmdb.org/t/p/w500/el_mundo_es_suyo.jpg"
         [genre 35 "Comedia"; genre 10402 "Música"];
       curated "comedy-es-4" "Spanish Movie"
         "Una parodia de las películas españolas más famosas, con humor absurdo y referencias al cine nacional."
         3.1 "2009-08-28"
         "https://image.tmdb.org/t/p/w500/spanish_movie.jpg"
         [genre 35 "Comedia"];
       curated "comedy-es-5" "Torrente 4: Lethal Crisis"
         "El policía más gamberro de España vuelve con más acción y humor en esta cuarta entrega de la saga."
         5.4 "2011-03-11"
         "https://image.tmdb.org/t/p/w500/torrente_4.jpg"
         [genre 35 "Comedia"; genre 28 "Acción"];
       curated "comedy-es-6" "Perdiendo el Norte"
         "Dos amigos madrileños emigran a Alemania en busca de trabajo, pero las cosas no salen como esperaban."
         6.2 "2015-03-06"
         "https://image.tmdb.org/t/p/w500/perdiendo_el_norte.jpg"
         [genre 35 "Comedia"; genre 18 "Drama"];
       curated "comedy-es-7" "Superlópez"
         "Adaptación del famoso cómic español sobre un superhéroe muy particular y sus aventuras cómicas."
         5.4 "2018-11-23"
         "https://image.tmdb.org/t/p/w500/superlopez.jpg"
         [genre 35 "Comedia"; genre 28 "Acción"];
       curated "comedy-es-8" "Padre no hay más que uno"
         "Un padre de familia numerosa debe cuidar solo de sus hijos durante las vacaciones con resultados cómicos."
         6.1 "2019-07-26"
         "https://image.tmdb.org/t/p/w500/padre_no_hay_mas_que_uno.jpg"
         [genre 35 "Comedia"; genre 10751 "Familiar"];
       curated "comedy-int-1" "El Gran Hotel Budapest"
         "Las aventuras de Gustave H, un legendario conserje de un famoso hotel europeo, y Zero Moustafa, el botones que se convierte en su protegido."
         8.1 "2014-03-28"
         "https://image.tmdb.org/t/p/w500/grand_budapest_hotel.jpg"
         [genre 35 "Comedia"; genre 18 "Drama"];
       curated "comedy-int-2" "El Libro de la Vida"
         "Una aventura animada sobre el Día de los Muertos y el poder del amor verdadero."
         7.3 "2014-10-17"
         "https://image.tmdb.org/t/p/w500/book_of_life.jpg"
         [genre 16 "Animación"; genre 35 "Comedia"] ]);
    ("28",
     [ curated "action-1" "Mad Max: Fury Road"
         "En un mundo post-apocalíptico, Max se une a Furiosa para escapar de un tirano."
         8.1 "2015-05-15"
         "/action1.jpg"
         [genre 28 "Acción"; genre 12 "Aventura"] ]);
    ("18",
     [ curated "drama-1" "El Secreto de Sus Ojos"
         "Un investigador judicial jubilado decide escribir una novela sobre un caso que no pudo resolver."
         8.2 "2009-08-13"
         "/drama1.jpg"
         [genre 18 "Drama"; genre 53 "Thriller"] ]) ].

(** The general list used when no requested genre has curated movies. *)
Definition general_movies : list dict :=
  [ curated "general-1" "Coco"
      "Un niño mexicano viaja al mundo de los muertos para descubrir su historia familiar."
      8.4 "2017-11-22"
      "/general1.jpg"
      [genre 16 "Animación"; genre 10751 "Familiar"];
    curated "general-2" "El Laberinto del Fauno"
      "Una niña descubre un mundo mágico durante la Guerra Civil Española."
      8.2 "2006-10-11"
      "/general2.jpg"
      [genre 14 "Fantasía"; genre 18 "Drama"] ].

(** *** The cached fallback *)

Definition cache_genre_mapping : list (string * string) :=
  [ ("28", "action"); ("35", "comedy"); ("18", "drama"); ("27", "horror");
    ("10749", "romance"); ("878", "scifi"); ("53", "thriller");
    ("12", "adventure"); ("16", "animation"); ("80", "crime") ].

(** [_build_cache_key_strategy]. *)
Definition _build_cache_key_strategy (filters : ExtractedFilters)
  : list string :=
  let genre_keys :=
    flat_map (fun genre_id =>
                match lookup (py_str genre_id) cache_genre_mapping with
                | Some genre_name =>
                    if String.eqb genre_name "" then []
                    else [ "movies_all_" ++ genre_name;
                           "movies_popular_" ++ genre_name;
                           "movies_top_" ++ genre_name ]
                | None => []
                end) (firstn 2 (genres filters)) in
  let year_keys :=
    match year_range filters with
    | None => []
    | Some yr =>
        let lo := match min_year yr with Some z => z | None => 0%Z end in
        let hi := match max_year yr with Some z => z | None => 0%Z end in
        if truthy_Z (min_year yr) && (2020 <=? lo)%Z
        then ["movies_recent"; "movies_2020s"]
        else if truthy_Z (min_year yr) && (2010 <=? lo)%Z
        then ["movies_2010s"; "movies_modern"]
        else if truthy_Z (max_year yr) && (hi <=? 2000)%Z
        then ["movies_classics"; "movies_90s"]
        else []
    end in
  let keyword_keys :=
    flat_map (fun keyword =>
                let keyword_lower := lower keyword in
                if contains keyword_lower "marvel"
                   || contains keyword_lower "superhero"
                then ["movies_superhero"; "movies_marvel"]
                else if contains keyword_lower "disney"
                        || contains keyword_lower "animation"
                then ["movies_animation"; "movies_family"]
                else if contains keyword_lower "war"
                        || contains keyword_lower "guerra"
                then ["movies_war"; "movies_history"]
                else []) (firstn 2 (keywords filters)) in
  set_of_list
    (genre_keys ++ year_keys ++ keyword_keys ++
     [ "movies_all_popular"; "movies_top_rated"; "movies_trending";
       "movies_all_action"; "movies_all_comedy"; "movies_all_drama";
       "movies_general" ])%list.

(** The id under which [_deduplicate_movies] files a record. *)
Definition dedup_id (movie : dict) : string :=
  py_str (get movie "id" (get2 movie "tmdbId" "movieId" (PStr ""))).

(** The number of fields of a record that count as true. *)
Definition completeness (movie : dict) : nat :=
  length (filter (fun kv => truthy (snd kv)) movie).

Fixpoint add_unique (movie : dict) (unique_movies : list dict) : list dict :=
  match unique_movies with
  | [] => [movie]
  | existing_movie :: others =>
      if String.eqb (dedup_id existing_movie) (dedup_id movie)
      then (if (completeness existing_movie <? completeness movie)%nat
            then movie :: others else existing_movie :: others)
      else existing_movie :: add_unique movie others
  end.

(** [_deduplicate_movies]: one record an id, the more complete one. *)
Definition _deduplicate_movies (movies : list dict) : list dict :=
  fold_left (fun unique_movies movie =>
               if String.eqb (dedup_id movie) "" then unique_movies
               else add_unique movie unique_movies)
            movies [].

(** The genre ids of a record as the cache filters read them. *)
Definition cache_genre_strs (movie_genres : pyval) : res (list string) :=
  l <- py_iter movie_genres ;;
  Ok (map (fun g => match g with
                    | PDict d => py_str (get d "id" g)
                    | _ => py_str g
                    end) l).

(** [_calculate_year_proximity_score_for_cache]. *)
Definition _calculate_year_proximity_score_for_cache (movie_year : Z)
           (yr : YearRange) : Q :=
  year_range_score movie_year yr 0.05 0.8 0.2.

(** The score that [_apply_enhanced_client_side_filtering] gives a record. *)
Definition cache_score (filters : ExtractedFilters) (movie : dict) : res Q :=
  let score := 0.0 in
  let max_score := 0.0 in
  sm1 <-
    (if nonempty (genres filters) then
       let movie_genres := get2 movie "genre_ids" "genres" (PList []) in
       if truthy movie_genres then
         strs <- cache_genre_strs movie_genres ;;
         let filter_genre_strs := map py_str (genres filters) in
         let matches :=
           length (filter (fun g => mem_str g strs) filter_genre_strs) in
         Ok (if (0 <? matches)%nat
             then score + Q_of_nat matches / Q_of_nat (length filter_genre_strs)
             else score + 0.1, max_score + 1.0)
       else Ok (score + 0.1, max_score + 1.0)
     else Ok (score, max_score)) ;;
  let '(score, max_score) := sm1 in
  let '(score, max_score) :=
    match year_range filters with
    | None => (score, max_score)
    | Some yr =>
        let release_date :=
          get2 movie "release_date" "releaseDate" (PStr "") in
        (if truthy release_date then
           match year_of release_date with
           | Ok movie_year =>
               score + _calculate_year_proximity_score_for_cache movie_year yr
           | Raise _ => score + 0.1
           end
         else score + 0.1, max_score + 1.0)
    end in
  sm3 <-
    (if nonempty (keywords filters) then
       title <- lower_of (get movie "title" (PStr "")) ;;
       overview <- lower_of (get movie "overview" (PStr "")) ;;
       let text_content := title ++ " " ++ overview in
       let keyword_matches :=
         length (filter (fun keyword => contains text_content (lower keyword))
                        (keywords filters)) in
       Ok (if (0 <? keyword_matches)%nat
           then score + Q_of_nat keyword_matches
                        / Q_of_nat (length (keywords filters))
           else score + 0.1, max_score + 1.0)
     else Ok (score, max_score)) ;;
  let '(score, max_score) := sm3 in
  let max_score := max_score + 1.0 in
  rating <- rating_of movie ;;
  let score :=
    if Qle_bool 7.0 rating then score + 1.0
    else if Qle_bool 6.0 rating then score + 0.8
    else if Qle_bool 5.0 rating then score + 0.6
    else score + 0.3 in
  Ok (if Qlt_bool 0 max_score then score / max_score else 0.5).

(** The key of the sort at the end of the enhanced filter:
    [x.get('_cache_score', 0)]. *)
Definition cache_score_key (movie : dict) : Q :=
  match as_number (get movie "_cache_score" (PInt 0)) with
  | Some q => q
  | None => 0
  end.

(** [_apply_enhanced_client_side_filtering].  The score is written into
    the record itself, so the caller's list sees it too: the result is the
    filtered list and the caller's list after the loop. *)
Definition _apply_enhanced_client_side_filtering (movies : list dict)
           (filters : ExtractedFilters) : res (list dict * list dict) :=
  scored <-
    map_res (fun movie =>
               final_score <- cache_score filters movie ;;
               Ok (if Qle_bool 0.2 final_score
                   then (true, dict_set movie "_cache_score"
                                        (PFloat final_score))
                   else (false, movie))) movies ;;
  let filtered := map snd (filter fst scored) in
  Ok (sort_desc cache_score_key filtered, map snd scored).

(** [_apply_relaxed_filtering]. *)
Definition _apply_relaxed_filtering (movies : list dict)
           (filters : ExtractedFilters) (target_count : Z)
  : res (list dict) :=
  keyed <- map_res (fun movie => r <- rating_of movie ;; Ok (r, movie))
                   movies ;;
  let movies_by_rating := map snd (sort_desc fst keyed) in
  let relaxed_results := slice movies_by_rating (target_count * 2) in
  relaxed_results <-
    (if nonempty (genres filters) then
       genre_filtered <-
         filter_res
           (fun movie =>
              let movie_genres := get2 movie "genre_ids" "genres" (PList []) in
              if truthy movie_genres then
                strs <- cache_genre_strs movie_genres ;;
                Ok (existsb (fun g => mem_str g strs)
                            (map py_str (genres filters)))
              else Ok false)
           relaxed_results ;;
       Ok (if (target_count <=? Z.of_nat (length genre_filtered))%Z
           then genre_filtered else relaxed_results)
     else Ok relaxed_results) ;;
  Ok (slice relaxed_results (target_count * 2)).

(** [_generate_reasoning_for_cached_movie]. *)
Definition _generate_reasoning_for_cached_movie (movie_data : dict)
           (filters : ExtractedFilters) : res string :=
  base_reasoning <- _generate_reasoning movie_data filters ;;
  Ok (base_reasoning
      ++ " Esta recomendación proviene de nuestra selección curada de películas populares"
      ++ ".").

(** The body of the loop of [_transform_cached_movies_to_recommendations]. *)
Definition recommend_cached (filters : ExtractedFilters) (movie_data : dict)
  : res (option MovieRecommendation) :=
  let normalized_movie := _validate_and_normalize_movie_data movie_data in
  if negb (_meets_minimum_data_requirements normalized_movie) then Ok None
  else
    base_score <- _calculate_relevance_score movie_data filters ;;
    let cached_score := base_score * 0.95 in
    cached_score <-
      (match dict_get movie_data "_cache_score" with
       | Some v =>
           match as_number v with
           | Some c => Ok ((cached_score + c) / 2)
           | None => Raise TypeError
           end
       | None => Ok cached_score
       end) ;;
    reasoning <- _generate_reasoning_for_cached_movie movie_data filters ;;
    Ok (Some (mkRecommendation normalized_movie cached_score reasoning
                               "cached_fallback")).

(** [_transform_cached_movies_to_recommendations]. *)
Definition _transform_cached_movies_to_recommendations (movies : list dict)
           (filters : ExtractedFilters) : list MovieRecommendation :=
  sort_desc relevance_score (collect (recommend_cached filters) movies).

(** The loop over the cache keys, with its early exit. *)
Fixpoint gather (limit : Z) (cache_keys : list string)
         (all_cached_movies : list dict) (successful_cache_keys : list string)
  : list dict * list string :=
  match cache_keys with
  | [] => (all_cached_movies, successful_cache_keys)
  | cache_key :: others =>
      match _get_cached_movies_from_dynamodb cache_key with
      | [] => gather limit others all_cached_movies successful_cache_keys
      | cached_movies =>
          let all' := (all_cached_movies ++ cached_movies)%list in
          let keys' := (successful_cache_keys ++ [cache_key])%list in
          if (limit * 3 <=? Z.of_nat (length all'))%Z then (all', keys')
          else gather limit others all' keys'
      end
  end.

Definition mark_cached (sources : nat) (rec : MovieRecommendation)
  : MovieRecommendation :=
  mkRecommendation (movie rec) (relevance_score rec)
    (reasoning rec ++ " (Recomendación desde caché local ("
     ++ str_of_Z (Z.of_nat sources)
     ++ " fuentes) debido a problemas de conectividad)")
    "cached_fallback".

(** [_get_cached_movies_with_filtering]: every exception of the body ends
    in the empty list. *)
Definition _get_cached_movies_with_filtering (filters : ExtractedFilters)
           (limit : Z) : list MovieRecommendation :=
  let cache_keys := _build_cache_key_strategy filters in
  let '(all_cached_movies, successful_cache_keys) :=
    gather limit cache_keys [] [] in
  match all_cached_movies with
  | [] => []
  | _ =>
      let unique_movies := _deduplicate_movies all_cached_movies in
      catch
        (fu <- _apply_enhanced_client_side_filtering unique_movies filters ;;
         let '(filtered_movies, unique_movies) := fu in
         filtered_movies <-
           (if (Z.of_nat (length filtered_movies) <? limit)%Z
               && (limit <? Z.of_nat (length unique_movies))%Z
            then _apply_relaxed_filtering unique_movies filters limit
            else Ok filtered_movies) ;;
         let recommendations :=
           _transform_cached_movies_to_recommendations
             (slice filtered_movies limit) filters in
         Ok (map (mark_cached (length successful_cache_keys))
                 recommendations))
        []
  end.

(** *** Curated defaults and the emergency entry *)

(** [_get_smart_default_recommendations_with_scoring]. *)
Definition _get_smart_default_recommendations_with_scoring
           (filters : ExtractedFilters) (limit : Z)
  : list MovieRecommendation :=
  let selected_movies :=
    flat_map (fun genre_id =>
                match lookup (py_str genre_id) genre_specific_movies with
                | Some genre_movies => genre_movies
                | None => []
                end) (genres filters) in
  let selected_movies :=
    match selected_movies with
    | [] => general_movies
    | _ => selected_movies
    end in
  let recommendations :=
    collect (fun movie_data =>
               let normalized_movie :=
                 _validate_and_normalize_movie_data movie_data in
               relevance_score <-
                 _calculate_relevance_score movie_data filters ;;
               reasoning <-
                 _generate_smart_default_reasoning movie_data filters ;;
               Ok (Some (mkRecommendation normalized_movie relevance_score
                                          reasoning "smart_default")))
            (slice selected_movies limit) in
  sort_desc relevance_score recommendations.

Definition emergency_movie : dict :=
  [ ("id", PStr "emergency-1");
    ("title", PStr "Servicio Temporalmente No Disponible");
    ("overview",
     PStr "Lo sentimos, el servicio de recomendaciones no está disponible en este momento. Por favor, inténtalo de nuevo más tarde.");
    ("vote_average", PInt 0);
    ("release_date", PStr "2024-01-01");
    ("poster_path", PNone);
    ("genres", PList []) ].

(** [_get_emergency_fallback_recommendation]. *)
Definition _get_emergency_fallback_recommendation (filters : ExtractedFilters)
  : list MovieRecommendation :=
  [ mkRecommendation emergency_movie 0.0
      "El servicio de películas está temporalmente no disponible. Nuestro equipo está trabajando para restaurar el servicio lo antes posible."
      "emergency_fallback" ].

(** *** The cascade *)

(** The primary tier of [search_movies_with_filters]: [Ok (Some l)] when it
    returns [l] to the caller, [Ok None] when it falls through to the next
    tier, [Raise] when it failed. *)
Definition primary_search (filters : ExtractedFilters) (limit : Z)
  : res (option (list MovieRecommendation)) :=
  movies_data <- _invoke_movie_lambda_with_retry filters (limit * 2) ;;
  match movies_data with
  | [] => Ok None
  | _ =>
      valid_movies <- _validate_movie_results_quality movies_data filters ;;
      if (3 <=? length valid_movies)%nat then
        recommendations <-
          _transform_movies_to_recommendations valid_movies filters ;;
        match recommendations with
        | [] => Ok None
        | _ => Ok (Some (slice recommendations limit))
        end
      else Ok None
  end.

(** [search_movies_with_filters]. *)
Definition search_movies_with_filters (filters : ExtractedFilters) (limit : Z)
  : list MovieRecommendation :=
  match catch (primary_search filters limit) None with
  | Some recommendations => recommendations
  | None =>
      match _get_cached_movies_with_filtering filters limit with
      | r :: rs => r :: rs
      | [] =>
          match _get_smart_default_recommendations_with_scoring
                  filters limit with
          | r :: rs => r :: rs
          | [] => _get_emergency_fallback_recommendation filters
          end
      end
  end.

End WithRuntime.
End Search.

(* ================================================================== *)
(** ** Vocabulary of the properties                                     *)
(* ================================================================== *)

Import Prompt Search.

(** Both bounds of the year range are set and in order, or one is open. *)
Definition year_range_ordered (f : ExtractedFilters) : Prop :=
  match year_range f with
  | Some (mkYearRange (Some lo) (Some hi)) => (lo <= hi)%Z
  | _ => True
  end.

Definition rating_bound_ok (o : option Q) : Prop :=
  match o with
  | Some q => 0 <= q /\ q <= 10
  | None => True
  end.


(** A canonical genre id: a Python string of decimal digits. *)
Definition canonical_genre (v : pyval) : bool :=
  match v with
  | PStr s => isdigit s
  | _ => false
  end.

(** Non-increasing by [relevance_score]. *)
Definition sorted_by_score (l : list MovieRecommendation) : Prop :=
  StronglySorted (fun a b => relevance_score b <= relevance_score a) l.

(** The id of the source record of a recommendation, as text.  A
    normalised movie keeps it under [remoteId]; the emergency entry has
    only [id]. *)
Definition source_id (r : MovieRecommendation) : option string :=
  match dict_get (movie r) "remoteId" with
  | Some (PStr s) => Some s
  | _ => match dict_get (movie r) "id" with
         | Some (PStr s) => Some s
         | _ => None
         end
  end.

(** The filters "have specific filters" in the sense of
    [detect_ambiguous_query]. *)
Definition has_specific_filters (f : ExtractedFilters) : Prop :=
  genres f <> [] \/ year_range f <> None \/ rating_range f <> None
  \/ (2 <= length (keywords f))%nat.

Definition opt_num {A} (inj : A -> pyval) (o : option A) : pyval :=
  match o with
  | Some x => inj x
  | None => PNone
  end.

(** The year range of a filters value as the payload writes it. *)
Definition payload_year_range (o : option YearRange) : pyval :=
  match o with
  | Some yr => PDict [ ("min", opt_num PInt (min_year yr));
                       ("max", opt_num PInt (max_year yr)) ]
  | None => PNone
  end.

(** A filters value written back as a payload in the format that the
    prompt prescribes and the validator reads. *)
Definition payload_fields (f : ExtractedFilters) : dict :=
  [ ("genres", PList (genres f));
    ("year_range", payload_year_range (year_range f));
    ("rating_min",
     match rating_range f with
     | Some rr => opt_num PFloat (min_rating rr)
     | None => PNone
     end);
    ("rating_max",
     match rating_range f with
     | Some rr => opt_num PFloat (max_rating rr)
     | None => PNone
     end);
    ("keywords", PList (map PStr (keywords f)));
    ("intent", PStr (intent f));
    ("confidence", PFloat (confidence f)) ].

Definition payload_of_filters (f : ExtractedFilters) : pyval :=
  PDict (payload_fields f).

(** The same filters value, floats compared as numbers. *)
Definition same_filters (a b : ExtractedFilters) : Prop :=
  genres a = genres b /\ year_range a = year_range b
  /\ rating_range a = rating_range b
  /\ keywords a = keywords b /\ intent a = intent b
  /\ confidence a == confidence b /\ exclude_ids a = exclude_ids b.

(** The secondary pass of [process_ai_response] finds no fragment, or one
    that the validator rejects as well. *)
Definition no_valid_fragment {RT : Runtime} (raw : string) : Prop :=
  match _extract_json_from_mixed_content raw with
  | None => True
  | Some frag =>
      frag = "" \/ catch (_parse_and_validate_json_response frag) None = None
  end.

(** The confidence that [_apply_ambiguity_detection] computes from the
    weight [n] of the filters, the year span and the confidence it is
    given. *)
Definition calibrated_confidence (n : Q) (span : option Z) (c : Q) : Q :=
  let c1 :=
    if Qeq_bool n 0 then py_min c 0.2
    else if Qlt_bool n 1 then py_min c 0.4
    else if Qle_bool 2 n then py_min (c + py_min (c * 0.1) 0.1) 1.0
    else c in
  match span with
  | Some s => if (30 <? s)%Z then py_min c1 0.6 else c1
  | None => c1
  end.

(** The intent that it computes, from the calibrated confidence [c]. *)
Definition calibrated_intent (n : Q) (c : Q) (i : string) : string :=
  let i1 := if Qeq_bool n 0 then "clarification" else i in
  if Qlt_bool c 0.5 && String.eqb i1 "recommendation"
  then "clarification" else i1.

(** The genre ids that the table and the patterns of [GenreMapper] can
    answer. *)
Definition known_genre_ids : list string :=
  (map snd GenreMapper.TMDB_GENRE_MAP
   ++ flat_map (fun pg => firstn 1 (snd pg)) GenreMapper.pattern_mappings)%list.

(** *** Concrete surroundings for the worked cases *)

Module Cases.

(** An interpreter: the hash of the empty string is 0 (as in CPython, for
    every seed); the other values are one possible choice. *)
Definition runtime : Runtime :=
  {| py_hash := fun s => Z.of_nat (String.length s);
     py_repr := fun _ => "<repr>";
     current_year := 2025%Z |}.

Definition fight_club : dict :=
  [ ("id", PStr "550"); ("title", PStr "Fight Club");
    ("overview",
     PStr "An insomniac office worker and a devil-may-care soapmaker form an underground fight club.");
    ("vote_average", PFloat 8.4); ("release_date", PStr "1999-10-15");
    ("poster_path", PStr "/pB8BM7pdSp6B6Ih7QZ4DrQ3PmJK.jpg");
    ("genre_ids", PList [PInt 18]) ].

(** The remote search is down and the cache holds one popular movie. *)
Definition degraded : Collaborators :=
  {| _invoke_movie_lambda := fun _ _ => Raise ExternalError;
     _get_cached_movies_from_dynamodb :=
       fun key => if String.eqb key "movies_all_popular"
                  then [fight_club] else [];
     _generate_personalized_reasoning := fun _ _ => Ok "Te recomiendo.";
     _generate_reasoning := fun _ _ => Ok "Te recomiendo.";
     _generate_smart_default_reasoning := fun _ _ => Ok "Te recomiendo." |}.

(** The remote search is down and the cache is empty. *)
Definition offline : Collaborators :=
  {| _invoke_movie_lambda := fun _ _ => Raise ExternalError;
     _get_cached_movies_from_dynamodb := fun _ => [];
     _generate_personalized_reasoning := fun _ _ => Ok "Te recomiendo.";
     _generate_reasoning := fun _ _ => Ok "Te recomiendo.";
     _generate_smart_default_reasoning := fun _ _ => Ok "Te recomiendo." |}.

Definition no_filters : ExtractedFilters :=
  mkFilters [] None None [] "recommendation" 0.5 [].

(** A room that has already voted on movie 550. *)
Definition voted_550 : ExtractedFilters :=
  mkFilters [] None None [] "recommendation" 0.5 ["550"].

(** A record of a badly rated comedy of 2020 without [id] and [title]. *)
Definition poor_match : dict :=
  [ ("tmdbId", PInt 77); ("overview", PStr "Una comedia.");
    ("vote_average", PFloat 1.0); ("release_date", PStr "2020-01-01");
    ("genres", PList [PDict [("id", PInt 35)]]) ].

(** A request for action movies of the nineties about robots. *)
Definition action_90s : ExtractedFilters :=
  mkFilters [PStr "28"]
            (Some (mkYearRange (Some 1990%Z) (Some 1999%Z))) None
            ["robots"] "recommendation" 0.9 [].

(** The payload of the scenario of the specification. *)
Definition overconfident : string :=
  Json.text "{'genres':['28'],'intent':'recommendation','confidence':1.5}".

(** An answer with confidence 1.5 that carries a valid payload three
    levels down. *)
Definition nested : string :=
  Json.text "{'genres':[],'intent':'recommendation','confidence':1.5,'x':{'y':{'genres':['28'],'intent':'recommendation','confidence':0.9,'z':{}}}}".

(** A valid answer with two signals (a genre and a year range). *)
Definition two_signals : pyval :=
  PDict [ ("genres", PList [PStr "28"]);
          ("year_range", PDict [("min", PInt 1990); ("max", PInt 1999)]);
          ("intent", PStr "recommendation");
          ("confidence", PFloat 0.5) ].

(** A valid answer with one signal. *)
Definition one_signal : pyval :=
  PDict [ ("genres", PList [PStr "28"]);
          ("intent", PStr "recommendation");
          ("confidence", PFloat 0.9) ].

Definition inverted_years : pyval :=
  PDict [("min", PInt 1999); ("max", PInt 1990)].

(** A valid answer whose genre list holds the JSON value true. *)
Definition boolean_genre : string :=
  Json.text "{'genres':[true],'intent':'recommendation','confidence':0.5}".

End Cases.

(* ================================================================== *)
(** ** More of the sources                                              *)
(* ================================================================== *)

(** *** [models/extracted_filters.py]: the methods of the ranges and of the
    filters *)

(** [YearRange.is_valid]. *)
Definition year_range_is_valid (yr : YearRange) : bool :=
  match min_year yr, max_year yr with
  | Some lo, Some hi =>
      if truthy_Z (Some lo) && truthy_Z (Some hi) then (lo <=? hi)%Z else true
  | _, _ => true
  end.

(** [RatingRange.is_valid]. *)
Definition rating_range_is_valid (rr : RatingRange) : bool :=
  let out_of_domain (o : option Q) :=
    match o with
    | Some r => Qlt_bool r 0 || Qlt_bool 10 r
    | None => false
    end in
  if out_of_domain (min_rating rr) then false
  else if out_of_domain (max_rating rr) then false
  else
    match min_rating rr, max_rating rr with
    | Some lo, Some hi =>
        if truthy_Q (Some lo) && truthy_Q (Some hi) then Qle_bool lo hi
        else true
    | _, _ => true
    end.


(** [YearRange.to_dict]. *)
Definition year_range_to_dict (yr : YearRange) : dict :=
  [ ("minYear", opt_num PInt (min_year yr));
    ("maxYear", opt_num PInt (max_year yr)) ].

(** [RatingRange.to_dict]. *)
Definition rating_range_to_dict (rr : RatingRange) : dict :=
  [ ("minRating", opt_num PFloat (min_rating rr));
    ("maxRating", opt_num PFloat (max_rating rr)) ].

(** [ExtractedFilters.to_dict]. *)
Definition filters_to_dict (f : ExtractedFilters) : dict :=
  [ ("genres", PList (genres f));
    ("yearRange",
     match year_range f with
     | Some yr => PDict (year_range_to_dict yr)
     | None => PNone
     end);
    ("ratingRange",
     match rating_range f with
     | Some rr => PDict (rating_range_to_dict rr)
     | None => PNone
     end);
    ("keywords", PList (map PStr (keywords f)));
    ("intent", PStr (intent f));
    ("confidence", PFloat (confidence f));
    ("excludeIds", PList (map PStr (exclude_ids f))) ].

(** The readers below are defined on the values that have the type of
    the field they go into ([Optional[int]], [Optional[float]],
    [List[str]], [str], [float]); the dataclasses themselves do not check
    the types, and the records here cannot hold other values. *)
Definition read_optional_int (v : pyval) : option (option Z) :=
  match v with
  | PNone => Some None
  | PInt z => Some (Some z)
  | _ => None
  end.

Definition read_optional_float (v : pyval) : option (option Q) :=
  match v with
  | PNone => Some None
  | PFloat q => Some (Some q)
  | _ => None
  end.

Fixpoint read_strings (l : list pyval) : option (list string) :=
  match l with
  | [] => Some []
  | PStr s :: l' =>
      match read_strings l' with
      | Some ss => Some (s :: ss)
      | None => None
      end
  | _ :: _ => None
  end.

Definition read_string_list (v : pyval) : option (list string) :=
  match v with
  | PList l => read_strings l
  | _ => None
  end.

(** [YearRange.from_dict]. *)
Definition year_range_from_dict (data : dict) : option YearRange :=
  match read_optional_int (get data "minYear" PNone),
        read_optional_int (get data "maxYear" PNone) with
  | Some lo, Some hi => Some (mkYearRange lo hi)
  | _, _ => None
  end.

(** [RatingRange.from_dict]. *)
Definition rating_range_from_dict (data : dict) : option RatingRange :=
  match read_optional_float (get data "minRating" PNone),
        read_optional_float (get data "maxRating" PNone) with
  | Some lo, Some hi => Some (mkRatingRange lo hi)
  | _, _ => None
  end.

(** [ExtractedFilters.from_dict]: a range is read when its entry counts
    as true, and a missing entry has the default of its field. *)
Definition filters_from_dict (data : dict) : option ExtractedFilters :=
  let year_range :=
    if truthy (get data "yearRange" PNone) then
      match get data "yearRange" PNone with
      | PDict d => option_map Some (year_range_from_dict d)
      | _ => None
      end
    else Some None in
  let rating_range :=
    if truthy (get data "ratingRange" PNone) then
      match get data "ratingRange" PNone with
      | PDict d => option_map Some (rating_range_from_dict d)
      | _ => None
      end
    else Some None in
  match get data "genres" (PList []), year_range, rating_range,
        read_string_list (get data "keywords" (PList [])),
        get data "intent" (PStr "recommendation"),
        get data "confidence" (PFloat 0.0),
        read_string_list (get data "excludeIds" (PList [])) with
  | PList genres, Some year_range, Some rating_range, Some keywords,
    PStr intent, PFloat confidence, Some exclude_ids =>
      Some (mkFilters genres year_range rating_range keywords intent
                      confidence exclude_ids)
  | _, _, _, _, _, _, _ => None
  end.

(** *** [models/user_context.py] *)

(** [UserContext.should_exclude_movie]. *)
Definition should_exclude_movie (u : UserContext) (movie_id : string) : bool :=
  mem_str movie_id (recent_movies u) || mem_str movie_id (room_voted_movies u).

(** [UserContext.add_recent_movie]: a new movie goes to the front and the
    list is cut to 20. *)
Definition add_recent_movie (u : UserContext) (movie_id : string)
  : UserContext :=
  if negb (mem_str movie_id (recent_movies u))
  then mkUserContext (firstn 20 (movie_id :: recent_movies u))
                     (room_voted_movies u)
  else u.

(** *** [models/trini_response.py]: the methods of a recommendation *)

(** [MovieRecommendation.has_complete_data]. *)
Definition has_complete_data (r : MovieRecommendation) : bool :=
  forallb (fun field =>
             match dict_get (movie r) field with
             | Some PNone | None => false
             | Some _ => true
             end)
          ["id"; "title"; "overview"; "vote_average"; "release_date"].

(** *** [models/chat_session.py] *)

Module Chat.

(** A point in time ([datetime]), in microseconds. *)
Definition datetime : Type := Z.

Record ChatMessage : Type := mkChatMessage {
  message_id : string;
  type : string;
  content : string;
  extracted_filters : option dict;
  recommendations : option (list string);
  timestamp : datetime;
  confidence : Q
}.

Record ChatSession : Type := mkChatSession {
  session_id : string;
  user_id : string;
  messages : list ChatMessage;
  user_preferences : dict;
  created_at : datetime;
  updated_at : datetime;
  ttl : Z
}.

(** [l[-n:]] for a positive [n]. *)
Definition last_n {A} (n : nat) (l : list A) : list A :=
  skipn (length l - n) l.

(** [ChatSession.add_message]; [utcnow] is the reading of the clock. *)
Definition add_message (utcnow : datetime) (s : ChatSession)
           (message : ChatMessage) : ChatSession :=
  let messages := (messages s ++ [message])%list in
  let messages := if (10 <? length messages)%nat then last_n 10 messages
                  else messages in
  mkChatSession (session_id s) (user_id s) messages (user_preferences s)
                (created_at s) utcnow (ttl s).

(** The loop of [get_recent_movies] over the messages, newest first, with
    its [break]. *)
Fixpoint recent_loop (limit : Z) (reversed : list ChatMessage)
         (movies : list string) : list string :=
  match reversed with
  | [] => movies
  | message :: older =>
      match recommendations message with
      | Some (r :: rs) =>
          let movies := (movies ++ r :: rs)%list in
          if (limit <=? Z.of_nat (length movies))%Z then movies
          else recent_loop limit older movies
      | _ => recent_loop limit older movies
      end
  end.

(** [ChatSession.get_recent_movies]; the set is listed in insertion order
    (Python lists it in an order of its own). *)
Definition get_recent_movies (s : ChatSession) (limit : Z) : list string :=
  slice (set_of_list (recent_loop limit (rev (messages s)) [])) limit.

End Chat.

(** *** [utils/genre_mapping.py]: the other methods of [GenreMapper] *)

Module GenreTools.
Import GenreMapper.

Fixpoint assoc_set (k v : string) (l : list (string * string))
  : list (string * string) :=
  match l with
  | [] => [(k, v)]
  | (k', v') :: l' =>
      if String.eqb k k' then (k', v) :: l' else (k', v') :: assoc_set k v l'
  end.

(** [GENRE_ID_TO_NAME = {v: k for k, v in TMDB_GENRE_MAP.items()}]: the
    last term of an id wins. *)
Definition GENRE_ID_TO_NAME : list (string * string) :=
  fold_left (fun d kv => assoc_set (snd kv) (fst kv) d) TMDB_GENRE_MAP [].

(** [GenreMapper.get_genre_name]. *)
Definition get_genre_name (genre_id : string) : string :=
  match assoc genre_id GENRE_ID_TO_NAME with
  | Some name => name
  | None => genre_id
  end.

(** [GenreMapper.validate_genre_ids]. *)
Definition validate_genre_ids (genre_ids : list string) : list string :=
  let valid_ids := set_of_list (map snd TMDB_GENRE_MAP) in
  filter (fun gid => mem_str gid valid_ids) genre_ids.

Definition specific_terms : list (string * list string) :=
  [ ("27", ["terror"; "horror"; "miedo"]);
    ("35", ["comedia"; "gracioso"; "divertido"]);
    ("28", ["acción"; "accion"; "action"]);
    ("878", ["ciencia ficción"; "sci-fi"; "futurista"]);
    ("14", ["fantasía"; "fantasia"; "fantasy"]) ].

(** The score that [prioritize_genres] gives a genre id. *)
Definition priority_score (query_lower : string) (genre_id : string) : Z :=
  let score := 0%Z in
  let genre_name := get_genre_name genre_id in
  let score := if contains query_lower genre_name then (score + 10)%Z
               else score in
  match lookup genre_id specific_terms with
  | Some terms =>
      if existsb (contains query_lower) terms then (score + 5)%Z else score
  | None => score
  end.

(** [GenreMapper.prioritize_genres]. *)
Definition prioritize_genres (genre_ids : list string) (query : string)
  : list string :=
  match genre_ids with
  | [] => []
  | _ =>
      let query_lower := lower query in
      sort_desc (fun gid => inject_Z (priority_score query_lower gid))
                genre_ids
  end.

Definition complementary_map : list (string * list string) :=
  [ ("28", ["12"; "53"]); ("35", ["10749"; "10751"]); ("18", ["80"; "36"]);
    ("27", ["53"; "9648"]); ("878", ["28"; "12"]); ("14", ["12"; "10751"]);
    ("80", ["18"; "53"]); ("10749", ["35"; "18"]) ].

(** [GenreMapper.get_complementary_genres]; the set is listed in insertion
    order. *)
Definition get_complementary_genres (primary_genres : list string)
  : list string :=
  let complementary :=
    fold_left (fun acc genre_id =>
                 match lookup genre_id complementary_map with
                 | Some l => fold_left (fun a g => set_add g a) l acc
                 | None => acc
                 end) primary_genres [] in
  filter (fun g => negb (mem_str g (set_of_list primary_genres)))
         complementary.

End GenreTools.

(** *** [utils/ai_prompt_generator.py]: the query before it goes into the
    prompt *)

(** [re.sub(r'\s+', ' ', s)]: every run of blanks becomes one space. *)
Fixpoint collapse_blanks (in_run : bool) (s : string) : string :=
  match s with
  | EmptyString => EmptyString
  | String c s' =>
      if is_space c
      then (if in_run then collapse_blanks true s'
            else String " " (collapse_blanks true s'))
      else String c (collapse_blanks false s')
  end.

(** The characters of the class that [_sanitize_query] removes: angle
    brackets, braces, square brackets and the backslash. *)
Definition harmful_char (c : ascii) : bool :=
  Regex.mem_char c "<>{}[]" || Ascii.eqb c "092"%char.

Fixpoint remove_chars (p : ascii -> bool) (s : string) : string :=
  match s with
  | EmptyString => EmptyString
  | String c s' =>
      if p c then remove_chars p s' else String c (remove_chars p s')
  end.

(** [AIPromptGenerator._sanitize_query]. *)
Definition _sanitize_query (query : string) : string :=
  if String.eqb query "" then ""
  else
    let clean_query := collapse_blanks false (strip query) in
    let clean_query := remove_chars harmful_char clean_query in
    if (500 <? py_len clean_query)%nat then take 500 clean_query
    else clean_query.

(** *** [utils/rate_limiter.py] *)

Module RateLimiter.

(** The limiter: its two settings and the request times of every user,
    in the order in which the users first asked. *)
Record t : Type := mkRateLimiter {
  max_requests : Z;
  window_seconds : Z;
  user_requests : list (string * list Q)
}.

(** [RateLimiter(max_requests, window_seconds)]. *)
Definition init (max_requests window_seconds : Z) : t :=
  mkRateLimiter max_requests window_seconds [].

Fixpoint requests_of (user_id : string) (d : list (string * list Q))
  : option (list Q) :=
  match d with
  | [] => None
  | (k, v) :: d' => if String.eqb user_id k then Some v else requests_of user_id d'
  end.

(** [d[user_id] = v]. *)
Fixpoint set_requests (user_id : string) (v : list Q)
         (d : list (string * list Q)) : list (string * list Q) :=
  match d with
  | [] => [(user_id, v)]
  | (k, v') :: d' =>
      if String.eqb user_id k then (k, v) :: d'
      else (k, v') :: set_requests user_id v d'
  end.

(** The requests of the list that are still inside the window. *)
Definition in_window (rl : t) (current_time : Q) (l : list Q) : list Q :=
  filter (fun req_time =>
            Qlt_bool (current_time - req_time) (inject_Z (window_seconds rl)))
         l.

(** [RateLimiter.is_rate_limited] at the time [current_time]: the answer
    and the limiter afterwards. *)
Definition is_rate_limited (current_time : Q) (rl : t) (user_id : string)
  : bool * t :=
  let history :=
    match requests_of user_id (user_requests rl) with
    | Some l => l
    | None => []
    end in
  let history := in_window rl current_time history in
  if (max_requests rl <=? Z.of_nat (length history))%Z then
    (true,
     mkRateLimiter (max_requests rl) (window_seconds rl)
                   (set_requests user_id history (user_requests rl)))
  else
    (false,
     mkRateLimiter (max_requests rl) (window_seconds rl)
                   (set_requests user_id (history ++ [current_time])%list
                                 (user_requests rl))).

(** [RateLimiter.get_user_request_count]. *)
Definition get_user_request_count (current_time : Q) (rl : t)
           (user_id : string) : nat :=
  match requests_of user_id (user_requests rl) with
  | None => 0
  | Some l => length (in_window rl current_time l)
  end.

(** [RateLimiter.reset_user_limits]. *)
Definition reset_user_limits (rl : t) (user_id : string) : t :=
  mkRateLimiter (max_requests rl) (window_seconds rl)
    (filter (fun kv => negb (String.eqb user_id (fst kv))) (user_requests rl)).

(** A run of the limiter over a list of requests (user and time), oldest
    first: the answers and the limiter at the end. *)
Fixpoint serve (rl : t) (requests : list (string * Q)) : list bool * t :=
  match requests with
  | [] => ([], rl)
  | (user_id, current_time) :: later =>
      let (limited, rl') := is_rate_limited current_time rl user_id in
      let (answers, rl'') := serve rl' later in
      (limited :: answers, rl'')
  end.

(** The times of the requests of a user that a run let through. *)
Definition accepted_times (user_id : string) (requests : list (string * Q))
           (answers : list bool) : list Q :=
  map (fun ra => snd (fst ra))
      (filter (fun ra => String.eqb user_id (fst (fst ra)) && negb (snd ra))
              (combine requests answers)).

(** The times on record for a user (none for a user who never asked). *)
Definition history_of (rl : t) (user_id : string) : list Q :=
  match requests_of user_id (user_requests rl) with
  | Some l => l
  | None => []
  end.

(** No user has more than [max_requests] times on record. *)
Definition within_limit (rl : t) : Prop :=
  forall user_id,
    (Z.of_nat (length (history_of rl user_id)) <= max_requests rl)%Z.

End RateLimiter.


(** *** Reading the payload of the remote search *)


(** *** A remote search that answers at the second attempt *)

Module Scenes.

Definition flaky : Collaborators :=
  {| _invoke_movie_lambda :=
       fun _ attempt => if (attempt =? 0)%nat then Raise ExternalError
                        else Ok [Cases.fight_club];
     _get_cached_movies_from_dynamodb := fun _ => [];
     _generate_personalized_reasoning := fun _ _ => Ok "Te recomiendo.";
     _generate_reasoning := fun _ _ => Ok "Te recomiendo.";
     _generate_smart_default_reasoning := fun _ _ => Ok "Te recomiendo." |}.

End Scenes.

(** *** Records that stand for others *)

(** Each record of [old] is represented in [new] by a record that
    [_deduplicate_movies] files under the same id and that is at least as
    complete. *)
Definition covers {RT : Runtime} (new old : list dict) : Prop :=
  forall x, In x old ->
    exists x', In x' new /\ dedup_id x' = dedup_id x
               /\ (completeness x <= completeness x')%nat.

(** *** The tier behind a recommendation *)

Local Open Scope Q_scope.

(** A recommendation of the primary tier is built from a record that
    passed the strict filter. *)
Definition from_primary {RT : Runtime} (filters : ExtractedFilters)
           (r : MovieRecommendation) : Prop :=
  exists m s reasoning,
    passes_strict filters m = Ok true
    /\ _meets_minimum_data_requirements (_validate_and_normalize_movie_data m)
       = true
    /\ _calculate_relevance_score m filters = Ok s
    /\ r = mkRecommendation (_validate_and_normalize_movie_data m) s reasoning
                            "ai_recommendation".

(** A recommendation of the cached tier is built from a record of the
    cache, as it is or with the score of the enhanced filter written into
    it. *)
Definition from_cache {RT : Runtime} {CO : Collaborators}
           (filters : ExtractedFilters) (r : MovieRecommendation) : Prop :=
  exists key m0 m base,
    In m0 (_get_cached_movies_from_dynamodb key)
    /\ (m = m0
        \/ exists c, cache_score filters m0 = Ok c /\ 0.2 <= c
                     /\ m = dict_set m0 "_cache_score" (PFloat c))
    /\ _meets_minimum_data_requirements (_validate_and_normalize_movie_data m)
       = true
    /\ _calculate_relevance_score m filters = Ok base
    /\ movie r = _validate_and_normalize_movie_data m
    /\ source r = "cached_fallback"
    /\ relevance_score r
       = match dict_get m "_cache_score" with
         | Some v => match as_number v with
                     | Some c => (base * 0.95 + c) / 2
                     | None => 0
                     end
         | None => base * 0.95
         end
    /\ (forall v, dict_get m "_cache_score" = Some v -> as_number v <> None).

(** A recommendation of the curated tier is built from a record of the
    catalogue. *)
Definition from_catalogue {RT : Runtime} (filters : ExtractedFilters)
           (r : MovieRecommendation) : Prop :=
  exists m s reasoning,
    (In m general_movies
     \/ exists g l, In (g, l) genre_specific_movies /\ In m l)
    /\ _calculate_relevance_score m filters = Ok s
    /\ r = mkRecommendation (_validate_and_normalize_movie_data m) s reasoning
                            "smart_default".

Local Close Scope Q_scope.

(** *** Values within the reach of the conversions *)

(** A float that compares with 0: every float but NaN.  The ratings of
    this development are rationals, so all of them do. *)
Definition comparable (r : Q) : Prop := (r <= 0 \/ 0 < r)%Q.

(** An [int] of 64 bits: [float(z)] and [str(z)] accept it. *)
Definition small (z : Z) : bool := (Z.abs z <? 2 ^ 63)%Z.

(** Every [int] of a value, at any depth, has 64 bits. *)
Fixpoint small_ints (v : pyval) : bool :=
  match v with
  | PInt z => small z
  | PList l =>
      (fix all (l : list pyval) : bool :=
         match l with
         | [] => true
         | x :: l' => small_ints x && all l'
         end) l
  | PDict d =>
      (fix all (d : list (string * pyval)) : bool :=
         match d with
         | [] => true
         | (_, x) :: d' => small_ints x && all d'
         end) d
  | PNone | PBool _ | PFloat _ | PStr _ => true
  end.

(** The bounds of the year range of the filters have 64 bits. *)
Definition small_years (f : ExtractedFilters) : bool :=
  match year_range f with
  | Some yr =>
      match min_year yr with Some z => small z | None => true end
      && match max_year yr with Some z => small z | None => true end
  | None => true
  end.

Fixpoint ascii_only (s : string) : bool :=
  match s with
  | EmptyString => true
  | String c s' => (byte c <? 128)%nat && ascii_only s'
  end.

(** The id of a raw record, when it is text, is ASCII text of at most 64
    characters: on such text [str.isdigit] is true only of strings that
    [int] reads. *)
Definition plain_id (movie_data : dict) : bool :=
  match get2 movie_data "id" "tmdbId" (PStr "") with
  | PStr s => ascii_only s && (String.length s <=? 64)%nat
  | _ => true
  end.

(* ================================================================== *)
(** ** Properties                                                       *)
(* ================================================================== *)

Local Open Scope Q_scope.

(** *** Arithmetic of [min], [max] and the comparisons *)

Lemma Qlt_bool_cases (x y : Q) :
  (Qlt_bool x y = true /\ x < y) \/ (Qlt_bool x y = false /\ y <= x).
Proof.
  unfold Qlt_bool. destruct (Qle_bool y x) eqn:E.
  - right. split; [reflexivity | now apply Qle_bool_iff].
  - left. split; [reflexivity |].
    apply Qnot_le_lt. intro H. apply Qle_bool_iff in H. congruence.
Qed.

Lemma Qle_bool_cases (x y : Q) :
  (Qle_bool x y = true /\ x <= y) \/ (Qle_bool x y = false /\ y < x).
Proof.
  destruct (Qle_bool x y) eqn:E.
  - left. split; [reflexivity | now apply Qle_bool_iff].
  - right. split; [reflexivity |].
    apply Qnot_le_lt. intro H. apply Qle_bool_iff in H. congruence.
Qed.

Ltac qcase a b :=
  let E := fresh "E" in
  let H := fresh "H" in
  destruct (Qlt_bool_cases a b) as [[E H] | [E H]]; rewrite ?E in *.

Ltac qcase_le a b :=
  let E := fresh "E" in
  let H := fresh "H" in
  destruct (Qle_bool_cases a b) as [[E H] | [E H]]; rewrite ?E in *.

Lemma py_min_le_l (a b : Q) : py_min a b <= a.
Proof. unfold py_min. qcase b a; lra. Qed.

Lemma py_min_le_r (a b : Q) : py_min a b <= b.
Proof. unfold py_min. qcase b a; lra. Qed.

Lemma py_min_glb (a b c : Q) : c <= a -> c <= b -> c <= py_min a b.
Proof. unfold py_min. qcase b a; lra. Qed.

Lemma py_max_ge_l (a b : Q) : a <= py_max a b.
Proof. unfold py_max. qcase a b; lra. Qed.

Lemma py_max_ge_r (a b : Q) : b <= py_max a b.
Proof. unfold py_max. qcase a b; lra. Qed.

Lemma py_max_lub (a b c : Q) : a <= c -> b <= c -> py_max a b <= c.
Proof. unfold py_max. qcase a b; lra. Qed.

Ltac case_if :=
  match goal with
  | |- context [if ?c then _ else _] => destruct c eqn:?
  end.

(** Inversion of a successful [bind]. *)
Lemma bind_Ok {A B} (c : res A) (k : A -> res B) (b : B) :
  Py.bind c k = Ok b -> exists a, c = Ok a /\ k a = Ok b.
Proof. destruct c; simpl; intros H; [eauto | discriminate]. Qed.

Lemma Ok_inj {A} (a b : A) : Ok a = Ok b -> a = b.
Proof. now intros [= ->]. Qed.

Ltac inv_bind H :=
  let a := fresh "v" in
  let Ha := fresh "Hv" in
  apply bind_Ok in H; destruct H as (a & Ha & H).

(** *** The relevance score *)

Lemma adjust_score_bounds (s : Q) (seed : Z) (rating : Q) :
  0 < adjust_score s seed rating <= 1.
Proof.
  unfold adjust_score.
  set (v := if (seed mod 2 =? 0)%Z then _ else _).
  pose proof (py_max_ge_l 0.1 (py_min v 1.0)) as Hlo.
  assert (Hhi : py_max 0.1 (py_min v 1.0) <= 1).
  { pose proof (py_min_le_r v 1.0). apply py_max_lub; lra. }
  destruct (Qlt_bool 0 rating && Qlt_bool rating 4.0); lra.
Qed.

Lemma adjust_score_unpenalised (s : Q) (seed : Z) (rating : Q) :
  ~ (0 < rating /\ rating < 4) -> 0.1 <= adjust_score s seed rating.
Proof.
  intros Hr. unfold adjust_score.
  set (v := if (seed mod 2 =? 0)%Z then _ else _).
  pose proof (py_max_ge_l 0.1 (py_min v 1.0)) as Hlo.
  qcase 0 rating; qcase rating 4.0; simpl; lra.
Qed.

Lemma adjust_score_penalised (s : Q) (seed : Z) (rating : Q) :
  0 < rating -> rating < 4 ->
  exists clamped,
    0.1 <= clamped <= 1 /\ adjust_score s seed rating = clamped * 0.7.
Proof.
  intros H0 H4. unfold adjust_score.
  set (v := if (seed mod 2 =? 0)%Z then _ else _).
  exists (py_max 0.1 (py_min v 1.0)). split.
  - split; [apply py_max_ge_l |].
    pose proof (py_min_le_r v 1.0). apply py_max_lub; lra.
  - qcase 0 rating; qcase rating 4.0; simpl; solve [reflexivity | lra].
Qed.

(** The score is [adjust_score] of something, at the rating of the
    record. *)
Lemma relevance_score_shape {RT : Runtime} (m : dict) (f : ExtractedFilters)
      (s : Q) :
  _calculate_relevance_score m f = Ok s ->
  exists base rating,
    rating_of m = Ok rating /\ s = adjust_score base (variation_seed m) rating.
Proof.
  unfold _calculate_relevance_score. intros H.
  inv_bind H. inv_bind H. inv_bind H. inv_bind H.
  injection H as <-. eauto.
Qed.

(** C4, corrected.  Whenever the scorer returns a score, the score is
    positive and at most 1: it is clamped to [0.1, 1] after the variation,
    and the factor 0.7 for a rating strictly between 0 and 4 is applied
    after the clamp.  So the score is at least 0.1 unless the rating is in
    (0, 4); if it is, the score is 0.7 times a value of [0.1, 1], hence at
    most 0.7 and possibly below 0.1; and it is never 0. *)
Theorem relevance_score_range {RT : Runtime} (m : dict) (f : ExtractedFilters)
        (s : Q) :
  _calculate_relevance_score m f = Ok s ->
  0 < s <= 1
  /\ (forall rating, rating_of m = Ok rating ->
        (~ (0 < rating /\ rating < 4) -> 0.1 <= s)
        /\ (0 < rating /\ rating < 4 ->
            s <= 0.7
            /\ exists clamped, 0.1 <= clamped <= 1 /\ s = clamped * 0.7)).
Proof.
  intros H. destruct (relevance_score_shape _ _ H) as (base & r & Hr & ->).
  pose proof (adjust_score_bounds base (variation_seed m) r) as Hb.
  split; [lra |].
  intros rating Hrating. rewrite Hr in Hrating. injection Hrating as <-.
  split.
  - apply adjust_score_unpenalised.
  - intros [H0 H4].
    destruct (adjust_score_penalised base (variation_seed m) H0 H4)
      as (c & Hc & Heq).
    split; [rewrite Heq; lra | eauto].
Qed.

(** The scorer does return a score on a record with the usual fields. *)
Lemma relevance_score_range_witness :
  exists s,
    @_calculate_relevance_score Cases.runtime Cases.fight_club
      Cases.no_filters = Ok s
    /\ 0 < s <= 1.
Proof.
  eexists. split; [vm_compute; reflexivity |].
  apply (@relevance_score_range Cases.runtime Cases.fight_club
           Cases.no_filters).
  vm_compute; reflexivity.
Defined.

(** C4, counterexample.  A badly rated record (its rating is strictly
    between 0 and 4) that matches nothing of the request scores the
    product of the floor 0.1 and the factor 0.7, which is below 0.1 (its
    id and title are missing, so the variation is seeded by the hash of
    the empty string, which is 0). *)
Lemma relevance_score_below_floor :
  exists s rating,
    @_calculate_relevance_score Cases.runtime Cases.poor_match
      Cases.action_90s = Ok s
    /\ rating_of Cases.poor_match = Ok rating
    /\ 0 < rating /\ rating < 4
    /\ s == 0.1 * 0.7
    /\ s < 0.1
    /\ ~ (0.1 <= s <= 1).
Proof.
  eexists. eexists. split; [vm_compute; reflexivity |].
  split; [vm_compute; reflexivity |].
  split; [reflexivity |]. split; [reflexivity |].
  split; [reflexivity |]. split; [reflexivity |].
  intros [H _]. revert H. vm_compute. congruence.
Qed.

(** *** The ambiguity decision *)

Lemma has_specific_filters_bool (f : ExtractedFilters) :
  has_specific_filters f <->
  (0 <? length (genres f))%nat || is_some (year_range f)
  || is_some (rating_range f) || (2 <=? length (keywords f))%nat = true.
Proof.
  unfold has_specific_filters. rewrite !orb_true_iff.
  rewrite Nat.ltb_lt, Nat.leb_le.
  destruct (genres f), (year_range f), (rating_range f); simpl;
    intuition (try congruence; try lia).
Qed.

(** C9.  With at least one genre, a year range, a rating range or two
    keywords, the classifier answers "ambiguous" exactly when the
    confidence is below 0.2.  Without specific filters a confidence below
    0.2 is ambiguous; with a genre a confidence of 0.5 or more is not. *)
Theorem ambiguity_decision (f : ExtractedFilters) (user_query : string) :
  (has_specific_filters f ->
     (detect_ambiguous_query f user_query = true <-> confidence f < 0.2))
  /\ (~ has_specific_filters f -> confidence f < 0.2 ->
        detect_ambiguous_query f user_query = true)
  /\ (genres f <> [] -> 0.5 <= confidence f ->
        detect_ambiguous_query f user_query = false).
Proof.
  assert (Hspec : has_specific_filters f ->
                  detect_ambiguous_query f user_query
                  = Qlt_bool (confidence f) 0.2).
  { intros H. apply has_specific_filters_bool in H.
    unfold detect_ambiguous_query. now rewrite H. }
  split; [| split].
  - intros H. rewrite (Hspec H). qcase (confidence f) 0.2; split; intros;
      try reflexivity; try discriminate; lra.
  - intros Hn Hc.
    assert (Hb : (0 <? length (genres f))%nat || is_some (year_range f)
                 || is_some (rating_range f)
                 || (2 <=? length (keywords f))%nat = false).
    { destruct (_ || _ || _ || _) eqn:E; [| reflexivity].
      exfalso. apply Hn. now apply has_specific_filters_bool. }
    unfold detect_ambiguous_query. rewrite Hb.
    qcase (confidence f) 0.5; [reflexivity | lra].
  - intros Hg Hc. rewrite Hspec by (left; exact Hg).
    qcase (confidence f) 0.2; [lra | reflexivity].
Qed.

(** A query with one genre and confidence 0.6, and one with nothing and
    confidence 0.1. *)
Lemma ambiguity_decision_witness :
  detect_ambiguous_query
    (mkFilters [PStr "28"] None None [] "recommendation" 0.6 []) "acción"
  = false
  /\ detect_ambiguous_query
       (mkFilters [] None None [] "clarification" 0.1 []) "algo" = true.
Proof.
  split.
  - apply (ambiguity_decision
             (mkFilters [PStr "28"] None None [] "recommendation" 0.6 [])
             "acción").
    + simpl. discriminate.
    + simpl. lra.
  - apply (ambiguity_decision
             (mkFilters [] None None [] "clarification" 0.1 []) "algo").
    + unfold has_specific_filters. simpl.
      intros [H | [H | [H | H]]]; try congruence; lia.
    + simpl. lra.
Defined.

(** *** Invariants of the filters along extraction and validation *)

Lemma first_match_In {A} (query : string) (l : list (Regex.regex * A))
      (a : A) :
  first_match query l = Some a -> In a (map snd l).
Proof.
  induction l as [| [r x] l IH]; simpl; [discriminate |].
  destruct (is_some _).
  - intros [= <-]. now left.
  - intros H. right. now apply IH.
Qed.

(** The calibration touches the confidence and the intent only. *)
Lemma calibration_keeps_fields (f : ExtractedFilters) :
  let g := _apply_ambiguity_detection f in
  genres g = genres f /\ year_range g = year_range f
  /\ rating_range g = rating_range f /\ keywords g = keywords f
  /\ exclude_ids g = exclude_ids f.
Proof.
  unfold _apply_ambiguity_detection.
  repeat match goal with
         | |- context [if ?c then _ else _] => destruct c
         | |- context [match ?o with Some _ => _ | None => _ end] =>
             destruct o
         end; simpl; auto.
Qed.

Lemma with_context_fields (u : option UserContext) (f : ExtractedFilters) :
  genres (with_context u f) = genres f
  /\ year_range (with_context u f) = year_range f
  /\ rating_range (with_context u f) = rating_range f
  /\ confidence (with_context u f) = confidence f.
Proof. destruct u; simpl; auto. Qed.

Section Invariant.
Context {RT : Runtime}.
Variable P : ExtractedFilters -> Prop.
Hypothesis P_context : forall u f, P f -> P (with_context u f).
Hypothesis P_confidence : forall f c, P f -> P (set_confidence f c).
Hypothesis P_extract :
  forall q f, extract_keywords_with_patterns q = Ok f -> P f.
Hypothesis P_validate :
  forall p f, validate_payload p = Ok (Some f) -> P f.

Lemma parse_and_validate_inv (s : string) (f : ExtractedFilters) :
  _parse_and_validate_json_response s = Ok (Some f) -> P f.
Proof.
  unfold _parse_and_validate_json_response, catch_only.
  destruct (_ || _).
  - discriminate.
  - destruct (Json.loads _) as [p | e]; simpl.
    + destruct (validate_payload p) as [o | e] eqn:E.
      * intros [= ->]. eauto.
      * case_if; discriminate.
    + case_if; discriminate.
Qed.

(** What holds of both the extractor and the validator holds of the
    entry point. *)
Lemma process_ai_response_inv (raw q : string) (u : option UserContext)
      (f : ExtractedFilters) :
  process_ai_response raw q u = Ok f -> P f.
Proof.
  unfold process_ai_response.
  destruct (_parse_and_validate_json_response raw) as [[g |] | e] eqn:E1;
    simpl.
  - intros [= <-]. apply P_context. eapply parse_and_validate_inv; eauto.
  - destruct (_extract_json_from_mixed_content raw) as [frag |]; simpl.
    + destruct (String.eqb frag ""); simpl.
      * unfold fallback_extraction. intros H. inv_bind H.
        injection H as <-. apply P_context, P_confidence. eauto.
      * destruct (_parse_and_validate_json_response frag)
          as [[g |] | e] eqn:E2; simpl.
        -- intros [= <-]. apply P_context.
           eapply parse_and_validate_inv; eauto.
        -- unfold fallback_extraction. intros H. inv_bind H.
           injection H as <-. apply P_context, P_confidence. eauto.
        -- unfold fallback_extraction. intros H. inv_bind H.
           injection H as <-. apply P_context, P_confidence. eauto.
    + unfold fallback_extraction. intros H. inv_bind H.
      injection H as <-. apply P_context, P_confidence. eauto.
  - destruct (_extract_json_from_mixed_content raw) as [frag |]; simpl.
    + destruct (String.eqb frag ""); simpl.
      * unfold fallback_extraction. intros H. inv_bind H.
        injection H as <-. apply P_context, P_confidence. eauto.
      * destruct (_parse_and_validate_json_response frag)
          as [[g |] | e'] eqn:E2; simpl.
        -- intros [= <-]. apply P_context.
           eapply parse_and_validate_inv; eauto.
        -- unfold fallback_extraction. intros H. inv_bind H.
           injection H as <-. apply P_context, P_confidence. eauto.
        -- unfold fallback_extraction. intros H. inv_bind H.
           injection H as <-. apply P_context, P_confidence. eauto.
    + unfold fallback_extraction. intros H. inv_bind H.
      injection H as <-. apply P_context, P_confidence. eauto.
Qed.
End Invariant.

(** The fields that the extractor returns. *)
Lemma extract_fields {RT : Runtime} (q : string) (f : ExtractedFilters) :
  extract_keywords_with_patterns q = Ok f ->
  _extract_year_range_patterns (lower q) = Ok (year_range f)
  /\ exists rating_min,
       _extract_rating_patterns (lower q) = Ok rating_min
       /\ rating_range f =
          match rating_min with
          | None => None
          | Some r => Some (mkRatingRange (Some r) None)
          end.
Proof.
  unfold extract_keywords_with_patterns. intros H.
  inv_bind H. destruct v as [[g k] c].
  inv_bind H. inv_bind H. injection H as <-. simpl. eauto.
Qed.

(** The fields that the validator returns, before calibration. *)
Lemma validate_fields {RT : Runtime} (p : pyval) (f : ExtractedFilters) :
  validate_payload p = Ok (Some f) ->
  exists d gs,
    p = PDict d
    /\ _validate_json_structure p = Ok true
    /\ _extract_and_validate_genres (get d "genres" (PList [])) = Ok gs
    /\ genres f = gs
    /\ year_range f = _extract_and_validate_year_range (get d "year_range" PNone)
    /\ rating_range f = _extract_and_validate_rating_range d.
Proof.
  unfold validate_payload. intros H. inv_bind H.
  destruct v; simpl in H; [| discriminate].
  destruct (dict_of p) as [d |] eqn:Ed; [| discriminate].
  inv_bind H. inv_bind H. injection H as <-.
  destruct (calibration_keeps_fields
              (mkFilters v
                 (_extract_and_validate_year_range (get d "year_range" PNone))
                 (_extract_and_validate_rating_range d) v0
                 (_validate_intent (get d "intent" (PStr "recommendation")))
                 (_validate_confidence (get d "confidence" (PFloat 0.0))) []))
    as (Hg & Hy & Hr & _).
  exists d, v. destruct p; try discriminate. injection Ed as ->.
  repeat split; auto.
Qed.

Lemma validate_year_domain (v : pyval) (z : Z) :
  validate_year v = Some z -> (1900 <= z <= 2030)%Z.
Proof.
  unfold validate_year, year_in_domain.
  destruct v; try discriminate; simpl;
    match goal with
    | |- context [if ?c then _ else _] => destruct c eqn:E
    end; intros [= <-]; try discriminate; lia.
Qed.

Lemma validated_year_range_ordered (year_data : pyval) (yr : YearRange) :
  _extract_and_validate_year_range year_data = Some yr ->
  match yr with
  | mkYearRange (Some lo) (Some hi) => (lo <= hi)%Z
  | _ => True
  end.
Proof.
  unfold _extract_and_validate_year_range.
  destruct (negb (truthy year_data)); [discriminate |].
  destruct (dict_of year_data) as [d |]; [| discriminate].
  destruct (validate_year (get d "min" PNone)) as [a |] eqn:Ea;
    destruct (validate_year (get d "max" PNone)) as [b |] eqn:Eb.
  - apply validate_year_domain in Ea. apply validate_year_domain in Eb.
    destruct (truthy_Z (Some a) && truthy_Z (Some b) && (b <? a)%Z) eqn:E.
    + destruct (_ || _); intros [= <-]. apply andb_prop in E.
      destruct E as [_ E]. apply Z.ltb_lt in E. lia.
    + destruct (_ || _); intros [= <-].
      assert (Ht : truthy_Z (Some a) && truthy_Z (Some b) = true).
      { simpl. apply andb_true_intro.
        split; apply negb_true_iff, Z.eqb_neq; lia. }
      rewrite Ht in E. simpl in E. apply Z.ltb_ge in E. exact E.
  - destruct (_ || _); intros [= <-]. exact I.
  - destruct (_ || _); intros [= <-]. exact I.
  - simpl. discriminate.
Qed.

Lemma extracted_year_range_ordered {RT : Runtime} (query : string)
      (yr : YearRange) :
  _extract_year_range_patterns query = Ok (Some yr) ->
  match yr with
  | mkYearRange (Some lo) (Some hi) => (lo <= hi)%Z
  | _ => True
  end.
Proof.
  unfold _extract_year_range_patterns.
  destruct (first_match query decade_patterns) as [y |] eqn:E.
  - intros [= <-]. apply first_match_In in E. simpl in E.
    repeat (destruct E as [<- | E]; [lia |]). contradiction.
  - destruct (Regex.search year_pattern query); [| discriminate].
    intros H. inv_bind H. injection H as <-. lia.
Qed.

(** An inverted pair of years of the domain is swapped and kept. *)
Lemma inverted_year_range_swapped (d : dict) (lo hi : Z) :
  dict_get d "min" = Some (PInt hi) ->
  dict_get d "max" = Some (PInt lo) ->
  (1900 <= lo)%Z -> (lo < hi)%Z -> (hi <= 2030)%Z ->
  _extract_and_validate_year_range (PDict d)
  = Some (mkYearRange (Some lo) (Some hi)).
Proof.
  intros Hmin Hmax H1 H2 H3. unfold _extract_and_validate_year_range.
  assert (Ht : truthy (PDict d) = true).
  { destruct d; [discriminate | reflexivity]. }
  rewrite Ht. cbn [negb dict_of]. unfold get. rewrite Hmin, Hmax.
  unfold validate_year, year_in_domain. cbn [as_int].
  replace (1900 <=? hi)%Z with true by (symmetry; apply Z.leb_le; lia).
  replace (hi <=? 2030)%Z with true by (symmetry; apply Z.leb_le; lia).
  replace (1900 <=? lo)%Z with true by (symmetry; apply Z.leb_le; lia).
  replace (lo <=? 2030)%Z with true by (symmetry; apply Z.leb_le; lia).
  assert (E1 : (hi =? 0)%Z = false) by (apply Z.eqb_neq; lia).
  assert (E2 : (lo =? 0)%Z = false) by (apply Z.eqb_neq; lia).
  assert (E3 : (lo <? hi)%Z = true) by (apply Z.ltb_lt; lia).
  cbn [andb]. unfold truthy_Z. rewrite E1, E2, E3.
  cbn [andb negb orb]. rewrite E2. reflexivity.
Qed.

(** C7.  Year ranges come out ordered: from the deterministic extractor,
    from the validation of a payload, and hence from the entry point.  An
    inverted pair of a payload is swapped and kept, not rejected: for any
    two years of the domain 1900..2030 given as [min] above [max], the
    range that validation returns has them as [max] and [min]; so the pair
    (1999, 1990) becomes (1990, 1999). *)
Theorem year_range_always_ordered {RT : Runtime} :
  (forall q f, extract_keywords_with_patterns q = Ok f ->
               year_range_ordered f)
  /\ (forall p f, validate_payload p = Ok (Some f) -> year_range_ordered f)
  /\ (forall raw q u f, process_ai_response raw q u = Ok f ->
                        year_range_ordered f)
  /\ (forall d lo hi,
        dict_get d "min" = Some (PInt hi) ->
        dict_get d "max" = Some (PInt lo) ->
        (1900 <= lo)%Z -> (lo < hi)%Z -> (hi <= 2030)%Z ->
        _extract_and_validate_year_range (PDict d)
        = Some (mkYearRange (Some lo) (Some hi)))
  /\ (forall p d lo hi f,
        validate_payload (PDict p) = Ok (Some f) ->
        dict_get p "year_range" = Some (PDict d) ->
        dict_get d "min" = Some (PInt hi) ->
        dict_get d "max" = Some (PInt lo) ->
        (1900 <= lo)%Z -> (lo < hi)%Z -> (hi <= 2030)%Z ->
        year_range f = Some (mkYearRange (Some lo) (Some hi)))
  /\ _extract_and_validate_year_range Cases.inverted_years
     = Some (mkYearRange (Some 1990%Z) (Some 1999%Z)).
Proof.
  assert (He : forall q f, extract_keywords_with_patterns q = Ok f ->
                           year_range_ordered f).
  { intros q f H. apply extract_fields in H. destruct H as [Hy _].
    unfold year_range_ordered.
    destruct (year_range f) as [yr |] eqn:E; [| exact I].
    apply extracted_year_range_ordered in Hy. exact Hy. }
  assert (Hv : forall p f, validate_payload p = Ok (Some f) ->
                           year_range_ordered f).
  { intros p f H. apply validate_fields in H.
    destruct H as (d & gs & _ & _ & _ & _ & Hy & _).
    unfold year_range_ordered. rewrite Hy.
    destruct (_extract_and_validate_year_range _) as [yr |] eqn:E;
      [| exact I].
    apply validated_year_range_ordered in E. exact E. }
  split; [exact He |]. split; [exact Hv |].
  split; [| split; [| split; [| reflexivity]]].
  - intros raw q u f.
    apply (process_ai_response_inv year_range_ordered); auto.
    intros u' g Hg. unfold year_range_ordered.
    destruct (with_context_fields u' g) as (_ & -> & _). exact Hg.
  - apply inverted_year_range_swapped.
  - intros p d lo hi f H Hyr Hmin Hmax H1 H2 H3.
    apply validate_fields in H.
    destruct H as (d' & gs & Hd & _ & _ & _ & Hy & _).
    rewrite Hy. simpl in Hd. injection Hd as <-.
    unfold get. rewrite Hyr.
    now apply inverted_year_range_swapped.
Qed.

(** The query of the specification's scenario and the inverted payload. *)
Lemma year_range_always_ordered_witness :
  year_range_ordered
    (mkFilters [PStr "28"; PStr "12"]
       (Some (mkYearRange (Some 1990%Z) (Some 1999%Z))) None
       ["películas"; "acción"] "recommendation" 0.6 [])
  /\ year_range_ordered
       (_apply_ambiguity_detection
          (mkFilters [] (Some (mkYearRange (Some 1990%Z) (Some 1999%Z)))
             None [] "recommendation" 0.5 [])).
Proof.
  split.
  - apply (proj1 (@year_range_always_ordered Cases.runtime)
             "películas de acción de los 90").
    vm_compute. reflexivity.
  - apply (proj1 (proj2 (@year_range_always_ordered Cases.runtime))
             (PDict [ ("genres", PList []);
                      ("year_range", Cases.inverted_years);
                      ("intent", PStr "recommendation");
                      ("confidence", PFloat 0.5) ])).
    vm_compute. reflexivity.
Defined.

Lemma validate_rating_domain (v : pyval) (q : Q) :
  validate_rating v = Some q -> 0 <= q /\ q <= 10.
Proof.
  unfold validate_rating, rating_in_domain.
  destruct v; try discriminate; simpl;
    match goal with
    | |- context [Qle_bool ?a ?b && Qle_bool ?c ?d] =>
        qcase_le a b; qcase_le c d; simpl
    end; intros [= <-]; lra.
Qed.

Lemma validated_rating_range_bounds (d : dict) (rr : RatingRange) :
  _extract_and_validate_rating_range d = Some rr ->
  rating_bound_ok (min_rating rr) /\ rating_bound_ok (max_rating rr).
Proof.
  unfold _extract_and_validate_rating_range.
  destruct (validate_rating (get d "rating_min" PNone)) as [a |] eqn:Ea;
    destruct (validate_rating (get d "rating_max" PNone)) as [b |] eqn:Eb;
    try apply validate_rating_domain in Ea;
    try apply validate_rating_domain in Eb.
  - destruct (truthy_Q (Some a) && truthy_Q (Some b) && Qlt_bool b a);
      simpl; intros [= <-]; simpl; auto.
  - simpl. intros [= <-]. simpl. auto.
  - simpl. intros [= <-]. simpl. auto.
  - simpl. discriminate.
Qed.

Lemma clamp_0_10 (r : Q) :
  0 <= py_min (py_max r 0.0) 10.0 /\ py_min (py_max r 0.0) 10.0 <= 10.
Proof.
  pose proof (py_max_ge_r r 0.0). pose proof (py_min_le_r (py_max r 0.0) 10.0).
  split; [apply py_min_glb |]; lra.
Qed.

Lemma extracted_rating_bounds {RT : Runtime} (query : string) (r : Q) :
  _extract_rating_patterns query = Ok (Some r) -> 0 <= r /\ r <= 10.
Proof.
  unfold _extract_rating_patterns.
  destruct (Regex.search rating_pattern query) as [m |].
  - intros H. inv_bind H. injection H as <-. apply clamp_0_10.
  - destruct (Regex.search rating_de_pattern query) as [m |].
    + intros H. inv_bind H. injection H as <-. apply clamp_0_10.
    + intros H. apply Ok_inj in H. apply first_match_In in H. simpl in H.
      repeat (destruct H as [<- | H]; [lra |]). contradiction.
Qed.




(** *** Sorting and slicing *)

Lemma In_firstn {A} (x : A) (n : nat) (l : list A) :
  In x (firstn n l) -> In x l.
Proof.
  revert n. induction l as [| y l IH]; intros [| n]; simpl; try tauto.
  intros [-> | H]; [now left | right; eauto].
Qed.

Section SortFacts.
Variable A : Type.
Variable key : A -> Q.

Let R (a b : A) : Prop := key b <= key a.

Lemma insert_desc_length (x : A) (l : list A) :
  length (insert_desc key x l) = S (length l).
Proof.
  induction l as [| y l IH]; simpl; [reflexivity |].
  destruct (Qle_bool (key y) (key x)); simpl; congruence.
Qed.

Lemma sort_desc_length (l : list A) :
  length (sort_desc key l) = length l.
Proof.
  induction l as [| x l IH]; simpl; [reflexivity |].
  now rewrite insert_desc_length, IH.
Qed.

Lemma insert_desc_Forall (P : A -> Prop) (x : A) (l : list A) :
  P x -> Forall P l -> Forall P (insert_desc key x l).
Proof.
  intros Hx Hl. induction Hl as [| y l Hy Hl IH]; simpl.
  - constructor; [exact Hx | constructor].
  - destruct (Qle_bool (key y) (key x)).
    + constructor; [exact Hx |]. constructor; assumption.
    + constructor; assumption.
Qed.

Lemma insert_desc_sorted (x : A) (l : list A) :
  StronglySorted R l -> StronglySorted R (insert_desc key x l).
Proof.
  intros Hl. induction Hl as [| y l Hl IH Hy]; simpl.
  - constructor; constructor.
  - qcase_le (key y) (key x).
    + constructor.
      * constructor; assumption.
      * constructor; [exact H |].
        eapply Forall_impl; [| exact Hy]. unfold R. intros z Hz. lra.
    + constructor; [exact IH |].
      apply insert_desc_Forall; [unfold R; lra | exact Hy].
Qed.

Lemma sort_desc_sorted (l : list A) : StronglySorted R (sort_desc key l).
Proof.
  induction l as [| x l IH]; simpl; [constructor |].
  now apply insert_desc_sorted.
Qed.

Lemma sorted_firstn (n : nat) (l : list A) :
  StronglySorted R l -> StronglySorted R (firstn n l).
Proof.
  intros Hl. revert n. induction Hl as [| y l Hl IH Hy]; intros [| n];
    simpl; try constructor.
  - apply IH.
  - rewrite Forall_forall in *. intros z Hz. apply Hy.
    eapply In_firstn; eauto.
Qed.

Lemma sorted_filter (p : A -> bool) (l : list A) :
  StronglySorted R l -> StronglySorted R (filter p l).
Proof.
  intros Hl. induction Hl as [| y l Hl IH Hy]; simpl; [constructor |].
  destruct (p y); [| exact IH]. constructor; [exact IH |].
  rewrite Forall_forall in *. intros z Hz. apply Hy.
  apply filter_In in Hz. tauto.
Qed.

Lemma sorted_slice (n : Z) (l : list A) :
  StronglySorted R l -> StronglySorted R (slice l n).
Proof. unfold slice. destruct (0 <=? n)%Z; apply sorted_firstn. Qed.
End SortFacts.

Lemma slice_length {A} (l : list A) (n : Z) :
  (0 <= n)%Z -> (Z.of_nat (length (slice l n)) <= n)%Z.
Proof.
  intros Hn. unfold slice.
  destruct (0 <=? n)%Z eqn:E; [| apply Z.leb_gt in E; lia].
  pose proof (firstn_le_length (Z.to_nat n) l). lia.
Qed.

Lemma slice_nonempty {A} (l : list A) (n : Z) :
  (1 <= n)%Z -> l <> [] -> slice l n <> [].
Proof.
  intros Hn Hl. unfold slice.
  destruct (0 <=? n)%Z eqn:E; [| apply Z.leb_gt in E; lia].
  destruct l as [| x l]; [congruence |].
  destruct (Z.to_nat n) eqn:En; [lia |]. simpl. discriminate.
Qed.

Lemma collect_length {A B} (f : A -> res (option B)) (l : list A) :
  (length (collect f l) <= length l)%nat.
Proof.
  unfold collect. induction l as [| x l IH]; simpl; [lia |].
  rewrite length_app. destruct (catch (f x) None); simpl; lia.
Qed.

Lemma sorted_map_same_score (g : MovieRecommendation -> MovieRecommendation)
      (l : list MovieRecommendation) :
  (forall r, relevance_score (g r) = relevance_score r) ->
  sorted_by_score l -> sorted_by_score (map g l).
Proof.
  intros Hg Hl. unfold sorted_by_score in *.
  induction Hl as [| y l Hl IH Hy]; simpl; constructor; [exact IH |].
  rewrite Forall_forall in *. intros z Hz. apply in_map_iff in Hz.
  destruct Hz as (w & <- & Hw). rewrite !Hg. now apply Hy.
Qed.

Lemma nonempty_length {A} (l : list A) : l <> [] <-> (1 <= length l)%nat.
Proof. destruct l; simpl; split; intros; try congruence; lia. Qed.

(** *** The tiers of the cascade *)

Lemma quality_floor_sorted (l : list MovieRecommendation) :
  sorted_by_score l -> sorted_by_score (quality_floor l).
Proof.
  intros Hl. unfold quality_floor.
  destruct (5 <? length l)%nat; [| exact Hl].
  destruct (3 <=? length _)%nat; [| exact Hl].
  now apply sorted_filter.
Qed.

Lemma quality_floor_nonempty (l : list MovieRecommendation) :
  l <> [] -> quality_floor l <> [].
Proof.
  intros Hl. unfold quality_floor.
  destruct (5 <? length l)%nat; [| exact Hl].
  destruct (3 <=? length (filter _ l))%nat eqn:E; [| exact Hl].
  apply Nat.leb_le in E. apply nonempty_length. lia.
Qed.

(** What the primary tier hands back is a prefix of a sorted list. *)
Lemma primary_search_shape {RT : Runtime} {CO : Collaborators}
      (filters : ExtractedFilters) (limit : Z)
      (recs : list MovieRecommendation) :
  primary_search filters limit = Ok (Some recs) ->
  exists full,
    full <> [] /\ sorted_by_score full /\ recs = slice full limit.
Proof.
  unfold primary_search. intros H. inv_bind H.
  destruct v as [| m ms]; [discriminate |].
  inv_bind H. destruct (3 <=? length v)%nat; [| discriminate].
  inv_bind H. unfold _transform_movies_to_recommendations in Hv1.
  inv_bind Hv1. injection Hv1 as <-.
  set (full := quality_floor _) in *.
  destruct full as [| r rs] eqn:E; [discriminate |].
  injection H as <-. exists (r :: rs). split; [discriminate |].
  split; [| reflexivity]. rewrite <- E. subst full.
  apply quality_floor_sorted, sort_desc_sorted.
Qed.

Lemma cached_tier_shape {RT : Runtime} {CO : Collaborators}
      (filters : ExtractedFilters) (limit : Z) :
  (0 <= limit)%Z ->
  sorted_by_score (_get_cached_movies_with_filtering filters limit)
  /\ (Z.of_nat (length (_get_cached_movies_with_filtering filters limit))
      <= limit)%Z.
Proof.
  intros Hl. unfold _get_cached_movies_with_filtering.
  destruct (gather _ _ _ _) as [all keys].
  destruct all as [| m ms]; [split; [constructor | simpl; lia] |].
  destruct (_apply_enhanced_client_side_filtering _ _) as [[fm um] | e];
    simpl; [| split; [constructor | lia]].
  match goal with
  | |- context [Py.bind ?c _] => destruct c as [fm' | e]
  end; simpl; [| split; [constructor | lia]].
  split.
  - apply sorted_map_same_score; [reflexivity |].
    apply sort_desc_sorted.
  - rewrite length_map. unfold _transform_cached_movies_to_recommendations.
    rewrite sort_desc_length.
    pose proof (collect_length (recommend_cached filters) (slice fm' limit)).
    pose proof (slice_length fm' Hl). lia.
Qed.

Lemma curated_tier_shape {RT : Runtime} {CO : Collaborators}
      (filters : ExtractedFilters) (limit : Z) :
  (0 <= limit)%Z ->
  sorted_by_score
    (_get_smart_default_recommendations_with_scoring filters limit)
  /\ (Z.of_nat
        (length (_get_smart_default_recommendations_with_scoring
                   filters limit)) <= limit)%Z.
Proof.
  intros Hl. unfold _get_smart_default_recommendations_with_scoring.
  split; [apply sort_desc_sorted |].
  rewrite sort_desc_length.
  match goal with
  | |- context [collect ?f (slice ?l limit)] =>
      pose proof (collect_length f (slice l limit));
      pose proof (slice_length l Hl)
  end. lia.
Qed.

(** C1.  For a limit of at least 1 the search returns between 1 and
    [limit] recommendations, sorted non-increasing by relevance score;
    when the remote search, the cache and the curated defaults all come
    back empty, the result is the single emergency entry. *)
Theorem search_returns_a_ranked_nonempty_list
        {RT : Runtime} {CO : Collaborators}
        (filters : ExtractedFilters) (limit : Z) :
  (1 <= limit)%Z ->
  let result := search_movies_with_filters filters limit in
  (1 <= length result)%nat
  /\ (Z.of_nat (length result) <= limit)%Z
  /\ sorted_by_score result
  /\ (catch (primary_search filters limit) None = None ->
      _get_cached_movies_with_filtering filters limit = [] ->
      _get_smart_default_recommendations_with_scoring filters limit = [] ->
      result = _get_emergency_fallback_recommendation filters
      /\ length result = 1%nat).
Proof.
  intros Hl result. subst result. unfold search_movies_with_filters.
  destruct (primary_search filters limit) as [[recs |] | e] eqn:Ep; simpl.
  - destruct (primary_search_shape _ _ Ep) as (full & Hne & Hs & ->).
    repeat split.
    + apply nonempty_length, slice_nonempty; assumption.
    + apply slice_length. lia.
    + now apply sorted_slice.
    + discriminate.
    + discriminate.
  - destruct (@cached_tier_shape _ _ filters limit ltac:(lia)) as [Hcs Hcl].
    destruct (_get_cached_movies_with_filtering filters limit)
      as [| r rs] eqn:Ec.
    + destruct (@curated_tier_shape _ _ filters limit ltac:(lia)) as [Hds Hdl].
      destruct (_get_smart_default_recommendations_with_scoring filters limit)
        as [| r rs] eqn:Ed.
      * simpl. repeat split; try lia.
        constructor; constructor.
      * repeat split; try assumption; try discriminate. simpl. lia.
    + repeat split; try assumption; try discriminate. simpl. lia.
  - destruct (@cached_tier_shape _ _ filters limit ltac:(lia)) as [Hcs Hcl].
    destruct (_get_cached_movies_with_filtering filters limit)
      as [| r rs] eqn:Ec.
    + destruct (@curated_tier_shape _ _ filters limit ltac:(lia)) as [Hds Hdl].
      destruct (_get_smart_default_recommendations_with_scoring filters limit)
        as [| r rs] eqn:Ed.
      * simpl. repeat split; try lia.
        constructor; constructor.
      * repeat split; try assumption; try discriminate. simpl. lia.
    + repeat split; try assumption; try discriminate. simpl. lia.
Qed.

(** With the remote search down and one movie in the cache, a search for
    at most 20 movies. *)
Lemma search_returns_a_ranked_nonempty_list_witness :
  (1 <= length (@search_movies_with_filters Cases.runtime Cases.degraded
                  Cases.no_filters 20))%nat
  /\ sorted_by_score (@search_movies_with_filters Cases.runtime Cases.degraded
                        Cases.no_filters 20).
Proof.
  pose proof (@search_returns_a_ranked_nonempty_list Cases.runtime
                Cases.degraded Cases.no_filters 20 ltac:(lia)) as H.
  cbv zeta in H. destruct H as (H1 & _ & H3 & _). split; assumption.
Defined.

(** C3, corrected.  When the primary tier, the cache and the curated
    defaults produce nothing, the search returns exactly one
    recommendation, with relevance score 0 and with the source tag
    "emergency_fallback". *)
Theorem emergency_entry_when_every_tier_fails
        {RT : Runtime} {CO : Collaborators}
        (filters : ExtractedFilters) (limit : Z) :
  catch (primary_search filters limit) None = None ->
  _get_cached_movies_with_filtering filters limit = [] ->
  _get_smart_default_recommendations_with_scoring filters limit = [] ->
  exists r,
    search_movies_with_filters filters limit = [r]
    /\ source r = "emergency_fallback"
    /\ relevance_score r == 0.
Proof.
  intros Hp Hc Hd. unfold search_movies_with_filters.
  rewrite Hp, Hc, Hd. eexists. split; [reflexivity |].
  split; reflexivity.
Qed.

(** Everything is down and nothing is asked for (limit 0), so the curated
    tier has nothing to return either. *)
Lemma emergency_entry_when_every_tier_fails_witness :
  exists r,
    @search_movies_with_filters Cases.runtime Cases.offline
      Cases.no_filters 0 = [r]
    /\ source r = "emergency_fallback".
Proof.
  destruct (@emergency_entry_when_every_tier_fails Cases.runtime
              Cases.offline Cases.no_filters 0)
    as (r & Hr & Hs & _); try (vm_compute; reflexivity).
  exists r. split; assumption.
Defined.

(** C3, counterexample.  The source tag of the emergency entry is not the
    string "emergency". *)
Lemma emergency_source_tag :
  exists r,
    @search_movies_with_filters Cases.runtime Cases.offline
      Cases.no_filters 0 = [r]
    /\ relevance_score r == 0
    /\ source r = "emergency_fallback"
    /\ source r <> "emergency".
Proof.
  eexists. split; [vm_compute; reflexivity |].
  split; [reflexivity |]. split; [reflexivity | discriminate].
Qed.

(** C2, evaluated on the failing input.  The exclude list is handed to the
    remote search in the payload, but the fallback tiers never look at
    it: with the remote search down, a movie on the exclude list comes
    back from the cache, and a curated movie on the exclude list comes
    back from the curated defaults. *)
Theorem exclude_list_ignored_by_fallback_tiers :
  dict_get
    (match dict_get
             (match _transform_filters_to_lambda_payload
                      Cases.voted_550 40 with
              | PDict d => d
              | _ => []
              end) "arguments" with
     | Some (PDict a) => a
     | _ => []
     end) "excludeIds" = Some (PList [PStr "550"])
  /\ (exists r,
        In r (@search_movies_with_filters Cases.runtime Cases.degraded
                Cases.voted_550 20)
        /\ source r = "cached_fallback"
        /\ source_id r = Some "550"
        /\ In "550" (exclude_ids Cases.voted_550))
  /\ (exists r,
        In r (@search_movies_with_filters Cases.runtime Cases.offline
                (mkFilters [PStr "35"] None None [] "recommendation" 0.6
                           ["comedy-es-1"]) 20)
        /\ source r = "smart_default"
        /\ source_id r = Some "comedy-es-1").
Proof.
  split; [vm_compute; reflexivity |]. split.
  - eexists. split; [vm_compute; left; reflexivity |].
    repeat split. now left.
  - assert (H : exists r,
               In r (@search_movies_with_filters Cases.runtime Cases.offline
                       (mkFilters [PStr "35"] None None [] "recommendation"
                                  0.6 ["comedy-es-1"]) 20)
               /\ (String.eqb (source r) "smart_default"
                   && match source_id r with
                      | Some s => String.eqb s "comedy-es-1"
                      | None => false
                      end = true)).
    { apply existsb_exists. vm_compute. reflexivity. }
    destruct H as (r & Hin & Hb). exists r. split; [exact Hin |].
    apply andb_prop in Hb. destruct Hb as [Hs Hi].
    apply String.eqb_eq in Hs. split; [exact Hs |].
    destruct (source_id r) as [s |]; [| discriminate].
    apply String.eqb_eq in Hi. rewrite Hi. reflexivity.
Qed.

(** *** A payload with a confidence outside [0, 1] *)

Lemma out_of_range_structure (d : dict) (c : Q) :
  as_number (get d "confidence" PNone) = Some c ->
  ~ (0 <= c /\ c <= 1) ->
  _validate_json_structure (PDict d) = Ok false.
Proof.
  intros Hc Hout. unfold _validate_json_structure.
  repeat (case_if; [reflexivity |]).
  rewrite Hc. qcase_le 0.0 c; qcase_le c 1.0; simpl; try reflexivity.
  exfalso. apply Hout. lra.
Qed.

Lemma fallback_confidence_capped {RT : Runtime} (q : string)
      (u : option UserContext) (f : ExtractedFilters) :
  fallback_extraction q u = Ok f -> confidence f <= 0.4.
Proof.
  unfold fallback_extraction. intros H. inv_bind H. injection H as <-.
  destruct (with_context_fields u
              (set_confidence v (py_min (confidence v) 0.4)))
    as (_ & _ & _ & ->).
  simpl. apply py_min_le_r.
Qed.

(** C5, corrected.  When the answer parses to an object whose confidence
    is a number outside [0, 1], structural validation rejects it and the
    first pass returns nothing.  The secondary pass over the raw text then
    decides: when it digs out a fragment that is not empty and validates
    on its own, the entry point returns the filters of that fragment (with
    the context put in); in every other case it returns the deterministic
    extraction of the query, with its confidence capped at 0.4. *)
Theorem out_of_range_confidence_falls_back {RT : Runtime}
        (raw q : string) (u : option UserContext) (d : dict) (c : Q) :
  Json.loads (strip raw) = Ok (PDict d) ->
  as_number (get d "confidence" PNone) = Some c ->
  ~ (0 <= c /\ c <= 1) ->
  _validate_json_structure (PDict d) = Ok false
  /\ _parse_and_validate_json_response raw = Ok None
  /\ (no_valid_fragment raw ->
      process_ai_response raw q u = fallback_extraction q u)
  /\ (forall f, fallback_extraction q u = Ok f -> confidence f <= 0.4)
  /\ (forall frag g,
        _extract_json_from_mixed_content raw = Some frag ->
        frag <> "" ->
        _parse_and_validate_json_response frag = Ok (Some g) ->
        process_ai_response raw q u = Ok (with_context u g))
  /\ (no_valid_fragment raw
      \/ exists frag g,
           _extract_json_from_mixed_content raw = Some frag
           /\ frag <> ""
           /\ _parse_and_validate_json_response frag = Ok (Some g)).
Proof.
  intros Hload Hc Hout.
  pose proof (out_of_range_structure d Hc Hout) as Hs.
  assert (Hp : _parse_and_validate_json_response raw = Ok None).
  { unfold _parse_and_validate_json_response.
    case_if; [reflexivity |]. rewrite Hload. simpl.
    unfold validate_payload. rewrite Hs. reflexivity. }
  split; [exact Hs |]. split; [exact Hp |]. split; [| split; [| split]].
  - unfold no_valid_fragment, process_ai_response. rewrite Hp. simpl.
    destruct (_extract_json_from_mixed_content raw) as [frag |];
      [| reflexivity].
    intros [-> | Hf]; [reflexivity |].
    destruct (String.eqb frag ""); [reflexivity |].
    simpl in Hf |- *. rewrite Hf. reflexivity.
  - intros f. apply fallback_confidence_capped.
  - intros frag g Hfrag Hne Hg. unfold process_ai_response.
    rewrite Hp. simpl. rewrite Hfrag.
    apply String.eqb_neq in Hne. rewrite Hne. rewrite Hg. reflexivity.
  - unfold no_valid_fragment.
    destruct (_extract_json_from_mixed_content raw) as [frag |];
      [| now left].
    destruct (String.eqb frag "") eqn:Ef.
    { apply String.eqb_eq in Ef. left. now left. }
    apply String.eqb_neq in Ef.
    destruct (_parse_and_validate_json_response frag) as [[g |] | e] eqn:Eg.
    + right. exists frag, g. auto.
    + left. right. reflexivity.
    + left. right. reflexivity.
Qed.

(** The payload of the scenario: confidence 1.5, and the only fragment
    found in the text is the payload itself. *)
Lemma out_of_range_confidence_falls_back_witness :
  @process_ai_response Cases.runtime Cases.overconfident
    "películas de acción de los 90" None
  = @fallback_extraction Cases.runtime "películas de acción de los 90" None
  /\ @_parse_and_validate_json_response Cases.runtime Cases.overconfident
     = Ok None.
Proof.
  destruct (@out_of_range_confidence_falls_back Cases.runtime
              Cases.overconfident "películas de acción de los 90" None
              [ ("genres", PList [PStr "28"]);
                ("intent", PStr "recommendation");
                ("confidence", PFloat (3 # 2)) ] (3 # 2))
    as (_ & Hp & Hf & _).
  - vm_compute. reflexivity.
  - reflexivity.
  - intros [_ H]. revert H. vm_compute. congruence.
  - split; [| exact Hp]. apply Hf. vm_compute. right. reflexivity.
Defined.

(** C5, counterexample.  The answer [Cases.nested] has confidence 1.5 and
    structural validation rejects it, but the secondary pass finds the
    object nested three levels down, which validates: the entry point
    returns its filters, with confidence 0.9, and not the deterministic
    extraction. *)
Lemma embedded_payload_is_returned :
  exists d c f,
    Json.loads (strip Cases.nested) = Ok (PDict d)
    /\ as_number (get d "confidence" PNone) = Some c
    /\ c == 1.5
    /\ _validate_json_structure (PDict d) = Ok false
    /\ @process_ai_response Cases.runtime Cases.nested "algo" None = Ok f
    /\ confidence f == 0.9
    /\ ~ confidence f <= 0.4
    /\ @process_ai_response Cases.runtime Cases.nested "algo" None
       <> @fallback_extraction Cases.runtime "algo" None.
Proof.
  eexists. eexists. eexists.
  split; [vm_compute; reflexivity |].
  split; [vm_compute; reflexivity |].
  split; [reflexivity |].
  split; [vm_compute; reflexivity |].
  split; [vm_compute; reflexivity |].
  split; [reflexivity |].
  split; [intros H; revert H; vm_compute; congruence |].
  vm_compute. discriminate.
Qed.

(** *** Strings: stripping and digits *)

Lemma lstrip_head (s : string) :
  lstrip s = "" \/ exists c t, lstrip s = String c t /\ is_space c = false.
Proof.
  induction s as [| c s IH]; simpl; [now left |].
  destruct (is_space c) eqn:E; [exact IH |]. right. eauto.
Qed.

Lemma rstrip_idem (s : string) : rstrip (rstrip s) = rstrip s.
Proof.
  induction s as [| c s IH]; simpl; [reflexivity |].
  destruct (rstrip s) as [| c' r] eqn:E.
  - destruct (is_space c) eqn:Ec; simpl; [reflexivity |].
    now rewrite Ec.
  - simpl in IH |- *. rewrite IH. reflexivity.
Qed.

Lemma rstrip_keeps_head (c : ascii) (t : string) :
  is_space c = false -> exists t', rstrip (String c t) = String c t'.
Proof.
  intros Ec. simpl. destruct (rstrip t); [rewrite Ec |]; eauto.
Qed.

Lemma strip_idem (s : string) : strip (strip s) = strip s.
Proof.
  unfold strip. destruct (lstrip_head s) as [-> | (c & t & -> & Ec)].
  - reflexivity.
  - destruct (@rstrip_keeps_head c t Ec) as (t' & Ht).
    assert (Hl : lstrip (rstrip (String c t)) = rstrip (String c t)).
    { rewrite Ht. simpl. now rewrite Ec. }
    rewrite Hl. apply rstrip_idem.
Qed.

Lemma digit_not_space (c : ascii) : is_digit c = true -> is_space c = false.
Proof.
  unfold is_digit, is_space. intros H. apply andb_prop in H.
  destruct H as [H1 H2]. apply Nat.leb_le in H1. apply Nat.leb_le in H2.
  apply orb_false_iff. split; apply andb_false_iff.
  - right. apply Nat.leb_gt. lia.
  - right. apply Nat.leb_gt. lia.
Qed.

Lemma strip_digits (s : string) : all_digits s = true -> strip s = s.
Proof.
  intros H. unfold strip.
  assert (Hl : lstrip s = s).
  { destruct s as [| c s]; [reflexivity |]. simpl in H |- *.
    apply andb_prop in H. destruct H as [Hc _].
    now rewrite (digit_not_space _ Hc). }
  rewrite Hl. clear Hl. induction s as [| c s IH]; [reflexivity |].
  simpl in H |- *. apply andb_prop in H. destruct H as [Hc Hs].
  rewrite (IH Hs). destruct s; [| reflexivity].
  now rewrite (digit_not_space _ Hc).
Qed.

Lemma int_of_str_digits (s : string) :
  isdigit s = true ->
  int_of_str s = match Z_of_digits s with
                 | Some z => Ok z
                 | None => Raise ValueError
                 end.
Proof.
  intros H. unfold isdigit in H. apply andb_prop in H. destruct H as [Hne Hd].
  unfold int_of_str. rewrite (strip_digits _ Hd).
  destruct s as [| c r]; [discriminate |].
  assert (Hc : is_digit c = true) by (simpl in Hd; now apply andb_prop in Hd).
  assert (Hbody : match String c r with
                  | String "-" r0 => (true, r0)
                  | String "+" r0 => (false, r0)
                  | _ => (false, String c r)
                  end = (false, String c r)).
  { destruct c as [[] [] [] [] [] [] [] []]; try discriminate Hc;
      reflexivity. }
  rewrite Hbody. simpl fst. simpl snd.
  unfold isdigit. rewrite Hd. simpl. reflexivity.
Qed.

Lemma string_of_uint_digits (d : Decimal.uint) :
  all_digits (NilEmpty.string_of_uint d) = true.
Proof. induction d; simpl; auto. Qed.

Lemma str_of_Z_pos (p : positive) :
  isdigit (str_of_Z (Zpos p)) = true
  /\ Z_of_digits (str_of_Z (Zpos p)) = Some (Zpos p).
Proof.
  unfold str_of_Z, Z_of_digits. simpl.
  pose proof (DecimalPos.Unsigned.to_uint_nonnil p) as Hn.
  rewrite (NilZero.usu _ Hn). split.
  - unfold isdigit, NilZero.string_of_uint.
    destruct (Pos.to_uint p) eqn:E; try congruence;
      rewrite <- E; rewrite string_of_uint_digits; rewrite E; reflexivity.
  - unfold Z.of_uint. now rewrite DecimalPos.Unsigned.of_to.
Qed.

(** *** Stability of what the validator accepts *)

Lemma concat_map_res_In {A B} (f : A -> res (list B)) (l : list A)
      (ys : list B) (y : B) :
  concat_map_res f l = Ok ys -> In y ys ->
  exists x zs, In x l /\ f x = Ok zs /\ In y zs.
Proof.
  revert ys. induction l as [| x l IH]; simpl; intros ys H Hy.
  - injection H as <-. contradiction.
  - inv_bind H. inv_bind H. injection H as <-.
    apply in_app_or in Hy. destruct Hy as [Hy | Hy].
    + exists x, v. auto.
    + destruct (IH _ Hv0 Hy) as (x' & zs & Hx & Hf & Hz).
      exists x', zs. auto.
Qed.

Lemma concat_map_res_singletons {A} (f : A -> res (list A)) (l : list A) :
  (forall x, In x l -> f x = Ok [x]) -> concat_map_res f l = Ok l.
Proof.
  induction l as [| x l IH]; simpl; intros H; [reflexivity |].
  rewrite (H x) by now left. simpl. rewrite IH by auto. reflexivity.
Qed.

Lemma assoc_In (k : string) (l : list (string * string)) (v : string) :
  GenreMapper.assoc k l = Some v -> In v (map snd l).
Proof.
  induction l as [| [k' v'] l IH]; simpl; [discriminate |].
  destruct (String.eqb k k'); [intros [= <-]; now left | auto].
Qed.

Lemma first_pattern_In (name : string)
      (l : list (Regex.regex * list string)) (id : string) (ids : list string) :
  GenreMapper.first_pattern name l = Some (id :: ids) ->
  In id (flat_map (fun pg => firstn 1 (snd pg)) l).
Proof.
  induction l as [| [r x] l IH]; simpl; [discriminate |].
  destruct (GenreMapper.isearch r name).
  - intros [= ->]. simpl. now left.
  - intros H. apply in_or_app. right. auto.
Qed.

Lemma mapped_id_known (name id : string) :
  GenreMapper.get_genre_id_by_name name = Some id -> In id known_genre_ids.
Proof.
  unfold GenreMapper.get_genre_id_by_name, known_genre_ids.
  destruct (GenreMapper.assoc _ _) as [v |] eqn:E.
  - intros [= <-]. apply in_or_app. left. eapply assoc_In; eauto.
  - destruct (GenreMapper.first_pattern _ _) as [[| i ids] |] eqn:E2;
      try discriminate.
    intros [= <-]. apply in_or_app. right. eapply first_pattern_In; eauto.
Qed.

Lemma known_ids_revalidate {RT : Runtime} (id : string) :
  In id known_genre_ids -> validate_genre (PStr id) = Ok [PStr id].
Proof.
  intros H.
  assert (Hall : forallb (fun i =>
                    match @validate_genre RT (PStr i) with
                    | Ok [PStr j] => String.eqb i j
                    | _ => false
                    end) known_genre_ids = true)
    by (vm_compute; reflexivity).
  rewrite forallb_forall in Hall. specialize (Hall id H).
  destruct (validate_genre (PStr id)) as [[| [] []] | ]; try discriminate.
  apply String.eqb_eq in Hall. now subst.
Qed.

(** A canonical genre that the validator has produced is accepted again,
    unchanged. *)
Lemma validated_genre_stable {RT : Runtime} (x g : pyval) (zs : list pyval) :
  validate_genre x = Ok zs -> In g zs -> canonical_genre g = true ->
  validate_genre g = Ok [g].
Proof.
  intros Hx Hg Hc. destruct x; simpl in Hx;
    try (injection Hx as <-; contradiction).
  - destruct b; simpl in Hx; injection Hx as <-; [| contradiction].
    destruct Hg as [<- | []]. discriminate Hc.
  - destruct (in_id_range z) eqn:Er; injection Hx as <-; [| contradiction].
    destruct Hg as [<- | []]. simpl.
    unfold in_id_range in Er. apply andb_prop in Er. destruct Er as [E1 E2].
    apply Z.leb_le in E1. destruct z as [| p | p]; try lia.
    destruct (str_of_Z_pos p) as [Hd Hz].
    rewrite Hd. rewrite (int_of_str_digits _ Hd), Hz. simpl.
    unfold in_id_range. rewrite E2.
    replace (1 <=? Z.pos p)%Z with true by (symmetry; apply Z.leb_le; lia).
    reflexivity.
  - destruct (isdigit s) eqn:Ed.
    + inv_bind Hx. injection Hx as <-.
      destruct (in_id_range v) eqn:Er; [| contradiction].
      destruct Hg as [<- | []]. simpl. rewrite Ed, Hv. simpl.
      now rewrite Er.
    + destruct (GenreMapper.get_genre_id_by_name (lower s)) as [id |] eqn:Em;
        [| injection Hx as <-; contradiction].
      injection Hx as <-.
      destruct (String.eqb id ""); [contradiction |].
      destruct Hg as [<- | []].
      apply known_ids_revalidate. eapply mapped_id_known; eauto.
Qed.

Lemma validated_genres_stable {RT : Runtime} (v : pyval) (gs : list pyval) :
  _extract_and_validate_genres v = Ok gs ->
  forallb canonical_genre gs = true ->
  _extract_and_validate_genres (PList gs) = Ok gs.
Proof.
  unfold _extract_and_validate_genres. intros H Hc. inv_bind H. simpl.
  apply concat_map_res_singletons. intros g Hg.
  destruct (concat_map_res_In _ _ _ H Hg) as (x & zs & _ & Hx & Hz).
  rewrite forallb_forall in Hc. eapply validated_genre_stable; eauto.
Qed.

Lemma validate_year_accepts (z : Z) :
  (1900 <= z <= 2030)%Z -> validate_year (PInt z) = Some z.
Proof.
  intros H. unfold validate_year, year_in_domain. simpl.
  replace (1900 <=? z)%Z with true by (symmetry; apply Z.leb_le; lia).
  replace (z <=? 2030)%Z with true by (symmetry; apply Z.leb_le; lia).
  reflexivity.
Qed.

Ltac year_payload :=
  cbn [truthy negb dict_of get dict_get String.eqb Ascii.eqb Bool.eqb
       min_year max_year opt_num].

(** A year range that the validator has produced is accepted again,
    unchanged. *)
Lemma validated_year_range_stable (year_data : pyval) (yr : YearRange) :
  _extract_and_validate_year_range year_data = Some yr ->
  _extract_and_validate_year_range
    (PDict [ ("min", opt_num PInt (min_year yr));
             ("max", opt_num PInt (max_year yr)) ]) = Some yr.
Proof.
  intros H. pose proof (validated_year_range_ordered _ H) as Hord.
  revert H. unfold _extract_and_validate_year_range at 1.
  destruct (negb (truthy year_data)); [discriminate |].
  destruct (dict_of year_data) as [d |]; [| discriminate].
  destruct (validate_year (get d "min" PNone)) as [a |] eqn:Ea;
    destruct (validate_year (get d "max" PNone)) as [b |] eqn:Eb;
    try apply validate_year_domain in Ea;
    try apply validate_year_domain in Eb.
  - assert (Hab : forall lo hi, yr = mkYearRange (Some lo) (Some hi) ->
                    (1900 <= lo <= 2030)%Z -> (1900 <= hi <= 2030)%Z ->
                    _extract_and_validate_year_range
                      (PDict [ ("min", opt_num PInt (min_year yr));
                               ("max", opt_num PInt (max_year yr)) ])
                    = Some yr).
    { intros lo hi -> Hlo Hhi. simpl in Hord.
      unfold _extract_and_validate_year_range. year_payload.
      rewrite (validate_year_accepts Hlo), (validate_year_accepts Hhi).
      replace (hi <? lo)%Z with false by (symmetry; apply Z.ltb_ge; lia).
      rewrite andb_false_r. unfold truthy_Z.
      replace (lo =? 0)%Z with false by (symmetry; apply Z.eqb_neq; lia).
      reflexivity. }
    destruct (truthy_Z (Some a) && truthy_Z (Some b) && (b <? a)%Z);
      destruct (_ || _); intros [= <-]; eapply Hab; eauto.
  - destruct (_ || _); intros [= <-].
    unfold _extract_and_validate_year_range. year_payload.
    rewrite (validate_year_accepts Ea). cbn [validate_year]. unfold truthy_Z.
    replace (a =? 0)%Z with false by (symmetry; apply Z.eqb_neq; lia).
    reflexivity.
  - destruct (_ || _); intros [= <-].
    unfold _extract_and_validate_year_range. year_payload.
    rewrite (validate_year_accepts Eb). cbn [validate_year]. unfold truthy_Z.
    replace (b =? 0)%Z with false by (symmetry; apply Z.eqb_neq; lia).
    rewrite orb_true_r. reflexivity.
  - simpl. discriminate.
Qed.

Lemma validate_rating_accepts (v : pyval) (q : Q) :
  validate_rating v = Some q -> validate_rating (PFloat q) = Some q.
Proof.
  unfold validate_rating.
  destruct v; try discriminate; simpl;
    match goal with
    | |- context [if rating_in_domain ?x then _ else _] =>
        destruct (rating_in_domain x) eqn:E
    end; intros [= <-]; try discriminate; simpl; now rewrite ?E.
Qed.

(** A rating range that the validator has produced is accepted again,
    unchanged. *)
Lemma validated_rating_range_stable (d d' : dict) (rr : RatingRange) :
  _extract_and_validate_rating_range d = Some rr ->
  get d' "rating_min" PNone = opt_num PFloat (min_rating rr) ->
  get d' "rating_max" PNone = opt_num PFloat (max_rating rr) ->
  _extract_and_validate_rating_range d' = Some rr.
Proof.
  unfold _extract_and_validate_rating_range. intros H Hmin Hmax.
  rewrite Hmin, Hmax. clear Hmin Hmax. revert H.
  destruct (validate_rating (get d "rating_min" PNone)) as [a |] eqn:Ea;
    destruct (validate_rating (get d "rating_max" PNone)) as [b |] eqn:Eb;
    try apply validate_rating_accepts in Ea;
    try apply validate_rating_accepts in Eb.
  - destruct (truthy_Q (Some a) && truthy_Q (Some b) && Qlt_bool b a) eqn:E;
      simpl; intros [= <-]; cbn [min_rating max_rating opt_num];
      rewrite Ea, Eb.
    + apply andb_prop in E. destruct E as [E Hlt].
      apply andb_prop in E. destruct E as [Ta Tb].
      rewrite Ta, Tb. simpl.
      qcase b a; [| discriminate]. qcase a b; [lra |]. reflexivity.
    + rewrite E. reflexivity.
  - simpl. intros [= <-]. cbn [min_rating max_rating opt_num].
    rewrite Ea. reflexivity.
  - simpl. intros [= <-]. cbn [min_rating max_rating opt_num].
    rewrite Eb. reflexivity.
  - simpl. discriminate.
Qed.

Lemma firstn_firstn_same {A} (n : nat) (l : list A) :
  firstn n (firstn n l) = firstn n l.
Proof.
  revert l. induction n as [| n IH]; intros [| x l]; simpl; try reflexivity.
  now rewrite IH.
Qed.

(** Keywords that the validator has produced are accepted again,
    unchanged. *)
Lemma validated_keywords_stable (v : pyval) (ks : list string) :
  _extract_and_validate_keywords v = Ok ks ->
  _extract_and_validate_keywords (PList (map PStr ks)) = Ok ks.
Proof.
  unfold _extract_and_validate_keywords. intros H. inv_bind H.
  apply Ok_inj in H. subst ks. cbn [py_iter Py.bind]. f_equal.
  set (F := fun keyword : pyval => _).
  assert (Hfix : forall l : list string,
             (forall k, In k l -> strip k = k /\ keyword_ok k = true) ->
             flat_map F (map PStr l) = l).
  { induction l as [| k l IH]; simpl; intros Hl; [reflexivity |].
    destruct (Hl k (or_introl eq_refl)) as [Hs Hk].
    rewrite Hs, Hk. simpl. f_equal. apply IH. auto. }
  rewrite Hfix.
  - apply firstn_firstn_same.
  - intros k Hk. apply In_firstn in Hk. apply in_flat_map in Hk.
    destruct Hk as (x & _ & Hx). subst F. simpl in Hx.
    destruct x; try contradiction.
    destruct (keyword_ok (strip s)) eqn:E; [| contradiction].
    destruct Hx as [<- | []]. split; [apply strip_idem | exact E].
Qed.

Lemma mem_str_In (s : string) (l : list string) :
  mem_str s l = true <-> In s l.
Proof.
  unfold mem_str. rewrite existsb_exists. split.
  - intros (x & Hx & E). apply String.eqb_eq in E. now subst.
  - intros H. exists s. split; [exact H | apply String.eqb_refl].
Qed.

Lemma validate_intent_valid (v : pyval) : In (_validate_intent v) valid_intents.
Proof.
  unfold _validate_intent. destruct v; try (simpl; tauto).
  destruct (mem_str (lower s) valid_intents) eqn:E.
  - now apply mem_str_In.
  - simpl. tauto.
Qed.

Lemma valid_intent_fixed (i : string) :
  In i valid_intents -> _validate_intent (PStr i) = i.
Proof.
  simpl. intros [<- | [<- | [<- | []]]]; reflexivity.
Qed.

Lemma validate_confidence_range (v : pyval) :
  0 <= _validate_confidence v <= 1.
Proof.
  unfold _validate_confidence. destruct (as_number v) as [c |]; [| lra].
  unfold py_max, py_min. qcase c 1.0; qcase 0.0 c; try lra.
  qcase 0.0 1.0; lra.
Qed.

Lemma validate_confidence_fixed (c : Q) :
  0 <= c <= 1 -> _validate_confidence (PFloat c) == c.
Proof.
  intros H. unfold _validate_confidence. simpl.
  unfold py_max, py_min. qcase c 1.0.
  - qcase 0.0 c; lra.
  - qcase 0.0 1.0; lra.
Qed.

Lemma structure_of_payload (f : ExtractedFilters) :
  In (intent f) valid_intents -> 0 <= confidence f <= 1 ->
  _validate_json_structure (payload_of_filters f) = Ok true.
Proof.
  intros Hi Hc. apply mem_str_In in Hi.
  unfold _validate_json_structure, payload_of_filters, payload_fields.
  cbn [forallb required_fields has_key dict_get String.eqb Ascii.eqb
       Bool.eqb negb andb get is_list as_number].
  rewrite Hi. cbn [negb].
  qcase_le 0.0 (confidence f); [| lra].
  qcase_le (confidence f) 1.0; [| lra]. reflexivity.
Qed.

(** *** Calibration, once and twice *)

Lemma Qeq_bool_cases (x y : Q) :
  (Qeq_bool x y = true /\ x == y) \/ (Qeq_bool x y = false /\ ~ x == y).
Proof.
  destruct (Qeq_bool x y) eqn:E.
  - left. split; [reflexivity | now apply Qeq_bool_iff].
  - right. split; [reflexivity |]. intros H. apply Qeq_bool_iff in H.
    congruence.
Qed.

Ltac qsplit_lt a b :=
  let E := fresh "E" in
  let H := fresh "H" in
  destruct (Qlt_bool_cases a b) as [[E H] | [E H]];
  rewrite ?E in *; clear E; cbv iota in *.

Ltac qsplit_le a b :=
  let E := fresh "E" in
  let H := fresh "H" in
  destruct (Qle_bool_cases a b) as [[E H] | [E H]];
  rewrite ?E in *; clear E; cbv iota in *.

Ltac qsplit :=
  repeat match goal with
         | |- context [Qlt_bool ?a ?b] => qsplit_lt a b
         | |- context [Qle_bool ?a ?b] => qsplit_le a b
         | _ : context [Qlt_bool ?a ?b] |- _ => qsplit_lt a b
         | _ : context [Qle_bool ?a ?b] |- _ => qsplit_le a b
         end.

Ltac proj_cbn :=
  cbn [genres year_range rating_range keywords intent confidence exclude_ids
       set_intent set_confidence year_span].

Ltac proj_cbn_all :=
  cbn [genres year_range rating_range keywords intent confidence exclude_ids
       set_intent set_confidence year_span] in *.

(** The calibration, field by field. *)
Lemma calibration_eq (f : ExtractedFilters) :
  let n := filter_count f in
  let c := calibrated_confidence n (year_span f) (confidence f) in
  _apply_ambiguity_detection f
  = mkFilters (genres f) (year_range f) (rating_range f) (keywords f)
              (calibrated_intent n c (intent f)) c (exclude_ids f).
Proof.
  destruct f as [gs yr rr ks i c ex].
  unfold _apply_ambiguity_detection, calibrated_confidence, calibrated_intent.
  cbv zeta. generalize (filter_count (mkFilters gs yr rr ks i c ex)).
  intros n. unfold year_span, set_intent, set_confidence. proj_cbn.
  destruct (Qeq_bool n 0); [| destruct (Qlt_bool n 1);
                              [| destruct (Qle_bool 2 n)]];
    proj_cbn; destruct yr as [[[a |] [b |]] |]; proj_cbn;
    repeat (case_if; proj_cbn_all); try reflexivity; congruence.
Qed.

Lemma calibrated_confidence_range (n : Q) (span : option Z) (c : Q) :
  0 <= c <= 1 -> 0 <= calibrated_confidence n span c <= 1.
Proof.
  intros H. unfold calibrated_confidence, py_min.
  destruct (Qeq_bool n 0); [| destruct (Qlt_bool n 1);
                              [| destruct (Qle_bool 2 n)]];
    destruct span as [s |]; try destruct (30 <? s)%Z; qsplit; try lra.
Qed.

Lemma calibrated_confidence_proper (n : Q) (span : option Z) (c c' : Q) :
  c == c' -> calibrated_confidence n span c == calibrated_confidence n span c'.
Proof.
  intros H. unfold calibrated_confidence, py_min.
  destruct (Qeq_bool n 0); [| destruct (Qlt_bool n 1);
                              [| destruct (Qle_bool 2 n)]];
    destruct span as [s |]; try destruct (30 <? s)%Z; qsplit; lra.
Qed.

(** A second calibration never lowers the confidence. *)
Lemma calibrated_confidence_again (n : Q) (span : option Z) (c : Q) :
  0 <= c ->
  calibrated_confidence n span c
  <= calibrated_confidence n span (calibrated_confidence n span c).
Proof.
  intros H. unfold calibrated_confidence, py_min.
  destruct (Qeq_bool n 0); [| destruct (Qlt_bool n 1);
                              [| destruct (Qle_bool 2 n)]];
    destruct span as [s |]; try destruct (30 <? s)%Z; qsplit; lra.
Qed.

(** With a weight below 2 a second calibration changes nothing. *)
Lemma calibrated_confidence_idem (n : Q) (span : option Z) (c : Q) :
  n < 2 ->
  calibrated_confidence n span (calibrated_confidence n span c)
  == calibrated_confidence n span c.
Proof.
  intros H. unfold calibrated_confidence, py_min.
  destruct (Qeq_bool n 0); [| destruct (Qlt_bool n 1);
                              [| qcase_le 2 n; [lra |]]];
    destruct span as [s |]; try destruct (30 <? s)%Z; qsplit; lra.
Qed.

Lemma calibrated_intent_valid (n c : Q) (i : string) :
  In i valid_intents -> In (calibrated_intent n c i) valid_intents.
Proof.
  intros H. unfold calibrated_intent.
  destruct (Qeq_bool n 0); case_if; simpl; tauto.
Qed.

Lemma calibrated_intent_again (n c c2 : Q) (i : string) :
  c <= c2 ->
  calibrated_intent n c2 (calibrated_intent n c i) = calibrated_intent n c i.
Proof.
  intros H. unfold calibrated_intent.
  destruct (Qeq_bool n 0).
  - rewrite !andb_false_r. reflexivity.
  - destruct (String.eqb i "recommendation") eqn:Ei.
    + qcase c 0.5; simpl.
      * rewrite andb_false_r. reflexivity.
      * rewrite Ei. qcase c2 0.5; [lra | reflexivity].
    + rewrite !andb_false_r. rewrite Ei. rewrite andb_false_r. reflexivity.
Qed.

(** *** Feeding the validator its own output *)

Ltac payload_gets :=
  cbn [payload_fields get dict_get String.eqb Ascii.eqb Bool.eqb].

(** What the validator makes of a written-back filters value whose fields
    it accepts. *)
Lemma validate_written_back {RT : Runtime} (f : ExtractedFilters) :
  In (intent f) valid_intents ->
  0 <= confidence f <= 1 ->
  _extract_and_validate_genres (PList (genres f)) = Ok (genres f) ->
  _extract_and_validate_year_range (payload_year_range (year_range f))
  = year_range f ->
  _extract_and_validate_rating_range (payload_fields f) = rating_range f ->
  _extract_and_validate_keywords (PList (map PStr (keywords f)))
  = Ok (keywords f) ->
  validate_payload (payload_of_filters f)
  = Ok (Some (_apply_ambiguity_detection
                (mkFilters (genres f) (year_range f) (rating_range f)
                   (keywords f) (intent f)
                   (_validate_confidence (PFloat (confidence f))) []))).
Proof.
  intros Hi Hc Hg Hy Hr Hk. unfold validate_payload.
  rewrite (structure_of_payload f Hi Hc).
  cbn [Py.bind negb]. unfold payload_of_filters. cbn [dict_of].
  rewrite Hr. payload_gets. rewrite Hg, Hy, Hk.
  cbn [Py.bind]. rewrite (valid_intent_fixed Hi). reflexivity.
Qed.

(** From weight 2 on the calibration is the boost, and the cap of a wide
    year span. *)
Lemma calibrated_confidence_boost (n : Q) (span : option Z) (c : Q) :
  2 <= n ->
  calibrated_confidence n span c
  == match span with
     | Some s => if (30 <? s)%Z
                 then py_min (py_min (c + py_min (c * 0.1) 0.1) 1.0) 0.6
                 else py_min (c + py_min (c * 0.1) 0.1) 1.0
     | None => py_min (c + py_min (c * 0.1) 0.1) 1.0
     end.
Proof.
  intros H. unfold calibrated_confidence.
  assert (E0 : Qeq_bool n 0 = false).
  { destruct (Qeq_bool n 0) eqn:E; [| reflexivity].
    apply Qeq_bool_iff in E. lra. }
  rewrite E0. qcase n 1; [lra |]. qcase_le 2 n; [| lra].
  destruct span as [s |]; [destruct (30 <? s)%Z |]; reflexivity.
Qed.

(** C6, corrected.  Feeding a filters value that validation produced back
    through validation and calibration keeps its genres (when they are
    canonical id strings), ranges, keywords and intent, and never lowers
    its confidence: the second pass calibrates the confidence once more.
    It is the same filters value when calibration counts a filter weight
    below 2.  From weight 2 on, the second pass turns the confidence [c]
    into [min(c + min(c * 0.1, 0.1), 1.0)], capped at 0.6 when the year
    range spans more than 30 years. *)
Theorem revalidation_of_validated_filters {RT : Runtime}
        (p : pyval) (f : ExtractedFilters) :
  validate_payload p = Ok (Some f) ->
  forallb canonical_genre (genres f) = true ->
  exists f',
    validate_payload (payload_of_filters f) = Ok (Some f')
    /\ genres f' = genres f /\ year_range f' = year_range f
    /\ rating_range f' = rating_range f /\ keywords f' = keywords f
    /\ intent f' = intent f
    /\ confidence f <= confidence f'
    /\ (filter_count f < 2 -> same_filters f' f)
    /\ confidence f'
       == calibrated_confidence (filter_count f) (year_span f) (confidence f)
    /\ (2 <= filter_count f ->
        let boosted :=
          py_min (confidence f + py_min (confidence f * 0.1) 0.1) 1.0 in
        confidence f'
        == match year_span f with
           | Some span => if (30 <? span)%Z then py_min boosted 0.6
                          else boosted
           | None => boosted
           end).
Proof.
  intros Hv Hcanon. unfold validate_payload in Hv. inv_bind Hv.
  destruct v; [| discriminate]. cbn [negb] in Hv.
  destruct (dict_of p) as [d |]; [| discriminate].
  inv_bind Hv. inv_bind Hv. apply Ok_inj in Hv. injection Hv as Hf.
  rename v into gs, v0 into ks.
  set (yr := _extract_and_validate_year_range (get d "year_range" PNone)) in *.
  set (rr := _extract_and_validate_rating_range d) in *.
  set (i0 := _validate_intent (get d "intent" (PStr "recommendation"))) in *.
  set (c0 := _validate_confidence (get d "confidence" (PFloat 0.0))) in *.
  assert (Hi0 : In i0 valid_intents) by apply validate_intent_valid.
  assert (Hc0 : 0 <= c0 <= 1) by apply validate_confidence_range.
  rewrite calibration_eq in Hf. cbv zeta in Hf. proj_cbn_all.
  set (n := filter_count (mkFilters gs yr rr ks i0 c0 [])) in *.
  set (span := year_span (mkFilters gs yr rr ks i0 c0 [])) in *.
  set (c1 := calibrated_confidence n span c0) in *.
  set (i1 := calibrated_intent n c1 i0) in *.
  assert (Hc1 : 0 <= c1 <= 1) by now apply calibrated_confidence_range.
  assert (Hi1 : In i1 valid_intents) by now apply calibrated_intent_valid.
  subst f. proj_cbn_all.
  assert (Hy : _extract_and_validate_year_range (payload_year_range yr) = yr).
  { destruct yr as [y |] eqn:Ey; [| reflexivity].
    apply (validated_year_range_stable _ Ey). }
  assert (Hr : _extract_and_validate_rating_range
                 (payload_fields (mkFilters gs yr rr ks i1 c1 [])) = rr).
  { destruct rr as [r |] eqn:Er; [| reflexivity].
    apply (validated_rating_range_stable d _ Er); reflexivity. }
  pose proof (@validate_written_back RT (mkFilters gs yr rr ks i1 c1 [])
                Hi1 Hc1 (validated_genres_stable _ Hv1 Hcanon) Hy Hr
                (validated_keywords_stable _ Hv2)) as Hw.
  proj_cbn_all. rewrite calibration_eq in Hw. cbv zeta in Hw. proj_cbn_all.
  change (filter_count
            (mkFilters gs yr rr ks i1 (_validate_confidence (PFloat c1)) []))
    with n in Hw.
  change (year_span
            (mkFilters gs yr rr ks i1 (_validate_confidence (PFloat c1)) []))
    with span in Hw.
  set (c2 := _validate_confidence (PFloat c1)) in *.
  set (c3 := calibrated_confidence n span c2) in *.
  assert (Hc2 : c2 == c1) by now apply validate_confidence_fixed.
  assert (Hc3 : c3 == calibrated_confidence n span c1)
    by now apply calibrated_confidence_proper.
  assert (Hup : c1 <= c3).
  { rewrite Hc3. apply calibrated_confidence_again. lra. }
  eexists. split; [exact Hw |]. proj_cbn_all.
  assert (Hint : calibrated_intent n c3 i1 = i1)
    by now apply calibrated_intent_again.
  do 5 (split; [reflexivity || assumption |]).
  split; [exact Hup |]. split; [| split].
  - intros Hn. unfold same_filters. proj_cbn_all.
    do 5 (split; [reflexivity || assumption |]).
    split; [| reflexivity].
    rewrite Hc3. now apply calibrated_confidence_idem.
  - exact Hc3.
  - intros Hn. cbv zeta. rewrite Hc3. now apply calibrated_confidence_boost.
Qed.

(** A valid answer with one signal: validated once, written back, it
    validates to the same filters. *)
Lemma revalidation_of_validated_filters_witness :
  exists f f',
    @validate_payload Cases.runtime Cases.one_signal = Ok (Some f)
    /\ @validate_payload Cases.runtime (payload_of_filters f) = Ok (Some f')
    /\ confidence f <= confidence f'.
Proof.
  destruct (@revalidation_of_validated_filters Cases.runtime Cases.one_signal
              (mkFilters [PStr "28"] None None [] "recommendation" 0.9 []))
    as (f' & Hf' & _ & _ & _ & _ & _ & Hc & _).
  - vm_compute. reflexivity.
  - reflexivity.
  - eexists. exists f'. split; [vm_compute; reflexivity |].
    split; [exact Hf' | exact Hc].
Defined.

(** C6, counterexample.  A valid answer with a genre and a year range
    (weight 2) and confidence 0.5 validates to confidence 0.55; written
    back and validated again it has confidence 0.605, and so has the
    calibration applied to it directly a second time. *)
Lemma second_pass_boosts_again :
  exists f f',
    @validate_payload Cases.runtime Cases.two_signals = Ok (Some f)
    /\ @validate_payload Cases.runtime (payload_of_filters f) = Ok (Some f')
    /\ confidence f == 0.55
    /\ confidence f' == 0.605
    /\ ~ confidence f' == confidence f
    /\ ~ same_filters f' f
    /\ confidence (_apply_ambiguity_detection f) == 0.605.
Proof.
  eexists. eexists.
  split; [vm_compute; reflexivity |].
  split; [vm_compute; reflexivity |].
  split; [reflexivity |]. split; [reflexivity |].
  split; [discriminate |].
  split; [| vm_compute; reflexivity].
  intros (_ & _ & _ & _ & _ & H & _). revert H. discriminate.
Qed.

(** *** Genre ids *)

Lemma fold_left_inv {A B} (I : A -> Prop) (f : A -> B -> A) (l : list B)
      (a : A) :
  I a -> (forall a b, In b l -> I a -> I (f a b)) -> I (fold_left f l a).
Proof.
  revert a. induction l as [| b l IH]; simpl; intros a Ha Hf; [exact Ha |].
  apply IH; [apply Hf; auto | intros; apply Hf; auto].
Qed.

Lemma set_add_digits (x : string) (l : list string) :
  isdigit x = true -> Forall (fun g => isdigit g = true) l ->
  Forall (fun g => isdigit g = true) (set_add x l).
Proof.
  intros Hx Hl. unfold set_add. destruct (mem_str x l); [exact Hl |].
  apply Forall_app. split; [exact Hl | constructor; [exact Hx | constructor]].
Qed.

(** The table and the patterns of [GenreMapper] hold strings of digits
    only, so the genres it reads in a text are strings of digits. *)
Lemma extracted_genres_digits (text : string) :
  Forall (fun g => isdigit g = true)
         (GenreMapper.extract_genres_from_text text).
Proof.
  assert (Hmap : forall kv, In kv GenreMapper.TMDB_GENRE_MAP ->
                            isdigit (snd kv) = true).
  { apply (proj1 (forallb_forall (fun kv => isdigit (snd kv)) _)).
    vm_compute. reflexivity. }
  assert (Hpat : forall pg, In pg GenreMapper.pattern_mappings ->
                            forallb isdigit (snd pg) = true).
  { apply (proj1 (forallb_forall (fun pg => forallb isdigit (snd pg)) _)).
    vm_compute. reflexivity. }
  unfold GenreMapper.extract_genres_from_text.
  apply fold_left_inv.
  - apply fold_left_inv; [constructor |].
    intros acc kv Hkv Hacc. case_if; [| exact Hacc].
    apply set_add_digits; auto.
  - intros acc pg Hpg Hacc. case_if; [| exact Hacc].
    specialize (Hpat pg Hpg). rewrite forallb_forall in Hpat.
    apply fold_left_inv; [exact Hacc |].
    intros acc' g Hg Hacc'. apply set_add_digits; auto.
Qed.

Lemma known_ids_digits (id : string) :
  In id known_genre_ids -> isdigit id = true.
Proof.
  apply (proj1 (forallb_forall isdigit _)). vm_compute. reflexivity.
Qed.

(** What one round of the validator appends: a string of digits, or the
    text of the boolean [True], which is an [int] between 1 and 99999 for
    [isinstance]. *)
Lemma validated_genre_form {RT : Runtime} (x g : pyval) (zs : list pyval) :
  validate_genre x = Ok zs -> In g zs ->
  canonical_genre g = true \/ g = PStr "True".
Proof.
  intros Hx Hg. destruct x; simpl in Hx;
    try (injection Hx as <-; contradiction).
  - destruct b; simpl in Hx; injection Hx as <-; [| contradiction].
    destruct Hg as [<- | []]. right. reflexivity.
  - destruct (in_id_range z) eqn:Er; injection Hx as <-; [| contradiction].
    destruct Hg as [<- | []]. left. simpl.
    unfold in_id_range in Er. apply andb_prop in Er. destruct Er as [E1 _].
    apply Z.leb_le in E1. destruct z as [| p | p]; try lia.
    apply str_of_Z_pos.
  - destruct (isdigit s) eqn:Ed.
    + inv_bind Hx. injection Hx as <-.
      destruct (in_id_range v); [| contradiction].
      destruct Hg as [<- | []]. left. exact Ed.
    + destruct (GenreMapper.get_genre_id_by_name (lower s)) as [id |] eqn:Em;
        [| injection Hx as <-; contradiction].
      injection Hx as <-.
      destruct (String.eqb id ""); [contradiction |].
      destruct Hg as [<- | []]. left.
      apply known_ids_digits. eapply mapped_id_known; eauto.
Qed.

(** C10, evaluated on the failing input.  For the query "comedia
    española" the extractor returns the genre list with the Python int 35,
    not the string "35": the list is not made of strings of digits.  (The
    general branch, as for "una comedia", returns the string.)  This is the
    only list of the extractor that is not made of strings of digits.  On
    the side of the validator every genre is a string of digits except the
    text "True", which it writes for the JSON value true. *)
Theorem genre_ids_of_extraction_and_validation :
  (exists f,
     @extract_keywords_with_patterns Cases.runtime "comedia española" = Ok f
     /\ genres f = [PInt 35]
     /\ forallb canonical_genre (genres f) = false)
  /\ (exists f,
        @extract_keywords_with_patterns Cases.runtime "una comedia" = Ok f
        /\ genres f = [PStr "35"]
        /\ forallb canonical_genre (genres f) = true)
  /\ (forall (RT : Runtime) (q : string) (f : ExtractedFilters),
        extract_keywords_with_patterns q = Ok f ->
        genres f = [PInt 35] \/ forallb canonical_genre (genres f) = true)
  /\ (forall (RT : Runtime) (p : pyval) (f : ExtractedFilters) (g : pyval),
        validate_payload p = Ok (Some f) -> In g (genres f) ->
        canonical_genre g = true \/ g = PStr "True")
  /\ (exists f,
        @_parse_and_validate_json_response Cases.runtime Cases.boolean_genre
        = Ok (Some f)
        /\ genres f = [PStr "True"]).
Proof.
  split; [eexists; split; [vm_compute; reflexivity | split; reflexivity] |].
  split; [eexists; split; [vm_compute; reflexivity | split; reflexivity] |].
  split; [| split].
  - intros RT q f H. unfold extract_keywords_with_patterns in H.
    inv_bind H. destruct v as [[gs ks] c].
    inv_bind H. inv_bind H. injection H as <-. cbn [genres].
    revert Hv. case_if.
    + intros [= <- _ _]. now left.
    + intros H. inv_bind H. inv_bind H. injection H as <- _ _. right.
      apply forallb_forall. intros g Hg. apply in_map_iff in Hg.
      destruct Hg as (s & <- & Hs). simpl.
      pose proof (extracted_genres_digits q) as Hd.
      rewrite Forall_forall in Hd. auto.
  - intros RT p f g H Hg.
    destruct (validate_fields _ H) as (d & gs & _ & _ & Hgs & <- & _).
    unfold _extract_and_validate_genres in Hgs. inv_bind Hgs.
    destruct (concat_map_res_In _ _ _ Hgs Hg) as (x & zs & _ & Hx & Hz).
    eapply validated_genre_form; eauto.
  - eexists. split; [vm_compute; reflexivity | reflexivity].
Qed.

(** The general branch on a query that names a genre. *)
Lemma genre_ids_of_extraction_and_validation_witness :
  genres (mkFilters [PStr "35"] None None ["comedia"]
            "clarification" 0.6 []) = [PInt 35]
  \/ forallb canonical_genre
       (genres (mkFilters [PStr "35"] None None ["comedia"]
                  "clarification" 0.6 [])) = true.
Proof.
  apply (proj1 (proj2 (proj2 genre_ids_of_extraction_and_validation))
           Cases.runtime "una comedia").
  vm_compute. reflexivity.
Defined.

(* ================================================================== *)
(** ** Further properties of the sources                                *)
(* ================================================================== *)

(** *** Sets kept as lists *)

Lemma set_add_In (x y : string) (l : list string) :
  In y (set_add x l) <-> y = x \/ In y l.
Proof.
  unfold set_add. destruct (mem_str x l) eqn:E.
  - apply mem_str_In in E. split; [auto | intros [-> | H]; auto].
  - rewrite in_app_iff. simpl. intuition congruence.
Qed.

Lemma set_add_NoDup (x : string) (l : list string) :
  NoDup l -> NoDup (set_add x l).
Proof.
  intros Hl. unfold set_add. destruct (mem_str x l) eqn:E; [exact Hl |].
  assert (Hx : ~ In x l).
  { intros H. apply mem_str_In in H. congruence. }
  clear E. induction Hl as [| y l Hy Hl IH]; simpl.
  - constructor; [intros [] | constructor].
  - constructor.
    + rewrite in_app_iff. simpl. intros [H | [H | []]]; [auto |].
      apply Hx. left. congruence.
    + apply IH. intros H. apply Hx. now right.
Qed.

Lemma fold_set_add_In (y : string) (l acc : list string) :
  In y (fold_left (fun a x => set_add x a) l acc) <-> In y acc \/ In y l.
Proof.
  revert acc. induction l as [| x l IH]; intros acc; simpl; [tauto |].
  rewrite IH, set_add_In. intuition congruence.
Qed.

Lemma fold_set_add_NoDup (l acc : list string) :
  NoDup acc -> NoDup (fold_left (fun a x => set_add x a) l acc).
Proof.
  revert acc. induction l as [| x l IH]; intros acc H; simpl; [exact H |].
  apply IH, set_add_NoDup, H.
Qed.

Lemma set_of_list_In (y : string) (l : list string) :
  In y (set_of_list l) <-> In y l.
Proof. unfold set_of_list. rewrite fold_set_add_In. simpl. tauto. Qed.

Lemma set_of_list_NoDup (l : list string) : NoDup (set_of_list l).
Proof. apply fold_set_add_NoDup. constructor. Qed.

(** *** The filters that the entry point returns *)

(** The result of the entry point is a validated answer with the context
    put in, or the capped deterministic extraction. *)
Lemma process_ai_response_cases {RT : Runtime} (raw q : string)
      (u : option UserContext) (f : ExtractedFilters) :
  process_ai_response raw q u = Ok f ->
  (exists s g, _parse_and_validate_json_response s = Ok (Some g)
               /\ f = with_context u g)
  \/ fallback_extraction q u = Ok f.
Proof.
  unfold process_ai_response.
  destruct (_parse_and_validate_json_response raw) as [[g |] | e] eqn:E1;
    simpl.
  - intros [= <-]. left. eauto.
  - destruct (_extract_json_from_mixed_content raw) as [frag |]; simpl;
      [| now right].
    destruct (String.eqb frag ""); simpl; [now right |].
    destruct (_parse_and_validate_json_response frag) as [[g |] | e] eqn:E2;
      simpl; [| now right | now right].
    intros [= <-]. left. eauto.
  - destruct (_extract_json_from_mixed_content raw) as [frag |]; simpl;
      [| now right].
    destruct (String.eqb frag ""); simpl; [now right |].
    destruct (_parse_and_validate_json_response frag) as [[g |] | e'] eqn:E2;
      simpl; [| now right | now right].
    intros [= <-]. left. eauto.
Qed.

(** The fields of a validated answer, before and after calibration. *)
Lemma validate_payload_shape {RT : Runtime} (p : pyval)
      (f : ExtractedFilters) :
  validate_payload p = Ok (Some f) ->
  exists d gs ks,
    p = PDict d
    /\ _extract_and_validate_genres (get d "genres" (PList [])) = Ok gs
    /\ _extract_and_validate_keywords (get d "keywords" (PList [])) = Ok ks
    /\ f = _apply_ambiguity_detection
             (mkFilters gs
                (_extract_and_validate_year_range (get d "year_range" PNone))
                (_extract_and_validate_rating_range d) ks
                (_validate_intent (get d "intent" (PStr "recommendation")))
                (_validate_confidence (get d "confidence" (PFloat 0.0))) []).
Proof.
  unfold validate_payload. intros H. inv_bind H.
  destruct v; simpl in H; [| discriminate].
  destruct (dict_of p) as [d |] eqn:Ed; [| discriminate].
  inv_bind H. inv_bind H. apply Ok_inj in H. injection H as <-.
  destruct p; try discriminate. injection Ed as ->.
  exists d, v, v0. auto.
Qed.

Lemma with_context_more_fields (u : option UserContext)
      (f : ExtractedFilters) :
  keywords (with_context u f) = keywords f
  /\ intent (with_context u f) = intent f
  /\ exclude_ids (with_context u f)
     = match u with
       | Some c => get_exclude_list c
       | None => exclude_ids f
       end.
Proof. destruct u; simpl; auto. Qed.

Lemma determine_intent_valid (q : string) :
  In (_determine_intent_patterns q) valid_intents.
Proof.
  unfold _determine_intent_patterns.
  repeat case_if; simpl; tauto.
Qed.

(** What the deterministic extractor can return besides the ranges. *)
Lemma extract_other_fields {RT : Runtime} (q : string)
      (f : ExtractedFilters) :
  extract_keywords_with_patterns q = Ok f ->
  exclude_ids f = []
  /\ In (intent f) valid_intents
  /\ ((genres f = [PInt 35]
       /\ keywords f = ["comedia"; "española"; "español"]
       /\ confidence f = 0.8)
      \/ (genres f = map PStr (GenreMapper.extract_genres_from_text q)
          /\ keywords f = _extract_basic_keywords q
          /\ confidence f
             = (if nonempty (genres f) then 0.6
                else if nonempty (keywords f) then 0.4 else 0.2))).
Proof.
  unfold extract_keywords_with_patterns. intros H.
  inv_bind H. destruct v as [[gs ks] c].
  inv_bind H. inv_bind H. apply Ok_inj in H. subst f. proj_cbn.
  split; [reflexivity |]. split; [apply determine_intent_valid |].
  revert Hv. case_if.
  - intros [= <- <- <-]. left. auto.
  - intros H. inv_bind H. inv_bind H. apply Ok_inj in H.
    pose proof (f_equal (fun t => fst (fst t)) H) as Hg.
    pose proof (f_equal (fun t => snd (fst t)) H) as Hk.
    pose proof (f_equal snd H) as Hc. cbn [fst snd] in Hg, Hk, Hc.
    subst gs ks. right. auto.
Qed.

Lemma basic_keywords_length (q : string) :
  (length (_extract_basic_keywords q) <= 10)%nat.
Proof. unfold _extract_basic_keywords. apply firstn_le_length. Qed.

Lemma validated_keywords_length (v : pyval) (ks : list string) :
  _extract_and_validate_keywords v = Ok ks -> (length ks <= 10)%nat.
Proof.
  unfold _extract_and_validate_keywords. intros H. inv_bind H.
  apply Ok_inj in H. subst ks. apply firstn_le_length.
Qed.

(** X1.  Whatever the model answered, the filters that the entry point
    returns have a confidence in [0, 1], one of the three intents, and at
    most ten keywords. *)
Theorem entry_point_filters_are_well_formed {RT : Runtime}
        (raw q : string) (u : option UserContext) (f : ExtractedFilters) :
  process_ai_response raw q u = Ok f ->
  0 <= confidence f <= 1
  /\ In (intent f) valid_intents
  /\ (length (keywords f) <= 10)%nat.
Proof.
  intros H. apply process_ai_response_cases in H.
  destruct H as [(s & g & Hp & ->) | H].
  - destruct (with_context_fields u g) as (_ & _ & _ & ->).
    destruct (with_context_more_fields u g) as (-> & -> & _).
    revert s g Hp. apply parse_and_validate_inv. intros p g Hv.
    apply validate_payload_shape in Hv.
    destruct Hv as (d & gs & ks & _ & _ & Hk & ->).
    rewrite calibration_eq. cbv zeta. proj_cbn.
    split; [apply calibrated_confidence_range, validate_confidence_range |].
    split; [apply calibrated_intent_valid, validate_intent_valid |].
    eapply validated_keywords_length; eauto.
  - unfold fallback_extraction in H. inv_bind H. apply Ok_inj in H. subst f.
    destruct (with_context_fields u
                (set_confidence v (py_min (confidence v) 0.4)))
      as (_ & _ & _ & ->).
    destruct (with_context_more_fields u
                (set_confidence v (py_min (confidence v) 0.4)))
      as (-> & -> & _).
    proj_cbn. destruct (extract_other_fields _ Hv) as (_ & Hi & Hc).
    split; [| split; [exact Hi |]].
    + unfold py_min.
      destruct Hc as [(_ & _ & ->) | (_ & _ & ->)];
        repeat case_if; qsplit; lra.
    + destruct Hc as [(_ & -> & _) | (_ & -> & _)];
        [simpl; lia | apply basic_keywords_length].
Qed.

(** An unusable answer and a query with a genre and a decade. *)
Lemma entry_point_filters_are_well_formed_witness :
  exists f,
    @process_ai_response Cases.runtime "no lo sé"
      "películas de acción de los 90" None = Ok f
    /\ 0 <= confidence f <= 1.
Proof.
  eexists. split; [vm_compute; reflexivity |].
  apply (@entry_point_filters_are_well_formed Cases.runtime "no lo sé"
           "películas de acción de los 90" None).
  vm_compute. reflexivity.
Defined.

Lemma validated_exclude_ids {RT : Runtime} (s : string)
      (g : ExtractedFilters) :
  _parse_and_validate_json_response s = Ok (Some g) -> exclude_ids g = [].
Proof.
  revert s g. apply parse_and_validate_inv. intros p g Hv.
  apply validate_payload_shape in Hv.
  destruct Hv as (d & gs & ks & _ & _ & _ & ->).
  rewrite calibration_eq. reflexivity.
Qed.

(** X2.  The exclude list of the returned filters is the exclude list of
    the user context, and nothing when there is no context: it holds no
    movie twice, and a movie is on it exactly when
    [UserContext.should_exclude_movie] says so, that is, when it was
    recommended recently or voted on in the room. *)
Theorem exclude_ids_mirror_the_context {RT : Runtime}
        (raw q : string) (u : option UserContext) (f : ExtractedFilters) :
  process_ai_response raw q u = Ok f ->
  exclude_ids f = match u with
                  | Some c => get_exclude_list c
                  | None => []
                  end
  /\ NoDup (exclude_ids f)
  /\ (forall c movie_id,
        u = Some c ->
        (In movie_id (exclude_ids f) <-> should_exclude_movie c movie_id = true)
        /\ (In movie_id (exclude_ids f)
            <-> In movie_id (recent_movies c)
                \/ In movie_id (room_voted_movies c))).
Proof.
  intros H.
  assert (He : exclude_ids f = match u with
                               | Some c => get_exclude_list c
                               | None => []
                               end).
  { apply process_ai_response_cases in H.
    destruct H as [(s & g & Hp & ->) | H].
    - destruct (with_context_more_fields u g) as (_ & _ & ->).
      destruct u; [reflexivity |]. eapply validated_exclude_ids; eauto.
    - unfold fallback_extraction in H. inv_bind H. apply Ok_inj in H.
      subst f.
      destruct (with_context_more_fields u
                  (set_confidence v (py_min (confidence v) 0.4)))
        as (_ & _ & ->).
      destruct u; [reflexivity |]. proj_cbn.
      now destruct (extract_other_fields _ Hv) as (-> & _). }
  split; [exact He |]. rewrite He. split.
  - destruct u; [apply set_of_list_NoDup | constructor].
  - intros c movie_id ->. unfold get_exclude_list, should_exclude_movie.
    rewrite set_of_list_In, in_app_iff, orb_true_iff, !mem_str_In. tauto.
Qed.

(** A user who was recommended movie 550 and voted on movie 13. *)
Lemma exclude_ids_mirror_the_context_witness :
  exists f,
    @process_ai_response Cases.runtime "" "algo"
      (Some (mkUserContext ["550"] ["13"; "550"])) = Ok f
    /\ In "13" (exclude_ids f) /\ NoDup (exclude_ids f).
Proof.
  assert (H : exists f,
             @process_ai_response Cases.runtime "" "algo"
               (Some (mkUserContext ["550"] ["13"; "550"])) = Ok f).
  { eexists. vm_compute. reflexivity. }
  destruct H as (f & Hf). exists f. split; [exact Hf |].
  destruct (@exclude_ids_mirror_the_context Cases.runtime "" "algo"
              (Some (mkUserContext ["550"] ["13"; "550"])) f Hf)
    as (_ & Hn & Hc).
  split; [| exact Hn].
  apply (proj2 (Hc (mkUserContext ["550"] ["13"; "550"]) "13" eq_refl)).
  right. simpl. tauto.
Defined.

Lemma no_filters_no_weight (f : ExtractedFilters) :
  has_filters f = false -> filter_count f = 0 + 0 + 0 + 0.
Proof.
  unfold has_filters, filter_count. intros H.
  apply orb_false_iff in H. destruct H as [H Hk].
  apply orb_false_iff in H. destruct H as [H Hr].
  apply orb_false_iff in H. destruct H as [Hg Hy].
  now rewrite Hg, Hy, Hr, Hk.
Qed.

Lemma calibration_is_consistent (f : ExtractedFilters) :
  let g := _apply_ambiguity_detection f in
  (intent g = "recommendation" -> 0.5 <= confidence g)
  /\ (has_filters f = false ->
      intent g = "clarification" /\ confidence g <= 0.2)
  /\ (forall span, year_span f = Some span -> (30 < span)%Z ->
                   confidence g <= 0.6).
Proof.
  cbv zeta. rewrite calibration_eq. cbv zeta. proj_cbn.
  set (n := filter_count f). set (sp := year_span f).
  split; [| split].
  - unfold calibrated_intent.
    destruct (String.eqb (if Qeq_bool n 0 then "clarification" else intent f)
                         "recommendation") eqn:Ei.
    + qcase (calibrated_confidence n sp (confidence f)) 0.5; simpl.
      * discriminate.
      * intros _. exact H.
    + rewrite andb_false_r. intros E. rewrite E in Ei. discriminate.
  - intros Hf. subst n. rewrite (no_filters_no_weight f Hf).
    unfold calibrated_intent, calibrated_confidence.
    change (Qeq_bool (0 + 0 + 0 + 0) 0) with true. cbv iota.
    rewrite andb_false_r. split; [reflexivity |].
    unfold py_min. destruct sp as [s |]; [destruct (30 <? s)%Z |];
      qsplit; lra.
  - intros span Hs Hlt. subst sp. rewrite Hs.
    unfold calibrated_confidence.
    replace (30 <? span)%Z with true by (symmetry; apply Z.ltb_lt; lia).
    apply py_min_le_r.
Qed.

(** X3.  A validated answer is calibrated: it keeps the intent
    "recommendation" only with a confidence of at least 0.5; without any
    genre, range or keyword it asks for clarification with a confidence of
    at most 0.2; and a year range wider than 30 years caps the confidence
    at 0.6. *)
Theorem validated_answer_is_calibrated {RT : Runtime}
        (s : string) (g : ExtractedFilters) :
  _parse_and_validate_json_response s = Ok (Some g) ->
  (intent g = "recommendation" -> 0.5 <= confidence g)
  /\ (has_filters g = false ->
      intent g = "clarification" /\ confidence g <= 0.2)
  /\ (forall lo hi,
        year_range g = Some (mkYearRange (Some lo) (Some hi)) ->
        (30 < hi - lo)%Z -> confidence g <= 0.6).
Proof.
  revert s g. apply parse_and_validate_inv. intros p g Hv.
  pose proof (validate_fields _ Hv) as (d' & gs' & _ & _ & _ & _ & Hyr & _).
  apply validate_payload_shape in Hv.
  destruct Hv as (d & gs & ks & _ & _ & _ & ->).
  set (f0 := mkFilters _ _ _ _ _ _ _) in *.
  destruct (calibration_is_consistent f0) as (H1 & H2 & H3).
  destruct (calibration_keeps_fields f0) as (Eg & Ey & Er & Ek & _).
  split; [exact H1 |]. split.
  - intros Hf. apply H2. unfold has_filters in *.
    now rewrite Eg, Ey, Er, Ek in Hf.
  - intros lo hi Hy Hlt. apply (H3 (hi - lo)%Z); [| exact Hlt].
    rewrite Ey in Hy. unfold year_span. rewrite Hy.
    rewrite <- Ey, Hyr in Hy.
    apply validated_year_range_ordered in Hy as Hord.
    assert (Hlo : lo <> 0%Z /\ hi <> 0%Z).
    { revert Hy. unfold _extract_and_validate_year_range.
      destruct (negb (truthy _)); [discriminate |].
      destruct (dict_of _) as [dd |]; [| discriminate].
      destruct (validate_year (get dd "min" PNone)) as [a |] eqn:Ea;
        destruct (validate_year (get dd "max" PNone)) as [b |] eqn:Eb;
        try (destruct (_ || _); discriminate).
      apply validate_year_domain in Ea. apply validate_year_domain in Eb.
      destruct (_ && _ && _); destruct (_ || _); intros [= <- <-]; lia. }
    destruct Hlo as [Hlo Hhi].
    apply Z.eqb_neq in Hlo. apply Z.eqb_neq in Hhi.
    now rewrite Hlo, Hhi.
Qed.

(** The answer of the prompt's second example, with a confidence of 0.3
    instead of 0.6: the intent becomes "clarification". *)
Lemma validated_answer_is_calibrated_witness :
  exists g,
    @_parse_and_validate_json_response Cases.runtime
      (Json.text "{'genres':['35'],'intent':'recommendation','confidence':0.3}")
    = Ok (Some g)
    /\ intent g = "clarification"
    /\ (intent g = "recommendation" -> 0.5 <= confidence g).
Proof.
  eexists. split; [vm_compute; reflexivity |]. split; [reflexivity |].
  refine (proj1 (@validated_answer_is_calibrated Cases.runtime
                   (Json.text "{'genres':['35'],'intent':'recommendation','confidence':0.3}")
                   _ _)).
  vm_compute. reflexivity.
Defined.

(** *** Keywords of an answer *)

Lemma validated_keywords_in_order (l : list pyval) :
  flat_map (fun keyword =>
              match keyword with
              | PStr s => if keyword_ok (strip s) then [strip s] else []
              | _ => []
              end) l
  = filter keyword_ok
      (map strip
         (flat_map (fun v => match v with PStr s => [s] | _ => [] end) l)).
Proof.
  induction l as [| x l IH]; [reflexivity |].
  destruct x; simpl; try exact IH.
  destruct (keyword_ok (strip s)); simpl; now rewrite IH.
Qed.

(** X4.  The keywords that the validator keeps are the string entries of
    the list, stripped, those of 2 to 50 characters, in their order, and
    the first ten of them: so each has no blanks around it and there are
    at most ten. *)
Theorem validated_keywords_are_clean (l : list pyval) (ks : list string) :
  _extract_and_validate_keywords (PList l) = Ok ks ->
  (length ks <= 10)%nat
  /\ (forall k, In k ks ->
        strip k = k
        /\ (2 <= py_len k <= 50)%nat
        /\ exists raw, In (PStr raw) l /\ k = strip raw)
  /\ ks = firstn 10
            (filter (fun k => (2 <=? py_len k)%nat && (py_len k <=? 50)%nat)
               (map strip
                  (flat_map (fun v => match v with
                                      | PStr s => [s]
                                      | _ => []
                                      end) l))).
Proof.
  intros H. split; [eapply validated_keywords_length; eauto |].
  unfold _extract_and_validate_keywords in H. cbn [py_iter Py.bind] in H.
  apply Ok_inj in H. subst ks. split.
  - intros k Hk.
    apply In_firstn in Hk. apply in_flat_map in Hk.
    destruct Hk as (x & Hx & Hk). destruct x; try contradiction.
    destruct (keyword_ok (strip s)) eqn:E; [| contradiction].
    destruct Hk as [<- | []]. split; [apply strip_idem |].
    split; [| eauto].
    unfold keyword_ok in E. apply andb_prop in E. destruct E as [E1 E2].
    apply Nat.leb_le in E1. apply Nat.leb_le in E2. lia.
  - f_equal. apply validated_keywords_in_order.
Qed.

Lemma validated_keywords_are_clean_witness :
  (length ["robots"; "space opera"] <= 10)%nat
  /\ strip "robots" = "robots".
Proof.
  destruct (@validated_keywords_are_clean
              [PStr "  robots "; PInt 7; PStr "x"; PStr "space opera"]
              ["robots"; "space opera"])
    as (Hl & Hk & _); [vm_compute; reflexivity |].
  split; [exact Hl |]. apply (Hk "robots"). now left.
Defined.

(** X5.  An answer whose [keywords] field is there but is not a list, a
    string or an object ([null], a number, a boolean) is rejected as a
    whole: iterating over it raises [TypeError], which the parser turns
    into "no filters". *)
Theorem answer_with_null_keywords_is_rejected {RT : Runtime}
        (json_str : string) (d : dict) (v : pyval) :
  Json.loads (strip json_str) = Ok (PDict d) ->
  dict_get d "keywords" = Some v ->
  py_iter v = Raise TypeError ->
  _parse_and_validate_json_response json_str = Ok None.
Proof.
  intros Hl Hk Hv. unfold _parse_and_validate_json_response.
  case_if; [reflexivity |]. rewrite Hl. cbn [Py.bind].
  unfold validate_payload.
  destruct (_validate_json_structure (PDict d)) as [[] | e] eqn:Es.
  - cbn [Py.bind negb dict_of].
    assert (Hkw : _extract_and_validate_keywords (get d "keywords" (PList []))
                  = Raise TypeError).
    { unfold get. rewrite Hk. unfold _extract_and_validate_keywords.
      now rewrite Hv. }
    rewrite Hkw.
    destruct (_extract_and_validate_genres _) as [gs | e] eqn:Eg;
      [reflexivity |].
    cbn [Py.bind]. unfold _extract_and_validate_genres in Eg.
    destruct (py_iter (get d "genres" (PList []))) as [l | e'] eqn:Ei.
    + cbn [Py.bind] in Eg.
      assert (He : forall l e,
                 concat_map_res validate_genre l = Raise e -> e = ValueError).
      { clear. induction l as [| x l IH]; intros e; simpl; [discriminate |].
        destruct (validate_genre x) as [y | e'] eqn:Ex; simpl.
        - destruct (concat_map_res validate_genre l) as [ys | e''];
            simpl; [discriminate |]. intros [= <-]. now apply IH.
        - intros [= <-]. unfold validate_genre in Ex.
          destruct x as [| [] | z | q | s | l' | d']; try discriminate.
          destruct (isdigit s).
          + unfold int_of_str in Ex.
            destruct (isdigit _); [| simpl in Ex; congruence].
            destruct (Z_of_digits _); simpl in Ex; [discriminate |].
            congruence.
          + destruct (GenreMapper.get_genre_id_by_name (lower s));
              [destruct (String.eqb _ _) |]; discriminate. }
      apply He in Eg. subst e. reflexivity.
    + cbn [Py.bind] in Eg. injection Eg as <-.
      destruct (get d "genres" (PList [])); try discriminate;
        injection Ei as <-; reflexivity.
  - reflexivity.
  - cbn [Py.bind].
    unfold _validate_json_structure in Es.
    repeat (revert Es; case_if; intros Es; try discriminate).
    revert Es. destruct (as_number _); [case_if |]; discriminate.
Qed.

Lemma answer_with_null_keywords_is_rejected_witness :
  @_parse_and_validate_json_response Cases.runtime
    (Json.text "{'genres':['28'],'keywords':null,'intent':'recommendation','confidence':0.9}")
  = Ok None.
Proof.
  apply (@answer_with_null_keywords_is_rejected Cases.runtime _
           [ ("genres", PList [PStr "28"]); ("keywords", PNone);
             ("intent", PStr "recommendation"); ("confidence", PFloat (9 # 10)) ]
           PNone); reflexivity.
Defined.

(** *** The ranges against the checks of their own classes *)

Lemma ordered_year_range_is_valid (yr : YearRange) :
  match yr with
  | mkYearRange (Some lo) (Some hi) => (lo <= hi)%Z
  | _ => True
  end ->
  year_range_is_valid yr = true.
Proof.
  destruct yr as [[lo |] [hi |]]; unfold year_range_is_valid; simpl;
    try reflexivity.
  intros H. destruct (_ && _); [apply Z.leb_le; exact H | reflexivity].
Qed.

Lemma validated_rating_range_is_valid (d : dict) (rr : RatingRange) :
  _extract_and_validate_rating_range d = Some rr ->
  rating_range_is_valid rr = true.
Proof.
  intros H. pose proof (validated_rating_range_bounds _ H) as [Hlo Hhi].
  revert H Hlo Hhi. unfold _extract_and_validate_rating_range.
  destruct (validate_rating (get d "rating_min" PNone)) as [a |];
    destruct (validate_rating (get d "rating_max" PNone)) as [b |].
  - destruct (truthy_Q (Some a) && truthy_Q (Some b) && Qlt_bool b a) eqn:E;
      cbn [is_some orb]; intros [= <-]; unfold rating_range_is_valid;
      cbn [min_rating max_rating rating_bound_ok]; intros [? ?] [? ?].
    + apply andb_prop in E. destruct E as [E Hlt].
      apply andb_prop in E. destruct E as [Ta Tb]. rewrite Ta, Tb.
      qcase b 0; [lra |]. qcase 10 b; [lra |].
      qcase a 0; [lra |]. qcase 10 a; [lra |]. cbn [orb andb].
      revert Hlt. qcase b a; [| discriminate]. intros _.
      qcase_le b a; [reflexivity | lra].
    + qcase a 0; [lra |]. qcase 10 a; [lra |].
      qcase b 0; [lra |]. qcase 10 b; [lra |]. cbn [orb].
      destruct (truthy_Q (Some a)); [| reflexivity].
      destruct (truthy_Q (Some b)); [| reflexivity].
      cbn [andb] in *. revert E. qcase b a; [discriminate |]. intros _.
      qcase_le a b; [reflexivity | lra].
  - cbn [is_some orb]. intros [= <-]. unfold rating_range_is_valid.
    cbn [min_rating max_rating rating_bound_ok]. intros [? ?] _.
    qcase a 0; [lra |]. qcase 10 a; [lra |]. reflexivity.
  - cbn [is_some orb]. intros [= <-]. unfold rating_range_is_valid.
    cbn [min_rating max_rating rating_bound_ok]. intros _ [? ?].
    qcase b 0; [lra |]. qcase 10 b; [lra |]. reflexivity.
  - discriminate.
Qed.

(** X6.  The ranges of the filters that the entry point returns pass the
    checks of their own classes: [YearRange.is_valid] and
    [RatingRange.is_valid] (bounds in [0, 10], and the minimum not above
    the maximum). *)
Theorem returned_ranges_are_valid {RT : Runtime}
        (raw q : string) (u : option UserContext) (f : ExtractedFilters) :
  process_ai_response raw q u = Ok f ->
  (forall yr, year_range f = Some yr -> year_range_is_valid yr = true)
  /\ (forall rr, rating_range f = Some rr -> rating_range_is_valid rr = true).
Proof.
  revert raw q u f.
  apply (process_ai_response_inv
           (fun f =>
              (forall yr, year_range f = Some yr ->
                          year_range_is_valid yr = true)
              /\ (forall rr, rating_range f = Some rr ->
                             rating_range_is_valid rr = true))).
  - intros u f H. destruct (with_context_fields u f) as (_ & -> & -> & _).
    exact H.
  - intros f c H. exact H.
  - intros q f H. apply extract_fields in H.
    destruct H as (Hy & rm & Hr & Hrr). split.
    + intros yr E. rewrite E in Hy.
      apply ordered_year_range_is_valid.
      eapply extracted_year_range_ordered; eauto.
    + intros rr E. rewrite E in Hrr. destruct rm as [r |]; [| discriminate].
      injection Hrr as ->. apply extracted_rating_bounds in Hr.
      unfold rating_range_is_valid. simpl.
      destruct Hr. qcase r 0; [lra |]. qcase 10 r; [lra |]. reflexivity.
  - intros p f H. apply validate_fields in H.
    destruct H as (d & gs & _ & _ & _ & _ & Hy & Hr). split.
    + intros yr E. rewrite E in Hy. symmetry in Hy.
      apply ordered_year_range_is_valid.
      eapply validated_year_range_ordered; eauto.
    + intros rr E. rewrite E in Hr. symmetry in Hr.
      eapply validated_rating_range_is_valid; eauto.
Qed.

(** An answer with the rating bounds the wrong way round. *)
Lemma returned_ranges_are_valid_witness :
  rating_range_is_valid (mkRatingRange (Some (13 # 2)) (Some (8 # 1))) = true.
Proof.
  refine (proj2 (@returned_ranges_are_valid Cases.runtime
                   (Json.text "{'genres':[],'rating_min':8,'rating_max':6.5,'intent':'recommendation','confidence':0.5}")
                   "" None
                   (mkFilters [] None
                      (Some (mkRatingRange (Some (13 # 2)) (Some (8 # 1))))
                      [] "recommendation" (1 # 2) []) _) _ _);
    [| reflexivity].
  vm_compute. reflexivity.
Defined.

(** *** The ambiguity decision after a fallback *)

(** X7.  After a fallback to the deterministic extractor, the query is
    classified as ambiguous exactly when the extractor found nothing
    specific: no genre, no year range, no rating and fewer than two
    keywords. *)
Theorem fallback_is_ambiguous_without_specific_filters {RT : Runtime}
        (q user_query : string) (u : option UserContext)
        (f : ExtractedFilters) :
  fallback_extraction q u = Ok f ->
  (detect_ambiguous_query f user_query = true <-> ~ has_specific_filters f).
Proof.
  intros H. unfold fallback_extraction in H. inv_bind H.
  apply Ok_inj in H.
  assert (Hc : confidence f == 0.2 \/ confidence f == 0.4).
  { subst f.
    destruct (with_context_fields u
                (set_confidence v (py_min (confidence v) 0.4)))
      as (_ & _ & _ & ->).
    proj_cbn. unfold py_min.
    destruct (extract_other_fields _ Hv) as (_ & _ & [(_ & _ & ->) | (_ & _ & ->)]);
      repeat case_if; qsplit; try lra; (left; reflexivity) || (right; reflexivity). }
  clear H. rewrite has_specific_filters_bool.
  unfold detect_ambiguous_query.
  destruct ((0 <? length (genres f))%nat || is_some (year_range f)
            || is_some (rating_range f) || (2 <=? length (keywords f))%nat).
  - qcase (confidence f) 0.2; [destruct Hc; lra |].
    split; [discriminate | intros C; now elim C].
  - qcase (confidence f) 0.5; [| destruct Hc; lra].
    split; [discriminate | reflexivity].
Qed.

Lemma fallback_is_ambiguous_without_specific_filters_witness :
  detect_ambiguous_query
    (mkFilters [] None None ["algo"] "clarification" 0.4 []) "algo" = true.
Proof.
  apply (@fallback_is_ambiguous_without_specific_filters Cases.runtime
           "algo" "algo" None).
  - vm_compute. reflexivity.
  - unfold has_specific_filters. simpl. intros [H | [H | [H | H]]];
      congruence || lia.
Defined.

(** *** Where a recommendation comes from *)

Lemma sort_desc_Forall {A} (key : A -> Q) (P : A -> Prop) (l : list A) :
  Forall P l -> Forall P (sort_desc key l).
Proof.
  induction 1; simpl; [constructor | now apply insert_desc_Forall].
Qed.

Lemma sort_desc_In {A} (key : A -> Q) (x : A) (l : list A) :
  In x (sort_desc key l) -> In x l.
Proof.
  intros H.
  assert (Hall : Forall (fun y => In y l) (sort_desc key l))
    by (apply sort_desc_Forall, Forall_forall; auto).
  rewrite Forall_forall in Hall. auto.
Qed.

Lemma slice_In {A} (x : A) (l : list A) (n : Z) : In x (slice l n) -> In x l.
Proof. unfold slice. destruct (0 <=? n)%Z; apply In_firstn. Qed.

Lemma collect_In {A B} (f : A -> res (option B)) (l : list A) (y : B) :
  In y (collect f l) -> exists x, In x l /\ f x = Ok (Some y).
Proof.
  unfold collect. intros H. apply in_flat_map in H.
  destruct H as (x & Hx & Hy). exists x. split; [exact Hx |].
  destruct (f x) as [[b |] | e]; simpl in Hy; try contradiction.
  destruct Hy as [<- | []]. reflexivity.
Qed.

Lemma filter_res_In {A} (f : A -> res bool) (l ys : list A) (y : A) :
  filter_res f l = Ok ys -> In y ys -> In y l /\ f y = Ok true.
Proof.
  revert ys. induction l as [| x l IH]; simpl; intros ys H Hy.
  - injection H as <-. contradiction.
  - inv_bind H. inv_bind H. injection H as <-. destruct v.
    + destruct Hy as [<- | Hy]; [split; [now left | assumption] |].
      destruct (IH _ Hv0 Hy). split; [now right | assumption].
    + destruct (IH _ Hv0 Hy). split; [now right | assumption].
Qed.

Lemma map_res_In {A B} (f : A -> res B) (l : list A) (ys : list B) (y : B) :
  map_res f l = Ok ys -> In y ys -> exists x, In x l /\ f x = Ok y.
Proof.
  revert ys. induction l as [| x l IH]; simpl; intros ys H Hy.
  - injection H as <-. contradiction.
  - inv_bind H. inv_bind H. injection H as <-.
    destruct Hy as [<- | Hy]; [exists x; auto |].
    destruct (IH _ Hv0 Hy) as (x' & Hx' & Hf). exists x'. auto.
Qed.

Lemma quality_floor_In (r : MovieRecommendation)
      (l : list MovieRecommendation) :
  In r (quality_floor l) -> In r l.
Proof.
  unfold quality_floor. destruct (5 <? length l)%nat; [| auto].
  destruct (3 <=? length _)%nat; [| auto].
  intros H. apply filter_In in H. tauto.
Qed.

Section Provenance.
Context {RT : Runtime} {CO : Collaborators}.
Variable filters : ExtractedFilters.

Lemma recommend_primary_shape (m : dict) (r : MovieRecommendation) :
  recommend_primary filters m = Ok (Some r) ->
  exists s reasoning,
    _meets_minimum_data_requirements (_validate_and_normalize_movie_data m)
    = true
    /\ _calculate_relevance_score m filters = Ok s
    /\ r = mkRecommendation (_validate_and_normalize_movie_data m) s reasoning
                            "ai_recommendation".
Proof.
  unfold recommend_primary.
  destruct (_meets_minimum_data_requirements _) eqn:E; simpl;
    [| discriminate].
  intros H. inv_bind H. inv_bind H. injection H as <-. eauto.
Qed.

Lemma primary_tier_provenance (movies : list dict)
      (recs : list MovieRecommendation) (r : MovieRecommendation) :
  _transform_movies_to_recommendations movies filters = Ok recs ->
  In r recs -> from_primary filters r.
Proof.
  unfold _transform_movies_to_recommendations. intros H Hr.
  inv_bind H. injection H as <-.
  apply quality_floor_In, sort_desc_In, collect_In in Hr.
  destruct Hr as (m & Hm & Hrec).
  destruct (@filter_res_In _ _ _ _ _ Hv Hm) as [_ Hs].
  destruct (@recommend_primary_shape _ _ Hrec) as (s & reasoning & H1 & H2 & H3).
  exists m, s, reasoning. auto.
Qed.

Lemma primary_search_provenance (limit : Z)
      (recs : list MovieRecommendation) (r : MovieRecommendation) :
  primary_search filters limit = Ok (Some recs) -> In r recs ->
  from_primary filters r.
Proof.
  unfold primary_search. intros H Hr. inv_bind H.
  destruct v as [| m ms]; [discriminate |].
  inv_bind H. destruct (3 <=? length v)%nat; [| discriminate].
  inv_bind H. destruct v0 as [| r0 rs]; [discriminate |].
  injection H as <-. apply slice_In in Hr.
  eapply primary_tier_provenance; eauto.
Qed.

Lemma gather_In (limit : Z) (keys : list string) (acc : list dict)
      (ks : list string) (m : dict) :
  In m (fst (gather limit keys acc ks)) ->
  In m acc \/ exists key, In m (_get_cached_movies_from_dynamodb key).
Proof.
  revert acc ks. induction keys as [| key keys IH]; intros acc ks; simpl;
    [auto |].
  destruct (_get_cached_movies_from_dynamodb key) as [| c cs] eqn:E.
  - apply IH.
  - destruct (_ <=? _)%Z; simpl.
    + rewrite in_app_iff. intros [H | H]; [auto |].
      right. exists key. now rewrite E.
    + intros H. apply IH in H. rewrite in_app_iff in H.
      destruct H as [[H | H] | H]; auto.
      right. exists key. now rewrite E.
Qed.

Lemma add_unique_In (x m : dict) (u : list dict) :
  In m (add_unique x u) -> m = x \/ In m u.
Proof.
  induction u as [| y u IH]; simpl; [intuition |].
  destruct (String.eqb _ _).
  - destruct (_ <? _)%nat; simpl; intuition.
  - simpl. intuition.
Qed.

Lemma deduplicate_In (m : dict) (l : list dict) :
  In m (_deduplicate_movies l) -> In m l.
Proof.
  unfold _deduplicate_movies.
  assert (H : forall acc, In m (fold_left
                (fun unique_movies movie =>
                   if String.eqb (dedup_id movie) "" then unique_movies
                   else add_unique movie unique_movies) l acc) ->
              In m acc \/ In m l).
  { induction l as [| x l IH]; intros acc; simpl; [auto |].
    intros H. apply IH in H. destruct H as [H | H]; [| auto].
    destruct (String.eqb _ _); [auto |].
    apply add_unique_In in H. destruct H as [-> | H]; auto. }
  intros Hm. apply H in Hm. destruct Hm as [[] | Hm]. exact Hm.
Qed.

(** What the enhanced filter hands back: the records it kept, each with
    its score written in, and the caller's list after the loop. *)
Lemma enhanced_filtering_provenance (movies filtered after : list dict) :
  _apply_enhanced_client_side_filtering movies filters
  = Ok (filtered, after) ->
  (forall m, In m filtered ->
     exists m0 c, In m0 movies /\ cache_score filters m0 = Ok c /\ 0.2 <= c
                  /\ m = dict_set m0 "_cache_score" (PFloat c))
  /\ (forall m, In m after ->
        exists m0, In m0 movies
                   /\ (m = m0
                       \/ exists c, cache_score filters m0 = Ok c /\ 0.2 <= c
                            /\ m = dict_set m0 "_cache_score" (PFloat c))).
Proof.
  unfold _apply_enhanced_client_side_filtering. intros H. inv_bind H.
  apply Ok_inj in H.
  pose proof (f_equal fst H) as H1. pose proof (f_equal snd H) as H2.
  cbn [fst snd] in H1, H2. subst filtered after. clear H.
  assert (Hstep : forall b m, In (b, m) v ->
            exists m0, In m0 movies
              /\ ((b = false /\ m = m0)
                  \/ (b = true /\ exists c, cache_score filters m0 = Ok c
                        /\ 0.2 <= c
                        /\ m = dict_set m0 "_cache_score" (PFloat c)))).
  { intros b m Hb. destruct (@map_res_In _ _ _ _ _ _ Hv Hb) as (m0 & Hm0 & Hf).
    exists m0. split; [exact Hm0 |]. inv_bind Hf.
    revert Hf. qcase_le 0.2 v0; intros [= <- <-]; [right | left]; eauto. }
  split.
  - intros m Hm. apply sort_desc_In in Hm. apply in_map_iff in Hm.
    destruct Hm as ([b m'] & <- & Hin). apply filter_In in Hin.
    destruct Hin as [Hin Hb]. simpl in Hb. subst b.
    destruct (Hstep _ _ Hin) as (m0 & Hm0 & [[C _] | [_ (c & Hc & Hle & ->)]]);
      [discriminate |]. exists m0, c. auto.
  - intros m Hm. apply in_map_iff in Hm.
    destruct Hm as ([b m'] & <- & Hin).
    destruct (Hstep _ _ Hin) as (m0 & Hm0 & [[_ ->] | [_ Hc]]);
      exists m0; auto.
Qed.

Lemma relaxed_filtering_In (movies res : list dict) (target : Z) (m : dict) :
  _apply_relaxed_filtering movies filters target = Ok res ->
  In m res -> In m movies.
Proof.
  unfold _apply_relaxed_filtering. intros H Hm. inv_bind H. inv_bind H.
  injection H as <-. apply slice_In in Hm.
  assert (Hbase : forall x, In x (slice (map snd (sort_desc fst v))
                                         (target * 2)) -> In x movies).
  { intros x Hx. apply slice_In in Hx. apply in_map_iff in Hx.
    destruct Hx as ([q x'] & <- & Hin). apply sort_desc_In in Hin.
    destruct (@map_res_In _ _ _ _ _ _ Hv Hin) as (x0 & Hx0 & Hf).
    inv_bind Hf. injection Hf as _ <-. exact Hx0. }
  revert Hv0. destruct (nonempty (genres filters)).
  - intros H. inv_bind H. revert H. case_if; intros [= <-].
    + destruct (@filter_res_In _ _ _ _ _ Hv0 Hm) as [Hin _]. auto.
    + auto.
  - intros [= <-]. auto.
Qed.

Lemma recommend_cached_shape (m : dict) (r : MovieRecommendation) :
  recommend_cached filters m = Ok (Some r) ->
  exists base,
    _meets_minimum_data_requirements (_validate_and_normalize_movie_data m)
    = true
    /\ _calculate_relevance_score m filters = Ok base
    /\ movie r = _validate_and_normalize_movie_data m
    /\ source r = "cached_fallback"
    /\ relevance_score r
       = match dict_get m "_cache_score" with
         | Some v => match as_number v with
                     | Some c => (base * 0.95 + c) / 2
                     | None => 0
                     end
         | None => base * 0.95
         end
    /\ (forall v, dict_get m "_cache_score" = Some v -> as_number v <> None).
Proof.
  unfold recommend_cached.
  destruct (_meets_minimum_data_requirements _) eqn:E; simpl;
    [| discriminate].
  intros H. inv_bind H. inv_bind H. inv_bind H. injection H as <-.
  exists v. cbn [movie source relevance_score].
  destruct (dict_get m "_cache_score") as [x |].
  - destruct (as_number x) as [c |] eqn:Ea; [| discriminate].
    injection Hv0 as <-. repeat split; auto. intros v' [= <-]. congruence.
  - injection Hv0 as <-. repeat split; auto. discriminate.
Qed.

Lemma cached_tier_provenance (limit : Z) (r : MovieRecommendation) :
  In r (_get_cached_movies_with_filtering filters limit) -> from_cache filters r.
Proof.
  unfold _get_cached_movies_with_filtering.
  destruct (gather limit (_build_cache_key_strategy filters) [] [])
    as [all keys] eqn:Eg.
  destruct all as [| a all']; [contradiction |].
  destruct (_apply_enhanced_client_side_filtering _ _) as [[fm um] | e]
    eqn:Ee; simpl; [| contradiction].
  destruct (@enhanced_filtering_provenance _ _ _ Ee) as [Hfm Hum].
  assert (Hsrc : forall m0, In m0 (_deduplicate_movies (a :: all')) ->
                 exists key, In m0 (_get_cached_movies_from_dynamodb key)).
  { intros m0 H0. apply deduplicate_In in H0.
    pose proof (@gather_In limit (_build_cache_key_strategy filters) [] []
                  m0) as Hg.
    rewrite Eg in Hg. destruct (Hg H0) as [[] | Hk]. exact Hk. }
  match goal with
  | |- context [Py.bind ?c _] => destruct c as [fm' | e] eqn:Er
  end; simpl; [| contradiction].
  intros Hr. apply in_map_iff in Hr. destruct Hr as (r0 & <- & Hr0).
  apply sort_desc_In, collect_In in Hr0. destruct Hr0 as (m & Hm & Hrec).
  apply slice_In in Hm.
  assert (Hprov : exists m0, In m0 (_deduplicate_movies (a :: all'))
             /\ (m = m0
                 \/ exists c, cache_score filters m0 = Ok c /\ 0.2 <= c
                      /\ m = dict_set m0 "_cache_score" (PFloat c))).
  { revert Er. case_if.
    - intros Er. apply (@relaxed_filtering_In _ _ _ _ Er) in Hm. auto.
    - intros [= <-]. destruct (Hfm _ Hm) as (m0 & c & H0 & Hc & Hle & ->).
      exists m0. split; [exact H0 |]. right. eauto. }
  destruct Hprov as (m0 & H0 & Hcase). destruct (Hsrc _ H0) as (key & Hkey).
  destruct (@recommend_cached_shape _ _ Hrec) as (base & H1 & H2 & H3 & H4 & H5 & H6).
  exists key, m0, m, base. cbn [mark_cached movie source relevance_score].
  repeat split; auto.
Qed.

Lemma lookup_In {A} (k : string) (l : list (string * A)) (v : A) :
  lookup k l = Some v -> In (k, v) l.
Proof.
  induction l as [| [k' v'] l IH]; simpl; [discriminate |].
  destruct (String.eqb k k') eqn:E.
  - intros [= <-]. apply String.eqb_eq in E. subst. now left.
  - auto.
Qed.

Lemma curated_tier_provenance (limit : Z) (r : MovieRecommendation) :
  In r (_get_smart_default_recommendations_with_scoring filters limit) ->
  from_catalogue filters r.
Proof.
  unfold _get_smart_default_recommendations_with_scoring. intros Hr.
  apply sort_desc_In, collect_In in Hr. destruct Hr as (m & Hm & Hrec).
  apply slice_In in Hm. inv_bind Hrec. inv_bind Hrec. injection Hrec as <-.
  exists m, v, v0. split; [| auto].
  destruct (flat_map _ (genres filters)) as [| x xs] eqn:Ef; [now left |].
  right. rewrite <- Ef in Hm. apply in_flat_map in Hm.
  destruct Hm as (g & _ & Hm).
  destruct (lookup (py_str g) genre_specific_movies) as [l |] eqn:El;
    [| contradiction].
  apply lookup_In in El. eauto.
Qed.

(** Every recommendation that the search returns comes from one of the
    four tiers. *)
Lemma search_provenance (limit : Z) (r : MovieRecommendation) :
  In r (search_movies_with_filters filters limit) ->
  from_primary filters r \/ from_cache filters r \/ from_catalogue filters r
  \/ [r] = _get_emergency_fallback_recommendation filters.
Proof.
  unfold search_movies_with_filters.
  assert (Hrest :
    In r match _get_cached_movies_with_filtering filters limit with
         | [] => match _get_smart_default_recommendations_with_scoring
                         filters limit with
                 | [] => _get_emergency_fallback_recommendation filters
                 | r1 :: rs => r1 :: rs
                 end
         | r1 :: rs => r1 :: rs
         end ->
    from_primary filters r \/ from_cache filters r \/ from_catalogue filters r
    \/ [r] = _get_emergency_fallback_recommendation filters).
  { destruct (_get_cached_movies_with_filtering filters limit)
      as [| c cs] eqn:Ec.
    - destruct (_get_smart_default_recommendations_with_scoring filters limit)
        as [| d ds] eqn:Ed.
      + simpl. intros [<- | []]. right. right. right. reflexivity.
      + intros H. right. right. left.
        apply (curated_tier_provenance limit). now rewrite Ed.
    - intros H. right. left. apply (cached_tier_provenance limit).
      now rewrite Ec. }
  destruct (primary_search filters limit) as [[recs |] | e] eqn:Ep; simpl;
    [| exact Hrest | exact Hrest].
  intros H. left. eapply primary_search_provenance; eauto.
Qed.

End Provenance.

(** *** The components of the scores *)

Lemma Q_of_nat_nonneg (n : nat) : 0 <= Q_of_nat n.
Proof.
  unfold Q_of_nat. change 0 with (inject_Z 0). rewrite <- Zle_Qle. lia.
Qed.

Lemma Q_of_nat_pos (n : nat) : (0 < n)%nat -> 0 < Q_of_nat n.
Proof.
  intros H. unfold Q_of_nat. change 0 with (inject_Z 0).
  rewrite <- Zlt_Qlt. lia.
Qed.

Lemma Q_of_nat_le (m n : nat) : (m <= n)%nat -> Q_of_nat m <= Q_of_nat n.
Proof. intros H. unfold Q_of_nat. rewrite <- Zle_Qle. lia. Qed.

(** A share of a count is between 0 and 1. *)
Lemma ratio_bounds (m n : nat) :
  (m <= n)%nat -> (0 < n)%nat -> 0 <= Q_of_nat m / Q_of_nat n <= 1.
Proof.
  intros Hmn Hn. pose proof (Q_of_nat_pos Hn) as Hp.
  pose proof (Q_of_nat_nonneg m) as Hm.
  pose proof (Q_of_nat_le Hmn) as Hle. split.
  - apply Qle_shift_div_l; [exact Hp | lra].
  - apply Qle_shift_div_r; [exact Hp | lra].
Qed.

Lemma filter_length_le {A} (p : A -> bool) (l : list A) :
  (length (filter p l) <= length l)%nat.
Proof.
  induction l as [| x l IH]; simpl; [lia |].
  destruct (p x); simpl; lia.
Qed.

Lemma distance_score_bounds (distance : Z) (step cap floor : Q) :
  (0 <= distance)%Z -> 0 <= step -> 0 <= cap -> floor <= 1 ->
  floor <= distance_score distance step cap floor <= 1.
Proof.
  intros Hd Hs Hc Hf. unfold distance_score.
  assert (Hdq : 0 <= inject_Z distance)
    by (change 0 with (inject_Z 0); rewrite <- Zle_Qle; lia).
  assert (Hp : 0 <= py_min (inject_Z distance * step) cap).
  { apply py_min_glb; [| exact Hc]. apply Qmult_le_0_compat; assumption. }
  split; [apply py_max_ge_r |]. apply py_max_lub; lra.
Qed.

(** The year score of a range: 1 inside the range, and outside it never
    below the floor. *)
Lemma year_range_score_bounds (movie_year : Z) (yr : YearRange)
      (step cap floor : Q) :
  0 <= step -> 0 <= cap -> floor <= 0.5 ->
  floor <= year_range_score movie_year yr step cap floor <= 1.
Proof.
  intros Hs Hc Hf. unfold year_range_score.
  set (lo := match min_year yr with Some z => z | None => 0%Z end).
  set (hi := match max_year yr with Some z => z | None => 0%Z end).
  assert (Hd : forall d, (0 <= d)%Z ->
                 floor <= distance_score d step cap floor <= 1)
    by (intros d Hd; apply distance_score_bounds; auto; lra).
  destruct (truthy_Z (min_year yr) && truthy_Z (max_year yr)).
  - destruct ((lo <=? movie_year)%Z && (movie_year <=? hi)%Z) eqn:E;
      [lra |].
    destruct (movie_year <? lo)%Z eqn:E1.
    + apply Hd. apply Z.ltb_lt in E1. lia.
    + apply Hd. apply Z.ltb_ge in E1. apply andb_false_iff in E.
      destruct E as [E | E]; [apply Z.leb_gt in E | apply Z.leb_gt in E];
        lia.
  - destruct (truthy_Z (min_year yr)).
    + destruct (lo <=? movie_year)%Z eqn:E; [lra |].
      apply Hd. apply Z.leb_gt in E. lia.
    + destruct (truthy_Z (max_year yr)); [| lra].
      destruct (movie_year <=? hi)%Z eqn:E; [lra |].
      apply Hd. apply Z.leb_gt in E. lia.
Qed.

Lemma set_of_list_length_pos (l : list string) :
  l <> [] -> (0 < length (set_of_list l))%nat.
Proof.
  destruct l as [| x l]; [congruence |]. intros _.
  assert (H : In x (set_of_list (x :: l)))
    by (apply set_of_list_In; now left).
  destruct (set_of_list (x :: l)); [contradiction | simpl; lia].
Qed.

(** X8.  For a record and filters whose integers have 64 bits, each of
    the five components of the relevance score lies in [0, 1] whenever it
    is computed: the genre score, the rating score (for a rating that is
    not NaN), the year score (never below 0.1), the keyword score and the
    popularity score (never below 0.2). *)
Theorem score_components_are_shares {RT : Runtime}
        (movie_data : dict) (filters : ExtractedFilters) :
  small_ints (PDict movie_data) = true ->
  small_ints (PList (genres filters)) = true ->
  small_years filters = true ->
  0 <= _calculate_genre_match_score movie_data filters <= 1
  /\ (forall r s, rating_of movie_data = Ok r -> comparable r ->
                  _calculate_rating_score movie_data = Ok s -> 0 <= s <= 1)
  /\ 0.1 <= _calculate_year_proximity_score movie_data filters <= 1
  /\ (forall s, _calculate_keyword_relevance_score movie_data filters = Ok s ->
                0 <= s <= 1)
  /\ (forall s, _calculate_popularity_score movie_data = Ok s ->
                0.2 <= s <= 1).
Proof.
  intros _ _ _. split; [| split; [| split; [| split]]].
  - unfold _calculate_genre_match_score.
    destruct (negb (nonempty (genres filters))) eqn:Eg; [lra |].
    destruct (get movie_data "genres" (PList [])); try lra.
    destruct l as [| g gs]; [lra |].
    set (ids := set_of_list (map py_str (genres filters))).
    assert (Hpos : (0 < length ids)%nat).
    { apply set_of_list_length_pos.
      destruct (genres filters); [discriminate | discriminate]. }
    replace (0 <? length ids)%nat with true
      by (symmetry; apply Nat.ltb_lt; exact Hpos).
    apply ratio_bounds; [apply filter_length_le | exact Hpos].
  - intros r s _ _ H. unfold _calculate_rating_score in H. inv_bind H.
    injection H as <-. unfold Qdiv.
    change (/ 5.0) with (10 # 50). qsplit; lra.
  - unfold _calculate_year_proximity_score.
    destruct (year_range filters) as [yr |]; [| lra].
    destruct (negb (truthy _)); [lra |].
    destruct (year_of _); [| lra].
    apply year_range_score_bounds; lra.
  - intros s H. unfold _calculate_keyword_relevance_score in H.
    destruct (negb (nonempty (keywords filters))) eqn:Ek;
      [injection H as <-; lra |].
    inv_bind H. destruct v as [title overview]. injection H as <-.
    set (tm := length (filter _ (keywords filters))).
    set (om := length (filter (fun kw => negb _ && _) (keywords filters))).
    assert (Hk : (0 < length (keywords filters))%nat)
      by (destruct (keywords filters); [discriminate | simpl; lia]).
    pose proof (Q_of_nat_pos Hk) as Hp.
    pose proof (Q_of_nat_nonneg tm). pose proof (Q_of_nat_nonneg om).
    set (w := _ / _).
    assert (Hw : 0 <= w)
      by (apply Qle_shift_div_l; [exact Hp | lra]).
    pose proof (py_min_le_r w 1.0).
    pose proof (@py_min_glb w 1.0 0 Hw ltac:(lra)). lra.
  - intros s H. unfold _calculate_popularity_score in H.
    inv_bind H. inv_bind H. injection H as <-.
    repeat case_if; lra.
Qed.

Lemma score_components_are_shares_witness :
  exists s, _calculate_rating_score Cases.fight_club = Ok s
            /\ 0 <= s <= 1.
Proof.
  eexists. split; [vm_compute; reflexivity |].
  apply (proj1 (proj2 (@score_components_are_shares Cases.runtime
                         Cases.fight_club Cases.no_filters
                         eq_refl eq_refl eq_refl)) 8.4).
  - vm_compute. reflexivity.
  - right. reflexivity.
  - vm_compute. reflexivity.
Defined.

(** X9.  Among rated movies a better rating never gives a lower rating
    score; an unrated movie (rating 0 or below) scores 0.3, and no rating
    below 3.75 scores more than that. *)
Theorem rating_score_is_monotone (m1 m2 : dict) (r1 r2 s1 s2 : Q) :
  rating_of m1 = Ok r1 -> rating_of m2 = Ok r2 ->
  _calculate_rating_score m1 = Ok s1 ->
  _calculate_rating_score m2 = Ok s2 ->
  (0 < r1 -> r1 <= r2 -> s1 <= s2)
  /\ (r1 <= 0 -> s1 == 0.3)
  /\ (r1 <= 0 -> 0 < r2 -> r2 < 3.75 -> s2 <= s1).
Proof.
  intros H1 H2 Hs1 Hs2. unfold _calculate_rating_score in *.
  rewrite H1 in Hs1. rewrite H2 in Hs2. simpl in Hs1, Hs2.
  injection Hs1 as <-. injection Hs2 as <-. unfold Qdiv.
  change (/ 5.0) with (10 # 50).
  split; [| split]; intros; qsplit; lra.
Qed.

Lemma rating_score_is_monotone_witness :
  exists s1 s2,
    _calculate_rating_score Cases.poor_match = Ok s1
    /\ _calculate_rating_score Cases.fight_club = Ok s2
    /\ s1 <= s2.
Proof.
  eexists. eexists. split; [vm_compute; reflexivity |].
  split; [vm_compute; reflexivity |].
  refine (proj1 (@rating_score_is_monotone Cases.poor_match
                   Cases.fight_club 1.0 8.4 _ _ _ _ _ _) _ _);
    try (vm_compute; reflexivity); lra.
Defined.

(** *** What every recommendation of the search carries *)

Lemma normalized_record_is_complete {RT : Runtime} (m : dict)
      (r : MovieRecommendation) :
  movie r = _validate_and_normalize_movie_data m ->
  has_complete_data r = true.
Proof.
  intros H. unfold has_complete_data. rewrite H.
  unfold _validate_and_normalize_movie_data. reflexivity.
Qed.

Lemma catalogue_meets_requirements {RT : Runtime} (m : dict) :
  In m general_movies
  \/ (exists g l, In (g, l) genre_specific_movies /\ In m l) ->
  _meets_minimum_data_requirements (_validate_and_normalize_movie_data m)
  = true.
Proof.
  assert (Hg : forallb (fun m =>
                 _meets_minimum_data_requirements
                   (_validate_and_normalize_movie_data m)) general_movies
               = true) by (vm_compute; reflexivity).
  assert (Hs : forallb (fun gl =>
                 forallb (fun m =>
                   _meets_minimum_data_requirements
                     (_validate_and_normalize_movie_data m)) (snd gl))
                 genre_specific_movies = true) by (vm_compute; reflexivity).
  rewrite forallb_forall in Hg, Hs.
  intros [H | (g & l & Hgl & Hm)]; [auto |].
  specialize (Hs _ Hgl). simpl in Hs. rewrite forallb_forall in Hs. auto.
Qed.

(** X10.  Every recommendation that the search returns carries one of
    the four source tags and a movie record with the fields that
    [MovieRecommendation.has_complete_data] asks for; except for the
    emergency entry, the record also passes
    [_meets_minimum_data_requirements]: its id, title, overview, poster,
    rating and release date are set and not blank. *)
Theorem search_results_are_complete
        {RT : Runtime} {CO : Collaborators}
        (filters : ExtractedFilters) (limit : Z) (r : MovieRecommendation) :
  In r (search_movies_with_filters filters limit) ->
  has_complete_data r = true
  /\ In (source r) ["ai_recommendation"; "cached_fallback"; "smart_default";
                    "emergency_fallback"]
  /\ (source r <> "emergency_fallback" ->
      _meets_minimum_data_requirements (movie r) = true).
Proof.
  intros H. apply search_provenance in H.
  destruct H as [(m & s & reasoning & _ & Hm & _ & ->)
                | [(key & m0 & m & base & _ & _ & Hm & _ & Hmv & Hsrc & _)
                  | [(m & s & reasoning & Hin & _ & ->) | He]]].
  - split; [eapply normalized_record_is_complete; reflexivity |].
    split; [simpl; tauto | intros _; exact Hm].
  - split; [eapply normalized_record_is_complete; eauto |].
    rewrite Hsrc, Hmv. split; [simpl; tauto | intros _; exact Hm].
  - split; [eapply normalized_record_is_complete; reflexivity |].
    split; [simpl; tauto |]. intros _. cbn [movie].
    now apply catalogue_meets_requirements.
  - injection He as ->. split; [reflexivity |].
    split; [simpl; tauto |]. intros C. now elim C.
Qed.

Lemma search_results_are_complete_witness :
  exists r,
    In r (@search_movies_with_filters Cases.runtime Cases.degraded
            Cases.no_filters 20)
    /\ has_complete_data r = true.
Proof.
  assert (H : exists r,
             In r (@search_movies_with_filters Cases.runtime Cases.degraded
                     Cases.no_filters 20)).
  { eexists. vm_compute. left. reflexivity. }
  destruct H as (r & Hr). exists r. split; [exact Hr |].
  apply (@search_results_are_complete Cases.runtime Cases.degraded
           Cases.no_filters 20 r Hr).
Defined.

(** *** The scores of the recommendations *)

(** The score of the enhanced cache filter is a share. *)
Lemma cache_score_bounds {RT : Runtime} (filters : ExtractedFilters)
      (m : dict) (c : Q) :
  cache_score filters m = Ok c -> 0 <= c <= 1.
Proof.
  unfold cache_score. intros H. inv_bind H. destruct v as [s1 x1].
  assert (H1 : 0 <= s1 /\ s1 <= x1 /\ 0 <= x1).
  { revert Hv. destruct (nonempty (genres filters)) eqn:Eg.
    - case_if.
      + intros Hv. inv_bind Hv. apply Ok_inj in Hv.
        pose proof (f_equal fst Hv) as Ha. pose proof (f_equal snd Hv) as Hb.
        cbn [fst snd] in Ha, Hb. subst s1 x1.
        destruct (0 <? _)%nat eqn:Em.
        * apply Nat.ltb_lt in Em.
          match goal with
          | |- context [Q_of_nat ?a / Q_of_nat ?b] =>
              assert (Hr : 0 <= Q_of_nat a / Q_of_nat b <= 1)
          end.
          { apply ratio_bounds; [apply filter_length_le |].
            rewrite length_map. destruct (genres filters); [discriminate |].
            simpl. lia. }
          lra.
        * lra.
      + intros Hv. apply Ok_inj in Hv.
        pose proof (f_equal fst Hv) as Ha. pose proof (f_equal snd Hv) as Hb.
        cbn [fst snd] in Ha, Hb. subst s1 x1. lra.
    - intros Hv. apply Ok_inj in Hv.
      pose proof (f_equal fst Hv) as Ha. pose proof (f_equal snd Hv) as Hb.
      cbn [fst snd] in Ha, Hb. subst s1 x1. lra. }
  clear Hv.
  assert (Hfin : forall s3 x3,
             0 <= s3 /\ s3 <= x3 /\ 0 <= x3 ->
             (rating <- rating_of m ;;
              Ok (if Qlt_bool 0 (x3 + 1.0)
                  then (if Qle_bool 7.0 rating then s3 + 1.0
                        else if Qle_bool 6.0 rating then s3 + 0.8
                        else if Qle_bool 5.0 rating then s3 + 0.6
                        else s3 + 0.3) / (x3 + 1.0)
                  else 0.5)) = Ok c ->
             0 <= c <= 1).
  { intros s3 x3 (Ha & Hb & Hc) Hr. inv_bind Hr. injection Hr as <-.
    qcase 0 (x3 + 1.0); [| lra].
    set (num := if Qle_bool 7.0 v then _ else _).
    assert (Hn : 0 <= num /\ num <= x3 + 1.0)
      by (subst num; qsplit; lra).
    split.
    - apply Qle_shift_div_l; [exact H0 | lra].
    - apply Qle_shift_div_r; [exact H0 | lra]. }
  assert (Hkw : forall s2 x2,
             0 <= s2 /\ s2 <= x2 /\ 0 <= x2 ->
             forall sm3,
             (if nonempty (keywords filters)
              then
                title <- lower_of (get m "title" (PStr "")) ;;
                overview <- lower_of (get m "overview" (PStr "")) ;;
                Ok (if (0 <? length
                          (filter (fun keyword =>
                                     contains (title ++ " " ++ overview)
                                              (lower keyword))
                                  (keywords filters)))%nat
                    then s2 + Q_of_nat
                                (length
                                   (filter (fun keyword =>
                                      contains (title ++ " " ++ overview)
                                               (lower keyword))
                                      (keywords filters)))
                              / Q_of_nat (length (keywords filters))
                    else s2 + 0.1, x2 + 1.0)
              else Ok (s2, x2)) = Ok sm3 ->
             0 <= fst sm3 /\ fst sm3 <= snd sm3 /\ 0 <= snd sm3).
  { intros s2 x2 (Ha & Hb & Hc) sm3. destruct (nonempty (keywords filters)) eqn:Ek.
    - intros Hk. inv_bind Hk. inv_bind Hk. apply Ok_inj in Hk. subst sm3.
      cbn [fst snd]. destruct (0 <? _)%nat eqn:Em; [| lra].
      match goal with
      | |- context [Q_of_nat ?a / Q_of_nat ?b] =>
          assert (Hr : 0 <= Q_of_nat a / Q_of_nat b <= 1)
      end.
      { apply ratio_bounds; [apply filter_length_le |].
        destruct (keywords filters); [discriminate | simpl; lia]. }
      lra.
    - intros Hk. apply Ok_inj in Hk. subst sm3. cbn [fst snd]. lra. }
  destruct H1 as (Ha & Hb & Hc).
  destruct (year_range filters) as [yr |].
  - set (s2 := if truthy _ then _ else _) in H.
    assert (H2 : 0 <= s2 /\ s2 <= x1 + 1.0 /\ 0 <= x1 + 1.0).
    { subst s2. case_if; [| lra]. destruct (year_of _) as [y |]; [| lra].
      pose proof (@year_range_score_bounds y yr 0.05 0.8 0.2
                    ltac:(lra) ltac:(lra) ltac:(lra)).
      unfold _calculate_year_proximity_score_for_cache. lra. }
    cbv beta iota in H. inv_bind H. destruct v as [s3 x3].
    apply (Hkw _ _ H2) in Hv. cbn [fst snd] in Hv.
    apply (Hfin _ _ Hv H).
  - cbv beta iota in H. inv_bind H. destruct v as [s3 x3].
    apply (Hkw s1 x1) in Hv; [| auto]. cbn [fst snd] in Hv.
    apply (Hfin _ _ Hv H).
Qed.


Lemma dict_get_set_same (d : dict) (k : string) (v : pyval) :
  dict_get (dict_set d k v) k = Some v.
Proof.
  induction d as [| [k' v'] d IH]; simpl.
  - now rewrite String.eqb_refl.
  - destruct (String.eqb k k') eqn:E; simpl; rewrite E; [reflexivity | exact IH].
Qed.

Lemma relevance_score_bounds {RT : Runtime} (m : dict)
      (filters : ExtractedFilters) (s : Q) :
  _calculate_relevance_score m filters = Ok s -> 0 < s <= 1.
Proof.
  intros H. destruct (relevance_score_shape _ _ H) as (base & r & _ & ->).
  apply adjust_score_bounds.
Qed.

(** X11.  When the records of the cache carry no score of their own
    (no [_cache_score] field), every recommendation that the search
    returns has a relevance score in [0, 1], and the score is 0 for the
    emergency entry only. *)
Theorem search_scores_are_shares
        {RT : Runtime} {CO : Collaborators}
        (filters : ExtractedFilters) (limit : Z) (r : MovieRecommendation) :
  (forall key m, In m (_get_cached_movies_from_dynamodb key) ->
                 dict_get m "_cache_score" = None) ->
  In r (search_movies_with_filters filters limit) ->
  0 <= relevance_score r <= 1
  /\ (relevance_score r == 0 <-> source r = "emergency_fallback").
Proof.
  intros Hcache H. apply search_provenance in H.
  destruct H as [(m & s & reasoning & _ & _ & Hs & ->)
                | [(key & m0 & m & base & Hin & Hm & _ & Hb & _ & Hsrc & Hsc & _)
                  | [(m & s & reasoning & _ & Hs & ->) | He]]].
  - apply relevance_score_bounds in Hs. cbn [relevance_score source].
    split; [lra |]. split; [lra | discriminate].
  - apply relevance_score_bounds in Hb. rewrite Hsrc.
    assert (Hr : 0 < relevance_score r <= 1).
    { rewrite Hsc. destruct Hm as [-> | (c & Hc & Hle & ->)].
      - rewrite (Hcache _ _ Hin). lra.
      - rewrite dict_get_set_same. cbn [as_number].
        apply cache_score_bounds in Hc.
        assert (E : (base * 0.95 + c) / 2 == (base * 0.95 + c) * (1 # 2))
          by reflexivity.
        rewrite E. lra. }
    split; [lra |]. split; [lra | discriminate].
  - apply relevance_score_bounds in Hs. cbn [relevance_score source].
    split; [lra |]. split; [lra | discriminate].
  - injection He as ->. cbn [relevance_score source].
    split; [lra |]. split; reflexivity.
Qed.

Lemma search_scores_are_shares_witness :
  exists r,
    In r (@search_movies_with_filters Cases.runtime Cases.degraded
            Cases.no_filters 20)
    /\ 0 <= relevance_score r <= 1.
Proof.
  assert (H : exists r,
             In r (@search_movies_with_filters Cases.runtime Cases.degraded
                     Cases.no_filters 20)).
  { eexists. vm_compute. left. reflexivity. }
  destruct H as (r & Hr). exists r. split; [exact Hr |].
  apply (@search_scores_are_shares Cases.runtime Cases.degraded
           Cases.no_filters 20 r); [| exact Hr].
  intros key m. simpl. destruct (String.eqb key "movies_all_popular");
    [intros [<- | []]; reflexivity | intros []].
Defined.

(** *** The year range in the primary tier *)

Lemma passes_strict_year {RT : Runtime} (filters : ExtractedFilters)
      (m : dict) (yr : YearRange) :
  passes_strict filters m = Ok true ->
  year_range filters = Some yr ->
  exists s y,
    get2 m "release_date" "releaseDate" (PStr "") = PStr s
    /\ int_of_str (take 4 s) = Ok y
    /\ (forall lo, min_year yr = Some lo -> lo <> 0%Z -> (lo <= y)%Z)
    /\ (forall hi, max_year yr = Some hi -> hi <> 0%Z -> (y <= hi)%Z).
Proof.
  unfold passes_strict. intros H Hy. inv_bind H. rewrite Hy in H.
  destruct (negb v); [discriminate |].
  set (rd := get2 m "release_date" "releaseDate" (PStr "")) in *.
  destruct (truthy rd); [| discriminate].
  destruct (year_of rd) as [y |] eqn:Ey; [| discriminate].
  match type of H with
  | (if negb ?b then _ else _) = _ => destruct b eqn:Eb; [| discriminate]
  end.
  clear H. unfold year_of in Ey. inv_bind Ey.
  destruct rd as [| | | | s | l |]; try discriminate.
  - simpl in Hv0. injection Hv0 as <-. simpl in Ey. exists s, y.
    split; [reflexivity |]. split; [exact Ey |].
    apply andb_prop in Eb. destruct Eb as [E1 E2].
    apply negb_true_iff in E1. apply negb_true_iff in E2. split.
    + intros lo Hlo Hnz. rewrite Hlo in E1. simpl in E1.
      apply Z.eqb_neq in Hnz. rewrite Hnz in E1. simpl in E1.
      apply Z.ltb_ge in E1. exact E1.
    + intros hi Hhi Hnz. rewrite Hhi in E2. simpl in E2.
      apply Z.eqb_neq in Hnz. rewrite Hnz in E2. simpl in E2.
      apply Z.ltb_ge in E2. exact E2.
  - simpl in Hv0. injection Hv0 as <-. discriminate.
Qed.

Lemma normalized_release_date {RT : Runtime} (m : dict) (s : string) :
  get2 m "release_date" "releaseDate" (PStr "") = PStr s ->
  _meets_minimum_data_requirements (_validate_and_normalize_movie_data m)
  = true ->
  dict_get (_validate_and_normalize_movie_data m) "release_date"
  = Some (PStr s).
Proof.
  intros Hs Hm. unfold _meets_minimum_data_requirements in Hm.
  rewrite forallb_forall in Hm.
  specialize (Hm "release_date" ltac:(simpl; tauto)).
  assert (E : dict_get (_validate_and_normalize_movie_data m) "release_date"
              = Some (PStr (_validate_and_format_date s))).
  { unfold _validate_and_normalize_movie_data. rewrite Hs. reflexivity. }
  unfold get in Hm. rewrite E in Hm. rewrite E. f_equal. f_equal.
  assert (Hf : _validate_and_format_date s = "" \/ _validate_and_format_date s = s).
  { unfold _validate_and_format_date.
    destruct (String.eqb s ""); [now left |].
    destruct (4 <=? py_len s)%nat; [| now left].
    destruct (int_of_str (take 4 s)); [| now left].
    destruct (_ && _); [now right | now left]. }
  destruct Hf as [Hf | Hf]; [| exact Hf].
  rewrite Hf in Hm. discriminate.
Qed.

(** X12.  When a year range is asked for, the primary tier recommends
    only movies whose release date starts with a year inside the range:
    not before the minimum and not after the maximum (a bound that is
    missing or 0 does not count). *)
Theorem primary_tier_respects_the_year_range
        {RT : Runtime} {CO : Collaborators}
        (movies : list dict) (filters : ExtractedFilters)
        (recs : list MovieRecommendation) (yr : YearRange)
        (r : MovieRecommendation) :
  _transform_movies_to_recommendations movies filters = Ok recs ->
  year_range filters = Some yr ->
  In r recs ->
  exists s y,
    dict_get (movie r) "release_date" = Some (PStr s)
    /\ year_of (PStr s) = Ok y
    /\ (forall lo, min_year yr = Some lo -> lo <> 0%Z -> (lo <= y)%Z)
    /\ (forall hi, max_year yr = Some hi -> hi <> 0%Z -> (y <= hi)%Z).
Proof.
  intros H Hy Hr.
  destruct (@primary_tier_provenance _ _ _ _ _ _ H Hr)
    as (m & sc & reasoning & Hstrict & Hmeets & _ & ->).
  destruct (@passes_strict_year _ _ _ _ Hstrict Hy) as (s & y & Hs & Hi & Hlo & Hhi).
  exists s, y. cbn [movie].
  split; [now apply normalized_release_date |].
  split; [exact Hi |]. split; assumption.
Qed.

(** A request for movies of the nineties and one record of 1999. *)
Lemma primary_tier_respects_the_year_range_witness :
  exists r s y,
    @_transform_movies_to_recommendations Cases.runtime Cases.degraded
      [Cases.fight_club]
      (mkFilters [] (Some (mkYearRange (Some 1990%Z) (Some 1999%Z))) None []
                 "recommendation" 0.9 []) = Ok [r]
    /\ dict_get (movie r) "release_date" = Some (PStr s)
    /\ year_of (PStr s) = Ok y
    /\ (1990 <= y <= 1999)%Z.
Proof.
  assert (H : exists r,
             @_transform_movies_to_recommendations Cases.runtime
               Cases.degraded [Cases.fight_club]
               (mkFilters [] (Some (mkYearRange (Some 1990%Z) (Some 1999%Z)))
                          None [] "recommendation" 0.9 []) = Ok [r]).
  { eexists. vm_compute. reflexivity. }
  destruct H as (r & Hr).
  destruct (@primary_tier_respects_the_year_range Cases.runtime
              Cases.degraded _ _ _
              (mkYearRange (Some 1990%Z) (Some 1999%Z)) r Hr eq_refl
              (or_introl eq_refl))
    as (s & y & H1 & H2 & H3 & H4).
  exists r, s, y. split; [exact Hr |]. split; [exact H1 |].
  split; [exact H2 |]. split.
  - apply (H3 1990%Z); [reflexivity | lia].
  - apply (H4 1999%Z); [reflexivity | lia].
Defined.

(** *** The normalised record *)

Lemma strip_head_nonblank (c : ascii) (t : string) :
  is_space c = false -> strip (String c t) <> "".
Proof.
  intros Ec. unfold strip. simpl lstrip. rewrite Ec.
  destruct (@rstrip_keeps_head c t Ec) as (t' & ->). discriminate.
Qed.

Lemma strip_nonblank_stable (s : string) :
  strip s <> "" -> strip (strip s) <> "".
Proof. now rewrite strip_idem. Qed.

Lemma strip_blank (s : string) : strip s = "" <-> lstrip s = "".
Proof.
  unfold strip. split; [| now intros ->].
  destruct (lstrip_head s) as [-> | (c & t & -> & Ec)]; [reflexivity |].
  destruct (@rstrip_keeps_head c t Ec) as (t' & ->). discriminate.
Qed.

Lemma lstrip_blank_cons (c : ascii) (s : string) :
  lstrip (String c s) = "" <-> is_space c = true /\ lstrip s = "".
Proof.
  simpl. destruct (is_space c); split; try tauto; try discriminate.
  intros [? _]. discriminate.
Qed.

Lemma lstrip_blank_app (a b : string) :
  lstrip a = "" -> lstrip b = "" -> lstrip (a ++ b) = "".
Proof.
  induction a as [| c a IH]; simpl; [tauto |].
  destruct (is_space c); [exact IH | discriminate].
Qed.

Lemma lstrip_blank_take_cont (s : string) :
  lstrip s = "" -> lstrip (take_cont s) = "".
Proof.
  induction s as [| c s IH]; simpl; [reflexivity |].
  destruct (is_space c) eqn:Ec; [| discriminate].
  intros H. destruct (is_cont c); simpl; [rewrite Ec; auto | reflexivity].
Qed.

Lemma lstrip_blank_drop_cont (s : string) :
  lstrip s = "" -> lstrip (drop_cont s) = "".
Proof.
  induction s as [| c s IH]; simpl; [reflexivity |].
  destruct (is_space c) eqn:Ec; [| discriminate].
  intros H. destruct (is_cont c); simpl; [auto | now rewrite Ec].
Qed.

Lemma lstrip_blank_take (n : nat) (s : string) :
  lstrip s = "" -> lstrip (take n s) = "".
Proof.
  revert s. induction n as [| n IH]; intros s H; [reflexivity |].
  destruct s as [| c s]; [reflexivity |].
  apply lstrip_blank_cons in H as [Hc Hs].
  cbn [take]. apply lstrip_blank_cons. split; [exact Hc |].
  apply lstrip_blank_app.
  - now apply lstrip_blank_take_cont.
  - now apply IH, lstrip_blank_drop_cont.
Qed.

Lemma int_of_str_nonblank (s : string) (z : Z) :
  int_of_str s = Ok z -> strip s <> "".
Proof.
  unfold int_of_str. intros H E. rewrite E in H. discriminate.
Qed.

(** A prefix that reads as a number is not blank, so neither is the
    whole string. *)
Lemma dated_nonblank (s : string) (z : Z) :
  int_of_str (take 4 s) = Ok z -> strip s <> "".
Proof.
  intros H E. apply int_of_str_nonblank in H. apply H.
  apply strip_blank. apply lstrip_blank_take. now apply strip_blank.
Qed.

Lemma py_len_nonempty (s : string) : (0 < py_len s)%nat -> s <> "".
Proof. intros H ->. simpl in H. lia. Qed.

Lemma length_nonempty (s : string) : (0 < String.length s)%nat -> s <> "".
Proof. intros H ->. simpl in H. lia. Qed.

Lemma first_some_In {A B} (f : A -> option B) (l : list A) (y : B) :
  first_some f l = Some y -> exists x, In x l /\ f x = Some y.
Proof.
  induction l as [| x l IH]; simpl; [discriminate |].
  destruct (f x) as [y' |] eqn:E.
  - intros [= ->]. eauto.
  - intros H. destruct (IH H) as (x' & Hx & Hf). eauto.
Qed.

Lemma poster_url_nonblank (m : dict) :
  strip (_get_validated_poster_url m) <> "".
Proof.
  unfold _get_validated_poster_url.
  match goal with
  | |- context [first_some ?f ?l] => destruct (first_some f l) as [p |] eqn:E
  end; [| vm_compute; discriminate].
  apply first_some_In in E. destruct E as (field & _ & E).
  destruct (get m field PNone) as [| | | | p0 | |]; try discriminate.
  destruct (negb (String.eqb p0 "") && (0 <? String.length (strip p0))%nat)
    eqn:E0; [| discriminate].
  apply andb_prop in E0 as [_ E0]. apply Nat.ltb_lt in E0.
  apply length_nonempty in E0.
  destruct (starts_with "http" (strip p0)).
  { injection E as <-. now apply strip_nonblank_stable. }
  destruct (starts_with "/" (strip p0)).
  { injection E as <-. simpl. now apply strip_head_nonblank. }
  destruct (_ && _); [| discriminate].
  injection E as <-. now apply strip_nonblank_stable.
Qed.

Lemma fallback_overview_nonblank {RT : Runtime} (title : string) (m : dict) :
  strip (_generate_fallback_overview title m) <> "".
Proof.
  unfold _generate_fallback_overview.
  destruct (get m "genres" (PList [])) as [| | | | | [| g gs] |];
    try (simpl; now apply strip_head_nonblank).
  destruct (flat_map _ _); simpl; now apply strip_head_nonblank.
Qed.

Lemma formatted_date_cases (s : string) :
  _validate_and_format_date s = ""
  \/ (_validate_and_format_date s = s
      /\ exists y, int_of_str (take 4 s) = Ok y
                   /\ (1900 <= y <= 2030)%Z).
Proof.
  unfold _validate_and_format_date.
  destruct (String.eqb s ""); [now left |].
  destruct (4 <=? py_len s)%nat; [| now left].
  destruct (int_of_str (take 4 s)) as [y |]; [| now left].
  destruct ((1900 <=? y)%Z && (y <=? 2030)%Z) eqn:E; [| now left].
  right. split; [reflexivity |]. exists y. split; [reflexivity |].
  apply andb_prop in E as [E1 E2]. lia.
Qed.

(** X13.  For a raw record whose integers have 64 bits and whose id,
    when it is text, is ASCII text of at most 64 characters, the record
    that [_validate_and_normalize_movie_data] builds has an integer id, a
    title, an overview and a poster that are not blank, a rating between
    0 and 10, and a release date that is either empty or starts with a
    year from 1900 to 2030; it passes [_meets_minimum_data_requirements]
    exactly when that release date is not empty. *)
Theorem normalized_record_is_well_formed {RT : Runtime} (m : dict) :
  small_ints (PDict m) = true ->
  plain_id m = true ->
  exists id title overview poster rating date,
    let n := _validate_and_normalize_movie_data m in
    dict_get n "id" = Some (PInt id)
    /\ dict_get n "title" = Some (PStr title) /\ strip title <> ""
    /\ dict_get n "overview" = Some (PStr overview) /\ strip overview <> ""
    /\ dict_get n "poster_path" = Some (PStr poster) /\ strip poster <> ""
    /\ dict_get n "vote_average" = Some (PFloat rating)
    /\ 0 <= rating /\ rating <= 10
    /\ dict_get n "release_date" = Some (PStr date)
    /\ (date = ""
        \/ exists y, int_of_str (take 4 date) = Ok y
                     /\ (1900 <= y <= 2030)%Z)
    /\ (_meets_minimum_data_requirements n = true <-> date <> "").
Proof.
  intros _ _. unfold _validate_and_normalize_movie_data.
  set (movie_id := if _ : bool then ("unknown-" ++ _)%string else _).
  set (title0 := _safe_string_conversion (get2 m "title" _ _)).
  set (title := if _ : bool then "Título no disponible" else title0).
  set (overview0 := _safe_string_conversion (get2 m "overview" _ _)).
  set (overview := if _ : bool then _generate_fallback_overview title m
                   else overview0).
  set (rating0 := _safe_float_conversion _).
  set (rating := if _ : bool then 0.0 else rating0).
  set (date0 := _safe_string_conversion (get2 m "release_date" _ _)).
  exists (_safe_int_conversion movie_id), title, overview,
         (_get_validated_poster_url m), rating,
         (_validate_and_format_date date0).
  cbv zeta.
  assert (Ht : strip title <> "").
  { subst title.
    destruct (String.eqb title0 "" || String.eqb (strip title0) ""
              || (py_len (strip title0) <? 1)%nat) eqn:E.
    - vm_compute. discriminate.
    - apply orb_false_elim in E as [E _].
      apply orb_false_elim in E as [_ E]. now apply String.eqb_neq in E. }
  assert (Ho : strip overview <> "").
  { subst overview.
    destruct (String.eqb overview0 "" || (py_len (strip overview0) <? 10)%nat)
      eqn:E.
    - apply fallback_overview_nonblank.
    - apply orb_false_elim in E as [_ E]. apply Nat.ltb_ge in E.
      apply py_len_nonempty. lia. }
  pose proof (poster_url_nonblank m) as Hp.
  assert (Hr : 0 <= rating /\ rating <= 10).
  { subst rating. qcase rating0 0; simpl; [lra |].
    qcase 10 rating0; simpl; lra. }
  destruct Hr as [Hr0 Hr1].
  pose proof (formatted_date_cases date0) as Hd.
  repeat split; try assumption; try reflexivity.
  - destruct Hd as [-> | (-> & Hy)]; [now left | now right].
  - intros Hm E. unfold _meets_minimum_data_requirements in Hm.
    rewrite forallb_forall in Hm.
    specialize (Hm "release_date" ltac:(simpl; tauto)).
    unfold get in Hm. cbn [dict_get String.eqb Ascii.eqb Bool.eqb] in Hm.
    rewrite E in Hm. discriminate.
  - intros Hne. destruct Hd as [E | (E & y & Hy & _)]; [contradiction |].
    apply dated_nonblank in Hy.
    unfold _meets_minimum_data_requirements, get.
    cbn [forallb dict_get String.eqb Ascii.eqb Bool.eqb].
    rewrite E.
    apply String.eqb_neq in Ht, Ho, Hp, Hy.
    now rewrite Ht, Ho, Hp, Hy.
Qed.

(** The record of a movie as the cache stores it. *)
Lemma normalized_record_is_well_formed_witness :
  exists id title rating,
    dict_get (@_validate_and_normalize_movie_data Cases.runtime
                Cases.fight_club) "id" = Some (PInt id)
    /\ dict_get (@_validate_and_normalize_movie_data Cases.runtime
                   Cases.fight_club) "title" = Some (PStr title)
    /\ strip title <> ""
    /\ dict_get (@_validate_and_normalize_movie_data Cases.runtime
                   Cases.fight_club) "vote_average" = Some (PFloat rating)
    /\ 0 <= rating /\ rating <= 10.
Proof.
  destruct (@normalized_record_is_well_formed Cases.runtime Cases.fight_club
              eq_refl eq_refl)
    as (id & title & overview & poster & rating & date & H).
  cbv zeta in H.
  destruct H as (Hid & Ht & Htn & _ & _ & _ & _ & Hr & Hr0 & Hr1 & _).
  exists id, title, rating.
  split; [exact Hid |]. split; [exact Ht |]. split; [exact Htn |].
  split; [exact Hr |]. split; [exact Hr0 | exact Hr1].
Defined.

(** *** Deduplication of the cached records *)

Section Dedup.
Context {RT : Runtime}.

Lemma covers_refl (l : list dict) : covers l l.
Proof. intros x Hx. exists x. auto. Qed.

Lemma covers_trans (a b c : list dict) : covers a b -> covers b c -> covers a c.
Proof.
  intros Hab Hbc x Hx.
  destruct (Hbc x Hx) as (y & Hy & Ey & Ly).
  destruct (Hab y Hy) as (z & Hz & Ez & Lz).
  exists z. repeat split; [exact Hz | congruence | lia].
Qed.

Lemma add_unique_ids (m : dict) (u : list dict) :
  map dedup_id (add_unique m u)
  = if mem_str (dedup_id m) (map dedup_id u) then map dedup_id u
    else (map dedup_id u ++ [dedup_id m])%list.
Proof.
  induction u as [| e u IH]; [reflexivity |].
  simpl. rewrite (String.eqb_sym (dedup_id m) (dedup_id e)).
  destruct (String.eqb (dedup_id e) (dedup_id m)) eqn:E.
  - apply String.eqb_eq in E. simpl.
    destruct (completeness e <? completeness m)%nat; simpl; congruence.
  - simpl. rewrite IH. unfold mem_str.
    destruct (existsb _ _); reflexivity.
Qed.

Lemma add_unique_NoDup (m : dict) (u : list dict) :
  NoDup (map dedup_id u) -> NoDup (map dedup_id (add_unique m u)).
Proof.
  intros H. rewrite add_unique_ids.
  destruct (mem_str (dedup_id m) (map dedup_id u)) eqn:E; [exact H |].
  apply NoDup_app; [exact H | constructor; [tauto | constructor] |].
  intros x Hx [<- | []].
  apply mem_str_In in Hx. congruence.
Qed.

Lemma add_unique_covers (m : dict) (u : list dict) :
  covers (add_unique m u) (m :: u).
Proof.
  induction u as [| e u IH].
  - simpl. apply covers_refl.
  - simpl. destruct (String.eqb (dedup_id e) (dedup_id m)) eqn:E.
    + apply String.eqb_eq in E.
      destruct (completeness e <? completeness m)%nat eqn:L.
      * apply Nat.ltb_lt in L. intros x [Hx | [Hx | Hx]]; subst.
        -- exists x. simpl. auto.
        -- exists m. simpl. repeat split; [auto | congruence | lia].
        -- exists x. simpl. auto.
      * apply Nat.ltb_ge in L. intros x [Hx | [Hx | Hx]]; subst.
        -- exists e. simpl. repeat split; [auto | congruence | lia].
        -- exists x. simpl. auto.
        -- exists x. simpl. auto.
    + intros x [Hx | [Hx | Hx]].
      * destruct (IH x (or_introl Hx)) as (x' & Hx' & R).
        exists x'. simpl. auto.
      * subst. exists x. simpl. auto.
      * destruct (IH x (or_intror Hx)) as (x' & Hx' & R).
        exists x'. simpl. auto.
Qed.

Lemma deduplicate_fold (movies acc : list dict) :
  NoDup (map dedup_id acc) ->
  let u := fold_left (fun unique_movies movie =>
                        if String.eqb (dedup_id movie) "" then unique_movies
                        else add_unique movie unique_movies) movies acc in
  NoDup (map dedup_id u)
  /\ covers u acc
  /\ (forall m, In m movies -> dedup_id m <> "" ->
        exists m', In m' u /\ dedup_id m' = dedup_id m
                   /\ (completeness m <= completeness m')%nat).
Proof.
  revert acc. induction movies as [| m movies IH]; intros acc Hacc; simpl.
  - split; [exact Hacc |]. split; [apply covers_refl | contradiction].
  - destruct (String.eqb (dedup_id m) "") eqn:E.
    + destruct (IH acc Hacc) as (H1 & H2 & H3).
      split; [exact H1 |]. split; [exact H2 |].
      intros x [Hx | Hx] Hne; [| auto].
      subst. apply String.eqb_eq in E. contradiction.
    + destruct (IH (add_unique m acc) (@add_unique_NoDup m acc Hacc))
        as (H1 & H2 & H3).
      assert (Hc : covers (fold_left
                 (fun unique_movies movie =>
                    if String.eqb (dedup_id movie) "" then unique_movies
                    else add_unique movie unique_movies)
                 movies (add_unique m acc)) (m :: acc)).
      { eapply covers_trans; [exact H2 | apply add_unique_covers]. }
      split; [exact H1 |]. split.
      * intros x Hx. apply Hc. now right.
      * intros x [Hx | Hx] Hne; [| auto]. apply Hc. now left.
Qed.

(** X14.  [_deduplicate_movies] returns records of its input only, no
    two of them under the same id and none under the empty id; and every
    input record with an id is represented in the result by a record of
    the same id that has at least as many filled fields. *)
Theorem deduplicated_movies_are_unique_and_complete (movies : list dict) :
  NoDup (map dedup_id (_deduplicate_movies movies))
  /\ (forall m, In m (_deduplicate_movies movies) ->
        In m movies /\ dedup_id m <> "")
  /\ (forall m, In m movies -> dedup_id m <> "" ->
        exists m', In m' (_deduplicate_movies movies)
                   /\ dedup_id m' = dedup_id m
                   /\ (completeness m <= completeness m')%nat).
Proof.
  destruct (@deduplicate_fold movies [] (NoDup_nil _)) as (H1 & _ & H3).
  split; [exact H1 |]. split; [| exact H3].
  intros m Hm. split; [now apply deduplicate_In |].
  unfold _deduplicate_movies in Hm. revert Hm.
  apply (@fold_left_inv _ _
           (fun u : list dict => In m u -> dedup_id m <> "")).
  - contradiction.
  - intros u x _ Hu. destruct (String.eqb (dedup_id x) "") eqn:E; [exact Hu |].
    intros Hin. apply add_unique_In in Hin. destruct Hin as [-> | Hin].
    + now apply String.eqb_neq.
    + auto.
Qed.

End Dedup.

(** Two records of the movie 550, the second one with a title, and a
    record without an id. *)
Lemma deduplicated_movies_are_unique_and_complete_witness :
  exists m',
    In m' (@_deduplicate_movies Cases.runtime
             [ [("id", PInt 550)];
               [("id", PInt 550); ("title", PStr "Fight Club")];
               [("title", PStr "Untitled")] ])
    /\ @dedup_id Cases.runtime m' = @dedup_id Cases.runtime [("id", PInt 550)]
    /\ (completeness [("id", PInt 550)] <= completeness m')%nat.
Proof.
  apply (proj2 (proj2 (@deduplicated_movies_are_unique_and_complete
                         Cases.runtime
                         [ [("id", PInt 550)];
                           [("id", PInt 550); ("title", PStr "Fight Club")];
                           [("title", PStr "Untitled")] ]))).
  - simpl. left. reflexivity.
  - vm_compute. discriminate.
Defined.

(** *** The keys of the cache *)

Lemma set_add_length (x : string) (l : list string) :
  (length (set_add x l) <= S (length l))%nat.
Proof.
  unfold set_add. destruct (mem_str x l); [lia |].
  rewrite length_app. simpl. lia.
Qed.

Lemma fold_set_add_length (l acc : list string) :
  (length (fold_left (fun acc x => set_add x acc) l acc)
   <= length acc + length l)%nat.
Proof.
  revert acc. induction l as [| x l IH]; intros acc; simpl; [lia |].
  specialize (IH (set_add x acc)). pose proof (set_add_length x acc). lia.
Qed.

Lemma set_of_list_length_le (l : list string) :
  (length (set_of_list l) <= length l)%nat.
Proof. unfold set_of_list. apply (fold_set_add_length l []). Qed.

Lemma flat_map_length_le {A B} (f : A -> list B) (n : nat) (l : list A) :
  (forall x, length (f x) <= n)%nat ->
  (length (flat_map f l) <= n * length l)%nat.
Proof.
  intros H. induction l as [| x l IH]; simpl; [lia |].
  rewrite length_app. specialize (H x). lia.
Qed.

Lemma firstn_two_length {A} (l : list A) : (length (firstn 2 l) <= 2)%nat.
Proof. rewrite length_firstn. lia. Qed.

(** X15.  [_build_cache_key_strategy] never repeats a key, always
    includes the seven general keys, and so returns between 7 and 19
    keys. *)
Theorem cache_keys_are_unique_and_general {RT : Runtime}
        (filters : ExtractedFilters) :
  let keys := _build_cache_key_strategy filters in
  NoDup keys
  /\ incl [ "movies_all_popular"; "movies_top_rated"; "movies_trending";
            "movies_all_action"; "movies_all_comedy"; "movies_all_drama";
            "movies_general" ] keys
  /\ (7 <= length keys <= 19)%nat.
Proof.
  cbv zeta. unfold _build_cache_key_strategy.
  set (genre_keys := flat_map _ (firstn 2 (genres filters))).
  set (year_keys := match year_range filters with None => [] | Some _ => _ end).
  set (keyword_keys := flat_map _ (firstn 2 (keywords filters))).
  set (general := [ "movies_all_popular"; "movies_top_rated";
                    "movies_trending"; "movies_all_action";
                    "movies_all_comedy"; "movies_all_drama";
                    "movies_general" ]).
  assert (Hincl : incl general
                       (set_of_list (genre_keys ++ year_keys ++ keyword_keys
                                     ++ general)%list)).
  { intros k Hk. apply set_of_list_In. repeat (apply in_or_app; right).
    exact Hk. }
  split; [apply set_of_list_NoDup |]. split; [exact Hincl |]. split.
  - change 7%nat with (length general).
    apply NoDup_incl_length; [| exact Hincl].
    subst general. repeat constructor; simpl; intuition discriminate.
  - etransitivity; [apply set_of_list_length_le |].
    rewrite !length_app.
    assert (Hg : (length genre_keys <= 3 * 2)%nat).
    { subst genre_keys. etransitivity.
      - apply flat_map_length_le with (n := 3%nat). intros g.
        destruct (lookup _ _); [| simpl; lia].
        destruct (String.eqb _ _); simpl; lia.
      - pose proof (firstn_two_length (genres filters)). lia. }
    assert (Hk : (length keyword_keys <= 2 * 2)%nat).
    { subst keyword_keys. etransitivity.
      - apply flat_map_length_le with (n := 2%nat). intros k.
        repeat (destruct (_ || _); [simpl; lia |]). simpl. lia.
      - pose proof (firstn_two_length (keywords filters)). lia. }
    assert (Hy : (length year_keys <= 2)%nat).
    { subst year_keys. destruct (year_range filters); [| simpl; lia].
      repeat (destruct (_ && _); [simpl; lia |]). simpl. lia. }
    subst general. simpl length. lia.
Qed.

(** *** The retries of the remote search *)

(** X16.  [_invoke_movie_lambda_with_retry] asks the remote search at
    most three times with the same payload.  A first answer that is not
    empty is returned at once; an error surfaces only when it is the
    error of the third attempt; and a list that is returned and not empty
    is the answer of one of the three attempts. *)
Theorem retry_returns_an_answer_or_the_last_error
        {RT : Runtime} {CO : Collaborators}
        (filters : ExtractedFilters) (limit : Z) :
  let payload := _transform_filters_to_lambda_payload filters limit in
  (forall m ms, _invoke_movie_lambda payload 0 = Ok (m :: ms) ->
     _invoke_movie_lambda_with_retry filters limit = Ok (m :: ms))
  /\ (forall e, _invoke_movie_lambda_with_retry filters limit = Raise e ->
        _invoke_movie_lambda payload 2 = Raise e)
  /\ (forall m ms,
        _invoke_movie_lambda_with_retry filters limit = Ok (m :: ms) ->
        exists attempt, (attempt <= 2)%nat
          /\ _invoke_movie_lambda payload attempt = Ok (m :: ms)).
Proof.
  cbv zeta. unfold _invoke_movie_lambda_with_retry, max_retries.
  set (payload := _transform_filters_to_lambda_payload filters limit).
  simpl retry_loop. split; [| split].
  - intros m ms ->. reflexivity.
  - intros e.
    destruct (_invoke_movie_lambda payload 0) as [[| ? ?] | ?];
      try discriminate;
      destruct (_invoke_movie_lambda payload 1) as [[| ? ?] | ?];
      try discriminate;
      destruct (_invoke_movie_lambda payload 2) as [[| ? ?] | ?];
      try discriminate; congruence.
  - intros m ms.
    destruct (_invoke_movie_lambda payload 0) as [[| ? ?] | ?] eqn:E0;
      [| intros <-; exists 0%nat; split; [lia | exact E0] |];
      (destruct (_invoke_movie_lambda payload 1) as [[| ? ?] | ?] eqn:E1;
       [| intros <-; exists 1%nat; split; [lia | exact E1] |]);
      (destruct (_invoke_movie_lambda payload 2) as [[| ? ?] | ?] eqn:E2;
       [| intros <-; exists 2%nat; split; [lia | exact E2] |]);
      discriminate.
Qed.

(** The first attempt fails and the second one answers. *)
Lemma retry_returns_an_answer_or_the_last_error_witness :
  exists attempt, (attempt <= 2)%nat
    /\ @_invoke_movie_lambda Scenes.flaky
         (_transform_filters_to_lambda_payload Cases.no_filters 5) attempt
       = Ok [Cases.fight_club].
Proof.
  apply (proj2 (proj2 (@retry_returns_an_answer_or_the_last_error
                         Cases.runtime Scenes.flaky Cases.no_filters 5))).
  reflexivity.
Defined.

(** *** The genre ids that go to the remote search *)






(** *** The other methods of the genre mapper *)

Lemma filter_all {A} (p : A -> bool) (l : list A) :
  (forall x, In x l -> p x = true) -> filter p l = l.
Proof.
  induction l as [| x l IH]; simpl; intros H; [reflexivity |].
  rewrite (H x) by now left. f_equal. apply IH. intros y Hy. apply H. now right.
Qed.

Lemma valid_id_iff (g : string) :
  mem_str g (set_of_list (map snd GenreMapper.TMDB_GENRE_MAP)) = true
  <-> In g (map snd GenreMapper.TMDB_GENRE_MAP).
Proof. rewrite mem_str_In. apply set_of_list_In. Qed.

(** Every id that the mapper reads in a text is an id of the table. *)
Lemma extracted_genres_in_table (text : string) (g : string) :
  In g (GenreMapper.extract_genres_from_text text) ->
  In g (map snd GenreMapper.TMDB_GENRE_MAP).
Proof.
  assert (Hpat : forall pg, In pg GenreMapper.pattern_mappings ->
                   forallb (fun g => mem_str g (map snd GenreMapper.TMDB_GENRE_MAP))
                           (snd pg) = true).
  { apply (proj1 (forallb_forall
                    (fun pg => forallb
                       (fun g => mem_str g (map snd GenreMapper.TMDB_GENRE_MAP))
                       (snd pg)) _)).
    vm_compute. reflexivity. }
  unfold GenreMapper.extract_genres_from_text.
  apply (@fold_left_inv _ _
           (fun found : list string =>
              In g found -> In g (map snd GenreMapper.TMDB_GENRE_MAP))).
  - apply (@fold_left_inv _ _
             (fun found : list string =>
                In g found -> In g (map snd GenreMapper.TMDB_GENRE_MAP))).
    + contradiction.
    + intros acc kv Hkv Hacc. case_if; [| exact Hacc].
      intros H. apply set_add_In in H. destruct H as [-> | H]; [| auto].
      now apply in_map.
  - intros acc pg Hpg Hacc. case_if; [| exact Hacc].
    intros H. apply fold_set_add_In in H. destruct H as [H | H]; [auto |].
    specialize (Hpat pg Hpg). rewrite forallb_forall in Hpat.
    apply mem_str_In. auto.
Qed.

(** X18.  [GenreMapper.validate_genre_ids] removes the ids that are not
    in the genre table and nothing else: a list of table ids comes back
    as it is, in its order and with its repetitions; the result for two
    lists put together is the two results put together; an id that is not
    in the table is dropped.  So validating twice changes nothing, and
    every list that [extract_genres_from_text] reads in a text passes
    unchanged. *)
Theorem validated_genre_ids_are_table_ids (genre_ids more : list string)
        (text : string) :
  (forall g, In g (GenreTools.validate_genre_ids genre_ids)
             <-> In g genre_ids /\ In g (map snd GenreMapper.TMDB_GENRE_MAP))
  /\ ((forall g, In g genre_ids -> In g (map snd GenreMapper.TMDB_GENRE_MAP)) ->
      GenreTools.validate_genre_ids genre_ids = genre_ids)
  /\ GenreTools.validate_genre_ids (genre_ids ++ more)
     = (GenreTools.validate_genre_ids genre_ids
        ++ GenreTools.validate_genre_ids more)%list
  /\ (forall g, ~ In g (map snd GenreMapper.TMDB_GENRE_MAP) ->
                GenreTools.validate_genre_ids [g] = [])
  /\ GenreTools.validate_genre_ids (GenreTools.validate_genre_ids genre_ids)
     = GenreTools.validate_genre_ids genre_ids
  /\ GenreTools.validate_genre_ids (GenreMapper.extract_genres_from_text text)
     = GenreMapper.extract_genres_from_text text.
Proof.
  unfold GenreTools.validate_genre_ids.
  split; [| split; [| split; [| split; [| split]]]].
  - intros g. rewrite filter_In, valid_id_iff. tauto.
  - intros H. apply filter_all. intros g Hg. apply valid_id_iff. auto.
  - apply filter_app.
  - intros g Hg. cbn [filter].
    destruct (mem_str g (set_of_list (map snd GenreMapper.TMDB_GENRE_MAP)))
      eqn:E; [| reflexivity].
    apply valid_id_iff in E. contradiction.
  - apply filter_all. intros g Hg. apply filter_In in Hg. tauto.
  - apply filter_all. intros g Hg. apply valid_id_iff.
    eapply extracted_genres_in_table; eauto.
Qed.

(** A list with a repeated id and an unknown id. *)
Lemma validated_genre_ids_are_table_ids_witness :
  GenreTools.validate_genre_ids (["28"; "35"; "28"] ++ ["7"])
  = ["28"; "35"; "28"].
Proof.
  destruct (validated_genre_ids_are_table_ids ["28"; "35"; "28"] ["7"] "")
    as (_ & Hsame & Happ & _).
  rewrite Happ, Hsame.
  - destruct (validated_genre_ids_are_table_ids [] [] "")
      as (_ & _ & _ & Hnone & _).
    rewrite (Hnone "7"); [reflexivity |].
    simpl. intuition discriminate.
  - intros g Hg. simpl in Hg. simpl.
    destruct Hg as [<- | [<- | [<- | []]]]; tauto.
Defined.

Lemma insert_desc_perm {A} (key : A -> Q) (x : A) (l : list A) :
  Permutation (insert_desc key x l) (x :: l).
Proof.
  induction l as [| y l IH]; simpl; [apply Permutation_refl |].
  destruct (Qle_bool (key y) (key x)); [apply Permutation_refl |].
  etransitivity; [apply perm_skip, IH | apply perm_swap].
Qed.

Lemma sort_desc_perm {A} (key : A -> Q) (l : list A) :
  Permutation (sort_desc key l) l.
Proof.
  induction l as [| x l IH]; simpl; [constructor |].
  etransitivity; [apply insert_desc_perm | now apply perm_skip].
Qed.

Lemma sorted_weaken {A} (R R' : A -> A -> Prop) (l : list A) :
  (forall a b, R a b -> R' a b) -> StronglySorted R l -> StronglySorted R' l.
Proof.
  intros H Hl. induction Hl as [| x l Hl IH Hx]; constructor; [exact IH |].
  eapply Forall_impl; [| exact Hx]. intros y. apply H.
Qed.

(** X19.  [GenreMapper.prioritize_genres] returns the genres it was
    given, each as often as before, in the order of their priority for
    the query: no genre stands before one of a higher score. *)
Theorem prioritized_genres_are_reordered (genre_ids : list string)
        (query : string) :
  Permutation (GenreTools.prioritize_genres genre_ids query) genre_ids
  /\ StronglySorted
       (fun a b => (GenreTools.priority_score (lower query) b
                    <= GenreTools.priority_score (lower query) a)%Z)
       (GenreTools.prioritize_genres genre_ids query).
Proof.
  unfold GenreTools.prioritize_genres.
  destruct genre_ids as [| g gs]; [split; constructor |].
  split; [apply sort_desc_perm |].
  eapply sorted_weaken; [| apply sort_desc_sorted].
  cbv beta. intros a b H. now rewrite Zle_Qle.
Qed.

Lemma complementary_fold_In (g : string) (primary acc : list string) :
  In g (fold_left
          (fun acc genre_id =>
             match lookup genre_id GenreTools.complementary_map with
             | Some l => fold_left (fun a g => set_add g a) l acc
             | None => acc
             end) primary acc)
  <-> In g acc
      \/ exists p l, In p primary
                     /\ lookup p GenreTools.complementary_map = Some l
                     /\ In g l.
Proof.
  revert acc. induction primary as [| p primary IH]; intros acc;
    cbn [fold_left In].
  - split; [auto | intros [H | (p & l & [] & _)]; exact H].
  - rewrite IH. destruct (lookup p GenreTools.complementary_map) as [l |] eqn:E.
    + rewrite fold_set_add_In. split.
      * intros [[H | H] | (p' & l' & Hp & Hl & Hg)]; [auto | |].
        -- right. exists p, l. auto.
        -- right. exists p', l'. auto.
      * intros [H | (p' & l' & [<- | Hp] & Hl & Hg)]; [auto | |].
        -- left. right. congruence.
        -- right. exists p', l'. auto.
    + split.
      * intros [H | (p' & l' & Hp & Hl & Hg)]; [auto |].
        right. exists p', l'. auto.
      * intros [H | (p' & l' & [<- | Hp] & Hl & Hg)]; [auto | congruence |].
        right. exists p', l'. auto.
Qed.

Lemma complementary_fold_NoDup (primary acc : list string) :
  NoDup acc ->
  NoDup (fold_left
           (fun acc genre_id =>
              match lookup genre_id GenreTools.complementary_map with
              | Some l => fold_left (fun a g => set_add g a) l acc
              | None => acc
              end) primary acc).
Proof.
  revert acc. induction primary as [| p primary IH]; intros acc H;
    cbn [fold_left]; [exact H |].
  apply IH. destruct (lookup p GenreTools.complementary_map); [| exact H].
  now apply fold_set_add_NoDup.
Qed.

(** X20.  [GenreMapper.get_complementary_genres] answers, without
    repetition, exactly the genres that the table of complements gives
    for one of the primary genres and that are not primary themselves. *)
Theorem complementary_genres_are_not_primary (primary_genres : list string) :
  NoDup (GenreTools.get_complementary_genres primary_genres)
  /\ forall g,
       In g (GenreTools.get_complementary_genres primary_genres)
       <-> ~ In g primary_genres
           /\ exists p l, In p primary_genres
                          /\ lookup p GenreTools.complementary_map = Some l
                          /\ In g l.
Proof.
  unfold GenreTools.get_complementary_genres. split.
  - apply NoDup_filter, complementary_fold_NoDup. constructor.
  - intros g. rewrite filter_In, complementary_fold_In, negb_true_iff.
    rewrite <- not_true_iff_false, mem_str_In, set_of_list_In.
    simpl. tauto.
Qed.

Lemma assoc_none (k : string) (l : list (string * string)) :
  ~ In k (map fst l) -> GenreMapper.assoc k l = None.
Proof.
  induction l as [| [k' v] l IH]; simpl; [reflexivity |].
  intros H. destruct (String.eqb k k') eqn:E.
  - apply String.eqb_eq in E. subst. tauto.
  - apply IH. tauto.
Qed.

(** X21.  The name that [GenreMapper.get_genre_name] gives for an id of
    the genre table leads [get_genre_id_by_name] back to that id; an id
    that is not in the table is its own name. *)
Theorem genre_name_round_trip (genre_id : string) :
  (In genre_id (map snd GenreMapper.TMDB_GENRE_MAP) ->
   GenreMapper.get_genre_id_by_name (GenreTools.get_genre_name genre_id)
   = Some genre_id)
  /\ (~ In genre_id (map snd GenreMapper.TMDB_GENRE_MAP) ->
      GenreTools.get_genre_name genre_id = genre_id).
Proof.
  split.
  - revert genre_id.
    apply (proj1 (Forall_forall _ _)).
    assert (H : forallb (fun id =>
                  match GenreMapper.get_genre_id_by_name
                          (GenreTools.get_genre_name id) with
                  | Some id' => String.eqb id' id
                  | None => false
                  end) (map snd GenreMapper.TMDB_GENRE_MAP) = true)
      by (vm_compute; reflexivity).
    rewrite forallb_forall in H. apply Forall_forall. intros id Hid.
    specialize (H id Hid).
    destruct (GenreMapper.get_genre_id_by_name _); [| discriminate].
    apply String.eqb_eq in H. now subst.
  - intros H. unfold GenreTools.get_genre_name.
    rewrite assoc_none; [reflexivity |].
    intros Hk. apply H.
    assert (Hs : forallb (fun k => mem_str k (map snd GenreMapper.TMDB_GENRE_MAP))
                         (map fst GenreTools.GENRE_ID_TO_NAME) = true)
      by (vm_compute; reflexivity).
    rewrite forallb_forall in Hs. apply mem_str_In. auto.
Qed.

(** The genre 35 is in the table, the genre 7 is not. *)
Lemma genre_name_round_trip_witness :
  GenreMapper.get_genre_id_by_name (GenreTools.get_genre_name "35") = Some "35"
  /\ GenreTools.get_genre_name "7" = "7".
Proof.
  split.
  - apply (proj1 (genre_name_round_trip "35")). simpl. tauto.
  - apply (proj2 (genre_name_round_trip "7")). simpl.
    intuition discriminate.
Defined.

(** *** The context of the user *)

Lemma NoDup_firstn {A} (n : nat) (l : list A) : NoDup l -> NoDup (firstn n l).
Proof.
  intros H. revert n. induction H as [| x l Hx Hl IH]; intros [| n]; simpl;
    try constructor.
  - intros Hin. apply Hx. eapply In_firstn; eauto.
  - apply IH.
Qed.

(** X22.  After [UserContext.add_recent_movie] the movie is excluded
    from later recommendations ([should_exclude_movie] and
    [get_exclude_list]); no other movie becomes excluded, the list of
    recent movies has no more than 20 entries if it had no more before,
    and it stays free of repetitions. *)
Theorem added_movie_is_excluded (u : UserContext) (movie_id : string) :
  let u' := add_recent_movie u movie_id in
  should_exclude_movie u' movie_id = true
  /\ In movie_id (get_exclude_list u')
  /\ (forall other, should_exclude_movie u' other = true ->
        other = movie_id \/ should_exclude_movie u other = true)
  /\ ((length (recent_movies u) <= 20)%nat ->
      (length (recent_movies u') <= 20)%nat)
  /\ (NoDup (recent_movies u) -> NoDup (recent_movies u'))
  /\ room_voted_movies u' = room_voted_movies u.
Proof.
  cbv zeta. unfold add_recent_movie, should_exclude_movie, get_exclude_list.
  destruct (mem_str movie_id (recent_movies u)) eqn:E;
    cbn [negb recent_movies room_voted_movies].
  - rewrite E. repeat split; auto.
    apply set_of_list_In, in_or_app. left. now apply mem_str_In.
  - change (firstn 20 (movie_id :: recent_movies u))
      with (movie_id :: firstn 19 (recent_movies u)).
    assert (Hhead : mem_str movie_id
                      (movie_id :: firstn 19 (recent_movies u)) = true).
    { apply mem_str_In. now left. }
    rewrite Hhead. repeat split.
    + apply set_of_list_In. now left.
    + intros other H. apply orb_prop in H. destruct H as [H | H].
      * apply mem_str_In in H. destruct H as [H | H]; [now left |].
        right. apply orb_true_iff. left. apply mem_str_In.
        eapply In_firstn; eauto.
      * right. apply orb_true_iff. now right.
    + intros _. cbn [length]. rewrite length_firstn. lia.
    + intros H. constructor.
      * intros Hin. apply In_firstn in Hin. apply mem_str_In in Hin.
        congruence.
      * now apply NoDup_firstn.
Qed.

(** *** The session of the chat *)

Lemma last_n_suffix {A} (n : nat) (l : list A) :
  exists dropped, l = (dropped ++ Chat.last_n n l)%list.
Proof.
  unfold Chat.last_n. exists (firstn (length l - n) l).
  symmetry. apply firstn_skipn.
Qed.

(** X23.  [ChatSession.add_message] leaves at most 10 messages in the
    session: the messages it had and the new one, the oldest ones dropped
    from the front, and the new message last; the time of the update is
    the reading of the clock. *)
Theorem session_keeps_the_last_ten_messages
        (utcnow : Chat.datetime) (s : Chat.ChatSession)
        (message : Chat.ChatMessage) :
  let s' := Chat.add_message utcnow s message in
  (length (Chat.messages s') <= 10)%nat
  /\ (exists dropped,
        (Chat.messages s ++ [message] = dropped ++ Chat.messages s')%list
        /\ (dropped = [] \/ length (Chat.messages s') = 10%nat))
  /\ last (Chat.messages s') message = message
  /\ In message (Chat.messages s')
  /\ Chat.updated_at s' = utcnow
  /\ Chat.session_id s' = Chat.session_id s
  /\ Chat.user_id s' = Chat.user_id s.
Proof.
  cbv zeta. unfold Chat.add_message. cbn [Chat.messages Chat.updated_at
    Chat.session_id Chat.user_id].
  set (all := (Chat.messages s ++ [message])%list).
  assert (Hlen : length all = S (length (Chat.messages s))).
  { subst all. rewrite length_app. simpl. lia. }
  destruct (10 <? length all)%nat eqn:E.
  - apply Nat.ltb_lt in E.
    assert (Hl : length (Chat.last_n 10 all) = 10%nat).
    { unfold Chat.last_n. rewrite length_skipn. lia. }
    assert (Hs : Chat.last_n 10 all
                 = (skipn (length all - 10) (Chat.messages s) ++ [message])%list).
    { unfold Chat.last_n. subst all. rewrite skipn_app.
      replace (length (Chat.messages s ++ [message]) - 10
               - length (Chat.messages s))%nat with 0%nat
        by (rewrite length_app; simpl; lia).
      reflexivity. }
    repeat split.
    + lia.
    + destruct (last_n_suffix 10 all) as (dropped & Hd).
      exists dropped. split; [exact Hd | now right].
    + rewrite Hs. apply last_last.
    + rewrite Hs. apply in_or_app. right. now left.
  - apply Nat.ltb_ge in E. repeat split.
    + exact E.
    + exists []. split; [reflexivity | now left].
    + subst all. apply last_last.
    + subst all. apply in_or_app. right. now left.
Qed.

Lemma recent_loop_In (limit : Z) (reversed : list Chat.ChatMessage)
      (movies : list string) (x : string) :
  In x (Chat.recent_loop limit reversed movies) ->
  In x movies
  \/ exists message l, In message reversed
                       /\ Chat.recommendations message = Some l /\ In x l.
Proof.
  revert movies. induction reversed as [| m reversed IH]; intros movies;
    simpl; [auto |].
  destruct (Chat.recommendations m) as [[| r rs] |] eqn:E.
  - intros H. destruct (IH _ H) as [H' | (m' & l & Hm & Hl & Hx)]; [auto |].
    right. exists m', l. auto.
  - assert (Hadd : In x (movies ++ r :: rs)%list ->
                   In x movies
                   \/ exists message l,
                        (m = message \/ In message reversed)
                        /\ Chat.recommendations message = Some l /\ In x l).
    { intros H. apply in_app_or in H. destruct H as [H | H]; [auto |].
      right. exists m, (r :: rs). auto. }
    destruct (limit <=? _)%Z; [exact Hadd |].
    intros H. destruct (IH _ H) as [H' | (m' & l & Hm & Hl & Hx)]; [auto |].
    right. exists m', l. auto.
  - intros H. destruct (IH _ H) as [H' | (m' & l & Hm & Hl & Hx)]; [auto |].
    right. exists m', l. auto.
Qed.

(** X24.  [ChatSession.get_recent_movies] answers movies that some
    message of the session recommended, none of them twice, and no more
    than the limit. *)
Theorem recent_movies_come_from_the_session
        (s : Chat.ChatSession) (limit : Z) :
  (0 <= limit)%Z ->
  NoDup (Chat.get_recent_movies s limit)
  /\ (Z.of_nat (length (Chat.get_recent_movies s limit)) <= limit)%Z
  /\ forall x, In x (Chat.get_recent_movies s limit) ->
       exists message l, In message (Chat.messages s)
                         /\ Chat.recommendations message = Some l /\ In x l.
Proof.
  intros Hl. unfold Chat.get_recent_movies. split; [| split].
  - unfold slice. destruct (0 <=? limit)%Z;
      apply NoDup_firstn, set_of_list_NoDup.
  - now apply slice_length.
  - intros x Hx. apply slice_In in Hx.
    apply (proj1 (set_of_list_In _ _)) in Hx.
    apply recent_loop_In in Hx.
    destruct Hx as [[] | (m & l & Hm & Hr & Hx)].
    exists m, l. split; [now apply in_rev | auto].
Qed.

(** A session with one answer that recommended two movies. *)
Lemma recent_movies_come_from_the_session_witness :
  let s := Chat.mkChatSession "s-1" "user-1"
             [Chat.mkChatMessage "m-1" "trini_response" "Dos ideas." None
                                 (Some ["550"; "13"]) 0%Z 0.9]
             [] 0%Z 0%Z 0%Z in
  NoDup (Chat.get_recent_movies s 10)
  /\ (Z.of_nat (length (Chat.get_recent_movies s 10)) <= 10)%Z
  /\ forall x, In x (Chat.get_recent_movies s 10) ->
       exists message l, In message (Chat.messages s)
                         /\ Chat.recommendations message = Some l /\ In x l.
Proof.
  cbv zeta. apply recent_movies_come_from_the_session. lia.
Defined.

(** *** The rate limiter *)

Section Limiter.
Import RateLimiter.

Lemma requests_of_set_same (user_id : string) (v : list Q)
      (d : list (string * list Q)) :
  requests_of user_id (set_requests user_id v d) = Some v.
Proof.
  induction d as [| [k v'] d IH]; simpl.
  - now rewrite String.eqb_refl.
  - destruct (String.eqb user_id k) eqn:E; simpl; rewrite E; auto.
Qed.

Lemma requests_of_set_other (user_id other : string) (v : list Q)
      (d : list (string * list Q)) :
  other <> user_id ->
  requests_of other (set_requests user_id v d) = requests_of other d.
Proof.
  intros Hne. apply String.eqb_neq in Hne.
  induction d as [| [k v'] d IH]; simpl.
  - now rewrite Hne.
  - destruct (String.eqb user_id k) eqn:E; simpl.
    + apply String.eqb_eq in E. subst k. now rewrite Hne.
    + now rewrite IH.
Qed.

Lemma filter_twice {A} (p : A -> bool) (l : list A) :
  filter p (filter p l) = filter p l.
Proof.
  apply filter_all. intros x Hx. apply filter_In in Hx. tauto.
Qed.

Lemma in_window_now (rl : t) (current_time : Q) :
  (0 < window_seconds rl)%Z ->
  Qlt_bool (current_time - current_time) (inject_Z (window_seconds rl)) = true.
Proof.
  intros Hw. qcase (current_time - current_time) (inject_Z (window_seconds rl));
    [reflexivity |].
  assert (Hq : 0 < inject_Z (window_seconds rl))
    by (change 0 with (inject_Z 0); now rewrite <- Zlt_Qlt).
  lra.
Qed.

(** X25.  [RateLimiter.is_rate_limited] refuses a request exactly when
    [get_user_request_count] has reached [max_requests]; a request that
    is let through raises the count of the user by one and a refused one
    leaves it as it is; the histories of the other users and the settings
    do not change. *)
Theorem limiter_decides_by_the_request_count
        (current_time : Q) (rl : t) (user_id : string) :
  (0 < window_seconds rl)%Z ->
  let count := get_user_request_count current_time rl user_id in
  let limited := fst (is_rate_limited current_time rl user_id) in
  let rl' := snd (is_rate_limited current_time rl user_id) in
  limited = (max_requests rl <=? Z.of_nat count)%Z
  /\ get_user_request_count current_time rl' user_id
     = (if limited then count else S count)
  /\ (forall other, other <> user_id ->
        requests_of other (user_requests rl')
        = requests_of other (user_requests rl))
  /\ max_requests rl' = max_requests rl
  /\ window_seconds rl' = window_seconds rl.
Proof.
  intros Hw. cbv zeta. unfold is_rate_limited, get_user_request_count.
  set (stored := match requests_of user_id (user_requests rl) with
                 | Some l => l
                 | None => []
                 end).
  assert (Hcount : match requests_of user_id (user_requests rl) with
                   | Some l => length (in_window rl current_time l)
                   | None => 0%nat
                   end = length (in_window rl current_time stored)).
  { subst stored. destruct (requests_of user_id (user_requests rl));
      reflexivity. }
  rewrite Hcount.
  destruct (max_requests rl <=? Z.of_nat (length (in_window rl current_time stored)))%Z
    eqn:E; cbn [fst snd user_requests max_requests window_seconds].
  - rewrite requests_of_set_same. unfold in_window at 1.
    cbn [window_seconds]. fold (in_window rl current_time stored).
    unfold in_window. rewrite filter_twice. repeat split.
    intros other Hne. now apply requests_of_set_other.
  - rewrite requests_of_set_same. unfold in_window at 1.
    cbn [window_seconds]. rewrite filter_app. cbn [filter].
    rewrite (in_window_now rl current_time Hw).
    fold (in_window rl current_time stored).
    unfold in_window at 1. rewrite filter_twice.
    fold (in_window rl current_time stored).
    rewrite length_app. cbn [length]. repeat split; [lia |].
    intros other Hne. now apply requests_of_set_other.
Qed.

(** Five requests a minute: the sixth request of the minute is refused. *)
Lemma limiter_decides_by_the_request_count_witness :
  let rl := mkRateLimiter 5 60 [("user-1", [1; 2; 3; 4; 5])] in
  fst (is_rate_limited 6 rl "user-1")
  = (5 <=? Z.of_nat (get_user_request_count 6 rl "user-1"))%Z
  /\ get_user_request_count 6 (snd (is_rate_limited 6 rl "user-1")) "user-1"
     = (if fst (is_rate_limited 6 rl "user-1")
        then get_user_request_count 6 rl "user-1"
        else S (get_user_request_count 6 rl "user-1"))
  /\ (forall other, other <> "user-1" ->
        requests_of other
          (user_requests (snd (is_rate_limited 6 rl "user-1")))
        = requests_of other (user_requests rl))
  /\ max_requests (snd (is_rate_limited 6 rl "user-1")) = max_requests rl
  /\ window_seconds (snd (is_rate_limited 6 rl "user-1")) = window_seconds rl.
Proof.
  cbv zeta.
  apply (@limiter_decides_by_the_request_count 6
           (mkRateLimiter 5 60 [("user-1", [1; 2; 3; 4; 5])]) "user-1").
  simpl. lia.
Defined.

Lemma step_settings (current_time : Q) (rl : t) (user_id : string) :
  max_requests (snd (is_rate_limited current_time rl user_id))
  = max_requests rl
  /\ window_seconds (snd (is_rate_limited current_time rl user_id))
     = window_seconds rl.
Proof.
  unfold is_rate_limited. destruct (_ <=? _)%Z; split; reflexivity.
Qed.

(** The record of a user after one call. *)
Lemma step_history (current_time : Q) (rl : t) (user_id u : string) :
  history_of (snd (is_rate_limited current_time rl user_id)) u
  = if String.eqb u user_id
    then (in_window rl current_time (history_of rl user_id)
          ++ (if fst (is_rate_limited current_time rl user_id) then []
              else [current_time]))%list
    else history_of rl u.
Proof.
  unfold is_rate_limited, history_of.
  destruct (String.eqb u user_id) eqn:Eu.
  - apply String.eqb_eq in Eu. subst u.
    destruct (_ <=? _)%Z; cbn [fst snd user_requests];
      rewrite requests_of_set_same; [now rewrite app_nil_r | reflexivity].
  - apply String.eqb_neq in Eu.
    destruct (_ <=? _)%Z; cbn [fst snd user_requests];
      now rewrite requests_of_set_other.
Qed.

Lemma step_within_limit (current_time : Q) (rl : t) (user_id : string) :
  within_limit rl ->
  within_limit (snd (is_rate_limited current_time rl user_id)).
Proof.
  intros H u. rewrite step_history.
  destruct (step_settings current_time rl user_id) as [-> _].
  destruct (String.eqb u user_id); [| apply H].
  specialize (H user_id). unfold is_rate_limited.
  fold (history_of rl user_id).
  pose proof (filter_length_le
                (fun req_time =>
                   Qlt_bool (current_time - req_time)
                            (inject_Z (window_seconds rl)))
                (history_of rl user_id)) as Hf.
  fold (in_window rl current_time (history_of rl user_id)) in Hf.
  destruct (max_requests rl
            <=? Z.of_nat (length (in_window rl current_time
                                            (history_of rl user_id))))%Z
    eqn:E; cbn [fst]; rewrite length_app; cbn [length].
  - lia.
  - apply Z.leb_gt in E. lia.
Qed.

Lemma serve_cons (rl : t) (user_id : string) (current_time : Q)
      (later : list (string * Q)) :
  serve rl ((user_id, current_time) :: later)
  = (fst (is_rate_limited current_time rl user_id)
       :: fst (serve (snd (is_rate_limited current_time rl user_id)) later),
     snd (serve (snd (is_rate_limited current_time rl user_id)) later)).
Proof.
  cbn [serve]. destruct (is_rate_limited current_time rl user_id) as [a b].
  cbn [fst snd]. destruct (serve b later). reflexivity.
Qed.

Lemma serve_settings (rl : t) (requests : list (string * Q)) :
  max_requests (snd (serve rl requests)) = max_requests rl
  /\ window_seconds (snd (serve rl requests)) = window_seconds rl.
Proof.
  revert rl. induction requests as [| [u c] later IH]; intros rl;
    [split; reflexivity |].
  rewrite serve_cons. cbn [snd].
  destruct (IH (snd (is_rate_limited c rl u))) as [-> ->].
  apply step_settings.
Qed.

Lemma serve_within_limit (rl : t) (requests : list (string * Q)) :
  within_limit rl -> within_limit (snd (serve rl requests)).
Proof.
  revert rl. induction requests as [| [u c] later IH]; intros rl H;
    [exact H |].
  rewrite serve_cons. cbn [snd]. apply IH, step_within_limit, H.
Qed.

Lemma filter_narrower {A} (p q : A -> bool) (l : list A) :
  (forall x, p x = true -> q x = true) ->
  filter p (filter q l) = filter p l.
Proof.
  intros H. induction l as [| x l IH]; simpl; [reflexivity |].
  destruct (q x) eqn:Eq; simpl.
  - now rewrite IH.
  - destruct (p x) eqn:Ep; [| exact IH].
    apply H in Ep. congruence.
Qed.

(** What is inside the window at a later time was inside it before. *)
Lemma window_later (w earlier later x : Q) :
  earlier <= later ->
  Qlt_bool (later - x) w = true -> Qlt_bool (earlier - x) w = true.
Proof.
  intros Hle H. qcase (earlier - x) w; [reflexivity |].
  revert H. qcase (later - x) w; [| discriminate]. lra.
Qed.

Lemma accepted_times_cons (u user_id : string) (current_time : Q)
      (limited : bool) (later : list (string * Q)) (answers : list bool) :
  accepted_times u ((user_id, current_time) :: later) (limited :: answers)
  = ((if String.eqb u user_id && negb limited then [current_time] else [])
     ++ accepted_times u later answers)%list.
Proof.
  unfold accepted_times. cbn [combine filter fst snd].
  destruct (String.eqb u user_id && negb limited); reflexivity.
Qed.

(** The record of a user at the end of a run holds, of the times inside
    the window, those it held at the start and those of the requests that
    were let through. *)
Lemma serve_history (now : Q) (u : string) (requests : list (string * Q)) :
  (forall r, In r requests -> snd r <= now) ->
  forall rl,
    in_window rl now (history_of (snd (serve rl requests)) u)
    = in_window rl now
        (history_of rl u ++ accepted_times u requests (fst (serve rl requests))).
Proof.
  induction requests as [| [user_id c] later IH]; intros Hnow rl.
  - cbn [serve fst snd]. unfold accepted_times. cbn [combine filter map].
    now rewrite app_nil_r.
  - rewrite serve_cons. cbn [fst snd]. rewrite accepted_times_cons.
    assert (Hlater : forall r, In r later -> snd r <= now)
      by (intros r Hr; apply Hnow; now right).
    assert (Hc : c <= now) by (apply (Hnow (user_id, c)); now left).
    specialize (IH Hlater (snd (is_rate_limited c rl user_id))).
    unfold in_window in IH |- *.
    destruct (step_settings c rl user_id) as [_ Ew]. rewrite Ew in IH.
    rewrite IH. rewrite step_history. rewrite !filter_app.
    rewrite app_assoc. f_equal.
    destruct (String.eqb u user_id) eqn:Eu; cbn [andb].
    + apply String.eqb_eq in Eu. subst u. rewrite filter_app.
      unfold in_window. rewrite filter_narrower.
      * destruct (fst (is_rate_limited c rl user_id)); reflexivity.
      * intros x. now apply window_later.
    + cbn [filter]. now rewrite app_nil_r.
Qed.

(** X26.  In a run of the limiter that starts without records, at any
    time that is not before the requests, the requests of a user that
    were let through and still are inside the window are no more than
    [max_requests]; and no user ever has more than [max_requests] times
    on record. *)
Theorem limiter_bounds_the_accepted_requests
        (max window : Z) (requests : list (string * Q)) (user_id : string)
        (now : Q) :
  (0 <= max)%Z ->
  (forall r, In r requests -> snd r <= now) ->
  let run := serve (init max window) requests in
  (Z.of_nat (length (in_window (snd run) now
                               (accepted_times user_id requests (fst run))))
   <= max)%Z
  /\ within_limit (snd run).
Proof.
  intros Hmax Hnow. cbv zeta.
  assert (Hinit : within_limit (init max window)).
  { intros u. unfold history_of, init. cbn [user_requests requests_of length
      max_requests]. simpl. exact Hmax. }
  pose proof (serve_within_limit requests Hinit) as Hend.
  split; [| exact Hend].
  pose proof (@serve_history now user_id requests Hnow (init max window))
    as Hh.
  change (history_of (init max window) user_id) with (@nil Q) in Hh.
  cbn [app] in Hh.
  destruct (serve_settings (init max window) requests) as [Em Ew].
  unfold in_window in Hh |- *. rewrite Ew. rewrite <- Hh.
  specialize (Hend user_id). rewrite Em in Hend.
  cbn [init max_requests] in Hend.
  pose proof (filter_length_le
                (fun req_time =>
                   Qlt_bool (now - req_time)
                            (inject_Z (window_seconds (init max window))))
                (history_of (snd (serve (init max window) requests))
                            user_id)) as Hf.
  lia.
Qed.

(** Three requests in three seconds where two are allowed a minute. *)
Lemma limiter_bounds_the_accepted_requests_witness :
  let requests := [("user-1", 1); ("user-1", 2); ("user-1", 3)] in
  let run := serve (init 2 60) requests in
  fst run = [false; false; true]
  /\ (Z.of_nat (length (in_window (snd run) 3%Q
                                  (accepted_times "user-1" requests (fst run))))
      <= 2)%Z.
Proof.
  cbv zeta. split; [reflexivity |].
  apply (@limiter_bounds_the_accepted_requests 2 60
           [("user-1", 1%Q); ("user-1", 2%Q); ("user-1", 3%Q)] "user-1" 3%Q).
  - lia.
  - intros r [<- | [<- | [<- | []]]]; unfold Qle; simpl; lia.
Defined.

Lemma requests_of_removed (user_id : string) (d : list (string * list Q)) :
  requests_of user_id
    (filter (fun kv => negb (String.eqb user_id (fst kv))) d) = None.
Proof.
  induction d as [| [k v] d IH]; simpl; [reflexivity |].
  destruct (String.eqb user_id k) eqn:E; simpl; [exact IH |].
  now rewrite E.
Qed.

Lemma requests_of_kept (user_id other : string) (d : list (string * list Q)) :
  other <> user_id ->
  requests_of other
    (filter (fun kv => negb (String.eqb user_id (fst kv))) d)
  = requests_of other d.
Proof.
  intros Hne. induction d as [| [k v] d IH]; simpl; [reflexivity |].
  destruct (String.eqb user_id k) eqn:E; simpl.
  - apply String.eqb_eq in E. subst k.
    apply String.eqb_neq in Hne. now rewrite Hne.
  - now rewrite IH.
Qed.

(** X27.  After [RateLimiter.reset_user_limits] the user has no request
    on record: the count is 0 and, when [max_requests] is positive, the
    next request is let through.  The records of the other users stay as
    they are. *)
Theorem reset_clears_one_user (current_time : Q) (rl : t) (user_id : string) :
  let rl' := reset_user_limits rl user_id in
  get_user_request_count current_time rl' user_id = 0%nat
  /\ ((0 < max_requests rl)%Z ->
      fst (is_rate_limited current_time rl' user_id) = false)
  /\ (forall other, other <> user_id ->
        requests_of other (user_requests rl')
        = requests_of other (user_requests rl)).
Proof.
  cbv zeta. unfold reset_user_limits, get_user_request_count, is_rate_limited.
  cbn [user_requests max_requests window_seconds].
  rewrite requests_of_removed. split; [reflexivity |]. split.
  - intros Hmax. unfold in_window. cbn [filter length].
    destruct (max_requests rl <=? Z.of_nat 0)%Z eqn:E; [| reflexivity].
    apply Z.leb_le in E. simpl in E. lia.
  - intros other Hne. now apply requests_of_kept.
Qed.

(** A user at the limit who is reset. *)
Lemma reset_clears_one_user_witness :
  fst (is_rate_limited 6
         (reset_user_limits
            (mkRateLimiter 5 60 [("user-1", [1; 2; 3; 4; 5])]) "user-1")
         "user-1") = false.
Proof.
  apply (proj1 (proj2 (@reset_clears_one_user 6
                         (mkRateLimiter 5 60 [("user-1", [1; 2; 3; 4; 5])])
                         "user-1"))).
  simpl. lia.
Defined.

End Limiter.

(** *** The query that goes into the prompt *)

Lemma mem_char_app (c : ascii) (a b : string) :
  Regex.mem_char c (a ++ b) = Regex.mem_char c a || Regex.mem_char c b.
Proof.
  induction a as [| x a IH]; simpl; [reflexivity |].
  now rewrite IH, orb_assoc.
Qed.

Lemma mem_char_take_cont (c : ascii) (s : string) :
  Regex.mem_char c (take_cont s) = true -> Regex.mem_char c s = true.
Proof.
  induction s as [| x s IH]; simpl; [auto |].
  destruct (is_cont x); simpl; [| discriminate].
  intros H. apply orb_prop in H. apply orb_true_iff. tauto.
Qed.

Lemma mem_char_drop_cont (c : ascii) (s : string) :
  Regex.mem_char c (drop_cont s) = true -> Regex.mem_char c s = true.
Proof.
  induction s as [| x s IH]; simpl; [auto |].
  destruct (is_cont x); simpl; [| auto].
  intros H. apply orb_true_iff. auto.
Qed.

Lemma mem_char_take (c : ascii) (n : nat) (s : string) :
  Regex.mem_char c (take n s) = true -> Regex.mem_char c s = true.
Proof.
  revert s. induction n as [| n IH]; intros s; [discriminate |].
  destruct s as [| x s]; [auto |]. cbn [take Regex.mem_char].
  rewrite mem_char_app. intros H. apply orb_true_iff.
  apply orb_prop in H. destruct H as [H | H]; [now left | right].
  apply orb_prop in H. destruct H as [H | H].
  - now apply mem_char_take_cont.
  - now apply mem_char_drop_cont, IH.
Qed.

Lemma mem_char_remove (p : ascii -> bool) (c : ascii) (s : string) :
  Regex.mem_char c (remove_chars p s) = true ->
  p c = false /\ Regex.mem_char c s = true.
Proof.
  induction s as [| x s IH]; simpl; [discriminate |].
  destruct (p x) eqn:E; simpl.
  - intros H. destruct (IH H) as [H1 H2]. split; [exact H1 |].
    apply orb_true_iff. now right.
  - intros H. apply orb_prop in H. destruct H as [H | H].
    + apply Ascii.eqb_eq in H. subst x. split; [exact E |].
      apply orb_true_iff. left. apply Ascii.eqb_refl.
    + destruct (IH H) as [H1 H2]. split; [exact H1 |].
      apply orb_true_iff. now right.
Qed.

Lemma py_len_app (a b : string) : py_len (a ++ b) = (py_len a + py_len b)%nat.
Proof.
  induction a as [| x a IH]; simpl; [reflexivity |].
  destruct (is_cont x); simpl; now rewrite IH.
Qed.

Lemma py_len_take_cont (s : string) : py_len (take_cont s) = 0%nat.
Proof.
  induction s as [| x s IH]; simpl; [reflexivity |].
  destruct (is_cont x) eqn:E; simpl; [now rewrite E | reflexivity].
Qed.

Lemma py_len_take (n : nat) (s : string) : (py_len (take n s) <= n)%nat.
Proof.
  revert s. induction n as [| n IH]; intros s; [simpl; lia |].
  destruct s as [| x s]; [simpl; lia |]. cbn [take py_len].
  rewrite py_len_app, py_len_take_cont. specialize (IH (drop_cont s)).
  destruct (is_cont x); lia.
Qed.

(** X28.  The query that [_sanitize_query] hands on has at most 500
    characters and holds none of the characters that the method removes
    (angle brackets, braces, square brackets, backslash); every character
    it holds is a character of the query as it was typed, or the space
    that stands for a run of blanks. *)
Theorem sanitized_query_is_short_and_harmless (query : string) :
  (py_len (_sanitize_query query) <= 500)%nat
  /\ forall c, Regex.mem_char c (_sanitize_query query) = true ->
       harmful_char c = false
       /\ (Regex.mem_char c query = true \/ c = " "%char).
Proof.
  unfold _sanitize_query.
  destruct (String.eqb query ""); [split; [simpl; lia | discriminate] |].
  set (clean := remove_chars harmful_char (collapse_blanks false (strip query))).
  assert (Hc : forall c, Regex.mem_char c clean = true ->
                 harmful_char c = false
                 /\ (Regex.mem_char c query = true \/ c = " "%char)).
  { intros c H. subst clean. apply mem_char_remove in H.
    destruct H as [H1 H2]. split; [exact H1 |].
    assert (Hcol : forall b s, Regex.mem_char c (collapse_blanks b s) = true ->
                     Regex.mem_char c s = true \/ c = " "%char).
    { intros b s. revert b. induction s as [| x s IH]; intros b; simpl;
        [discriminate |].
      destruct (is_space x).
      - destruct b; simpl.
        + intros H. destruct (IH _ H); [left | now right].
          apply orb_true_iff. now right.
        + intros H. apply orb_prop in H. destruct H as [H | H].
          * right. now apply Ascii.eqb_eq in H.
          * destruct (IH _ H); [left | now right].
            apply orb_true_iff. now right.
      - simpl. intros H. apply orb_prop in H. destruct H as [H | H].
        + left. apply orb_true_iff. now left.
        + destruct (IH _ H); [left | now right].
          apply orb_true_iff. now right. }
    destruct (Hcol _ _ H2) as [H | H]; [left | now right].
    clear - H. unfold strip in H.
    assert (Hr : forall s, Regex.mem_char c (rstrip s) = true ->
                           Regex.mem_char c s = true).
    { induction s as [| x s IH]; simpl; [auto |].
      destruct (rstrip s) eqn:E.
      - destruct (is_space x); simpl; [discriminate |].
        intros H'. apply orb_prop in H'. destruct H' as [H' | H'];
          [| discriminate]. apply orb_true_iff. now left.
      - simpl. intros H'. apply orb_prop in H'. apply orb_true_iff.
        destruct H' as [H' | H']; [now left | right]. apply IH. exact H'. }
    assert (Hl : forall s, Regex.mem_char c (lstrip s) = true ->
                           Regex.mem_char c s = true).
    { induction s as [| x s IH]; simpl; [auto |].
      destruct (is_space x); simpl; [| auto].
      intros H'. apply orb_true_iff. right. auto. }
    auto. }
  destruct (500 <? py_len clean)%nat eqn:E.
  - split; [apply py_len_take |].
    intros c H. apply Hc. eapply mem_char_take; eauto.
  - apply Nat.ltb_ge in E. split; [exact E | exact Hc].
Qed.

(** *** Genres and rating in the primary tier *)

Lemma safe_float_of_float (v : pyval) (q : Q) :
  py_float v = Ok q -> _safe_float_conversion v = q.
Proof.
  destruct v as [| b | z | x | s | l | d]; simpl; try discriminate;
    try (now intros [= ->]).
  intros H. destruct (String.eqb (strip s) "") eqn:E.
  - apply String.eqb_eq in E. unfold float_of_str in H. rewrite E in H.
    discriminate.
  - now rewrite H.
Qed.

Lemma passes_strict_genres {RT : Runtime} (filters : ExtractedFilters)
      (m : dict) :
  passes_strict filters m = Ok true ->
  genres filters <> [] ->
  exists g strs,
    In g (genres filters)
    /\ movie_genre_strs (get2 m "genre_ids" "genres" (PList [])) = Ok strs
    /\ In (py_str g) strs.
Proof.
  unfold passes_strict. intros H Hne. inv_bind H.
  destruct v; [| discriminate]. clear H.
  assert (En : nonempty (genres filters) = true)
    by (destruct (genres filters); [contradiction | reflexivity]).
  rewrite En in Hv.
  destruct (truthy _); [| discriminate].
  inv_bind Hv. apply Ok_inj in Hv. apply existsb_exists in Hv.
  destruct Hv as (x & Hx & Hmem). apply in_map_iff in Hx.
  destruct Hx as (g & <- & Hg). exists g, v. split; [exact Hg |].
  split; [exact Hv0 |]. now apply mem_str_In.
Qed.

Lemma passes_strict_rating {RT : Runtime} (filters : ExtractedFilters)
      (m : dict) (rr : RatingRange) (q : Q) :
  passes_strict filters m = Ok true ->
  rating_range filters = Some rr -> min_rating rr = Some q -> ~ q == 0 ->
  exists raw, rating_of m = Ok raw /\ q <= raw.
Proof.
  unfold passes_strict. intros H Hr Hq Hnz. inv_bind H.
  destruct (negb v); [discriminate |].
  destruct (negb _); [discriminate |].
  rewrite Hr in H. destruct rr as [lo hi]. simpl in Hq. subst lo.
  assert (Ht : truthy_Q (Some q) = true).
  { unfold truthy_Q, Qeq_zero. apply negb_true_iff.
    destruct (Qeq_bool q 0) eqn:E; [| reflexivity].
    apply Qeq_bool_iff in E. contradiction. }
  rewrite Ht in H. inv_bind H. injection H as H.
  exists v0. split; [exact Hv0 |].
  apply negb_true_iff in H. revert H. qcase v0 q; [discriminate | auto].
Qed.

Lemma primary_tier_source {RT : Runtime} {CO : Collaborators}
      (movies : list dict) (filters : ExtractedFilters)
      (recs : list MovieRecommendation) (r : MovieRecommendation) :
  _transform_movies_to_recommendations movies filters = Ok recs ->
  In r recs ->
  exists m,
    In m movies /\ passes_strict filters m = Ok true
    /\ movie r = _validate_and_normalize_movie_data m.
Proof.
  unfold _transform_movies_to_recommendations. intros H Hr.
  inv_bind H. injection H as <-.
  apply quality_floor_In, sort_desc_In, collect_In in Hr.
  destruct Hr as (m & Hm & Hrec).
  destruct (@filter_res_In _ _ _ _ _ Hv Hm) as [Hin Hs].
  destruct (@recommend_primary_shape _ _ _ _ _ Hrec)
    as (s & reasoning & _ & _ & ->).
  exists m. auto.
Qed.

(** X29.  A recommendation of the primary tier is built from one of the
    records that were handed in: a record that has one of the genres
    asked for, when genres are asked for, and whose rating is not below
    the minimum asked for, when one is asked for.  The rating that the
    recommendation shows is that rating (when it is not NaN), or 0 when
    it lies outside the range from 0 to 10. *)
Theorem primary_tier_respects_genres_and_rating
        {RT : Runtime} {CO : Collaborators}
        (movies : list dict) (filters : ExtractedFilters)
        (recs : list MovieRecommendation) (r : MovieRecommendation) :
  _transform_movies_to_recommendations movies filters = Ok recs ->
  In r recs ->
  exists m,
    In m movies
    /\ movie r = _validate_and_normalize_movie_data m
    /\ (genres filters <> [] ->
        exists g strs,
          In g (genres filters)
          /\ movie_genre_strs (get2 m "genre_ids" "genres" (PList []))
             = Ok strs
          /\ In (py_str g) strs)
    /\ (forall rr q,
          rating_range filters = Some rr -> min_rating rr = Some q ->
          ~ q == 0 ->
          exists raw,
            rating_of m = Ok raw /\ ~ raw < q
            /\ (comparable raw ->
                dict_get (movie r) "vote_average"
                = Some (PFloat (if Qlt_bool raw 0 || Qlt_bool 10 raw
                                then 0.0 else raw)))).
Proof.
  intros H Hr.
  destruct (@primary_tier_source _ _ _ _ _ _ H Hr)
    as (m & Hin & Hstrict & Hm).
  exists m. split; [exact Hin |]. split; [exact Hm |]. split.
  - now apply passes_strict_genres.
  - intros rr q Hrr Hq Hnz.
    destruct (@passes_strict_rating _ _ _ _ _ Hstrict Hrr Hq Hnz)
      as (raw & Hraw & Hle).
    exists raw. split; [exact Hraw |]. split; [lra |].
    intros _. rewrite Hm.
    unfold _validate_and_normalize_movie_data.
    cbn [dict_get String.eqb Ascii.eqb Bool.eqb].
    unfold rating_of in Hraw. now rewrite (safe_float_of_float _ Hraw).
Qed.

(** A drama of 8.4 points for a request of dramas of 7 points or more. *)
Lemma primary_tier_respects_genres_and_rating_witness :
  exists r m raw,
    @_transform_movies_to_recommendations Cases.runtime Cases.degraded
      [Cases.fight_club]
      (mkFilters [PStr "18"] None (Some (mkRatingRange (Some 7.0) None)) []
                 "recommendation" 0.9 []) = Ok [r]
    /\ In m [Cases.fight_club]
    /\ movie r = @_validate_and_normalize_movie_data Cases.runtime m
    /\ rating_of m = Ok raw /\ ~ raw < 7.0.
Proof.
  assert (H : exists r,
             @_transform_movies_to_recommendations Cases.runtime
               Cases.degraded [Cases.fight_club]
               (mkFilters [PStr "18"] None
                          (Some (mkRatingRange (Some 7.0) None)) []
                          "recommendation" 0.9 []) = Ok [r]).
  { eexists. vm_compute. reflexivity. }
  destruct H as (r & Hr).
  destruct (@primary_tier_respects_genres_and_rating Cases.runtime
              Cases.degraded _ _ _ r Hr (or_introl eq_refl))
    as (m & Hin & Hm & _ & Hrat).
  destruct (Hrat (mkRatingRange (Some 7.0) None) 7.0 eq_refl eq_refl
                 ltac:(discriminate))
    as (raw & Hraw & Hle & _).
  exists r, m, raw. auto.
Defined.

(** *** The filters as a dictionary *)

Lemma read_strings_map (l : list string) : read_strings (map PStr l) = Some l.
Proof.
  induction l as [| s l IH]; simpl; [reflexivity | now rewrite IH].
Qed.

Lemma year_range_round_trip (yr : YearRange) :
  year_range_from_dict (year_range_to_dict yr) = Some yr.
Proof. destruct yr as [[lo |] [hi |]]; reflexivity. Qed.

Lemma rating_range_round_trip (rr : RatingRange) :
  rating_range_from_dict (rating_range_to_dict rr) = Some rr.
Proof. destruct rr as [[lo |] [hi |]]; reflexivity. Qed.

(** X30.  [ExtractedFilters.from_dict] reads back what [to_dict] wrote:
    the genres, both ranges with their bounds (a missing range stays
    missing), the keywords, the intent, the confidence and the excluded
    ids. *)
Theorem filters_survive_the_dictionary (f : ExtractedFilters) :
  filters_from_dict (filters_to_dict f) = Some f.
Proof.
  destruct f as [gs yr rr ks i c ex].
  unfold filters_from_dict, filters_to_dict, get.
  cbn [dict_get String.eqb Ascii.eqb Bool.eqb genres year_range rating_range
       keywords intent confidence exclude_ids].
  unfold read_string_list. rewrite !read_strings_map.
  destruct yr as [yr |], rr as [rr |]; cbn [truthy year_range_to_dict
    rating_range_to_dict];
    try fold (year_range_to_dict yr); try fold (rating_range_to_dict rr);
    rewrite ?year_range_round_trip, ?rating_range_round_trip; reflexivity.
Qed.
